(** * mdCATH stratified sampling: the parser, the feature extractor, the
      sampler, the homology filter, the validator and the refinement loop,
      embedded from the Python sources

    Conventions of the embedding.

    - A Python [dict] is an association list in insertion order; lookup
      returns the first binding, so every list behaves as a dictionary.
    - A raised exception is the [Raise] branch of [result]; code that draws
      random numbers runs in the state-and-error monad [M] over a tape of
      raw draws, so that a statement for every tape is a statement for
      every outcome of the random generator.
    - Feature values are rationals (every finite float is one) or strings.
      Scores computed by the validator are read over the real numbers:
      rounding, nan and infinities are outside the model.
    - A sample ratio is a double: a rational given for it stands for the
      double nearest to it, as the literal 0.1 does in the source.  The
      arithmetic that decides how many members are drawn (the product of
      a length and the ratio, and the ratios of the refinement loop) is
      the arithmetic of doubles, rounded to nearest with ties to even.
    - scipy, numpy array arithmetic, scikit-learn and the iteration order of
      a Python [set] are not part of the repository: they are the fields of
      the class [Runtime].
    - The classification file is the list of its lines, a character is a
      code point below 256, and the builtin [int] is a parameter of the
      parser.
    - A pandas frame is the list of its rows, with the five columns that
      the extractor reads without a test and no missing cells;
      [series.std] and [pd.read_csv] are parameters of the extractor.  The
      one division of the extractor is between numpy floats: its outcome
      for a zero denominator is written out. *)

From Stdlib Require Import List String Ascii Bool Arith ZArith QArith Qround.
From Stdlib Require Import Qabs.
From Stdlib Require Import Reals Qreals Lia Lra Permutation.
From Stdlib Require Lqa.
Import ListNotations.

Local Open Scope string_scope.
Local Open Scope list_scope.
Local Open Scope nat_scope.

(* ================================================================== *)
(** * Part I: definitions *)
(* ================================================================== *)

(** ** Python values, exceptions and dictionaries *)

Module Py.

Inductive exn : Type :=
| IndexError
| KeyError (key : string)
| ValueError (msg : string)
| ZeroDivisionError.

Inductive result (A : Type) : Type :=
| Ok (a : A)
| Raise (e : exn).
Arguments Ok {A} a.
Arguments Raise {A} e.

Definition rbind {A B} (c : result A) (k : A -> result B) : result B :=
  match c with
  | Ok a => k a
  | Raise e => Raise e
  end.

(** A list comprehension whose element expression can raise. *)
Fixpoint rmap {A B} (f : A -> result B) (l : list A) : result (list B) :=
  match l with
  | [] => Ok []
  | x :: l' =>
      rbind (f x) (fun y => rbind (rmap f l') (fun ys => Ok (y :: ys)))
  end.

(** [l[i]] for a non-negative index. *)
Definition list_index {A} (l : list A) (i : nat) : result A :=
  match nth_error l i with
  | Some x => Ok x
  | None => Raise IndexError
  end.

Section Dict.
Context {K V : Type} (eqb : K -> K -> bool).

Definition dict := list (K * V).

Fixpoint dict_get (k : K) (d : dict) : option V :=
  match d with
  | [] => None
  | (k', v) :: d' => if eqb k k' then Some v else dict_get k d'
  end.

(** [k in d] *)
Definition dict_mem (k : K) (d : dict) : bool :=
  match dict_get k d with Some _ => true | None => false end.

(** [d.get(k, default)] *)
Definition dict_get_default (k : K) (default : V) (d : dict) : V :=
  match dict_get k d with Some v => v | None => default end.

(** [d[k] = v]: an existing key keeps its position. *)
Fixpoint dict_set (k : K) (v : V) (d : dict) : dict :=
  match d with
  | [] => [(k, v)]
  | (k', v') :: d' =>
      if eqb k k' then (k', v) :: d' else (k', v') :: dict_set k v d'
  end.

(** [x in l] for a list. *)
Definition mem (x : K) (l : list K) : bool := existsb (eqb x) l.

(** Distinct elements in order of first occurrence: the iteration order
    of dictionary keys and of [Counter]. *)
Fixpoint dedup_acc (seen : list K) (l : list K) : list K :=
  match l with
  | [] => []
  | x :: l' =>
      if mem x seen then dedup_acc seen l'
      else x :: dedup_acc (x :: seen) l'
  end.

Definition dedup (l : list K) : list K := dedup_acc [] l.

(** [list(d.keys())] *)
Definition dict_keys (d : dict) : list K := dedup (map fst d).

(** Number of occurrences, as [Counter] counts them. *)
Definition count (x : K) (l : list K) : nat :=
  List.length (filter (eqb x) l).
End Dict.

Arguments dict K V : clear implicits.

(** [d[k]] for a string key. *)
Definition dict_index {V} (k : string) (d : dict string V) : result V :=
  match dict_get String.eqb k d with
  | Some v => Ok v
  | None => Raise (KeyError k)
  end.

(** [s.endswith(suffix)] *)
Definition endswith (suffix s : string) : bool :=
  (String.length suffix <=? String.length s) &&
  String.eqb
    (substring (String.length s - String.length suffix)
               (String.length suffix) s)
    suffix.

(** [int(x)] on a number: truncation towards zero. *)
Definition py_int (x : Q) : Z := Z.quot (Qnum x) (Zpos (Qden x)).

(** [len(l)] as a number one can multiply with a ratio. *)
Definition len_Q {A} (l : list A) : Q := inject_Z (Z.of_nat (List.length l)).

(** The integer nearest to [a / b], the even one of two that are equally
    near. *)
Definition round_half_even (a : Z) (b : positive) : Z :=
  let f := (a / Z.pos b)%Z in
  match (2 * (a mod Z.pos b) ?= Z.pos b)%Z with
  | Lt => f
  | Gt => (f + 1)%Z
  | Eq => if Z.even f then f else (f + 1)%Z
  end.

(** The exponent [c] with [2 ^ c <= |x| < 2 ^ (c + 1)], for [x] other
    than 0. *)
Definition binade (x : Q) : Z :=
  let p := Z.abs (Qnum x) in
  let q := Z.pos (Qden x) in
  let c := (Z.log2 p - Z.log2 q)%Z in
  if (0 <=? c)%Z
  then (if (q * 2 ^ c <=? p)%Z then c else c - 1)%Z
  else (if (q <=? p * 2 ^ (- c))%Z then c else c - 1)%Z.

(** The double nearest to [x], ties to even: 53 significant bits, and
    multiples of [2 ^ -1074] near zero.  Magnitudes from [2 ^ 53] on,
    where doubles are more than 1 apart, are outside the model and are
    kept as they are: no length of a list in memory reaches them, and so
    no product of a length with a ratio of at most 1. *)
Definition round_double (x : Q) : Q :=
  if Qle_bool (inject_Z (2 ^ 53)) (Qabs x) then x
  else
    let e := Z.max (binade x - 52) (-1074) in
    let scale := Z.to_pos (2 ^ (- e)) in
    Qred (round_half_even (Qnum x * Z.pos scale) (Qden x) # scale).

(** [a * b] and [a + b] on doubles. *)
Definition float_mul (a b : Q) : Q := round_double (a * b).
Definition float_add (a b : Q) : Q := round_double (a + b).

(** [n * sample_ratio] for a length [n], which is a double as it is. *)
Definition scaled_length (n : nat) (sample_ratio : Q) : Q :=
  float_mul (inject_Z (Z.of_nat n)) (round_double sample_ratio).

(** A value stored in a feature record. *)
Inductive value : Type :=
| VNum (q : Q)
| VStr (s : string).

(** [==] on values: numbers compare by value, a string never equals a
    number. *)
Definition value_eqb (a b : value) : bool :=
  match a, b with
  | VNum p, VNum q => Qeq_bool p q
  | VStr s, VStr t => String.eqb s t
  | _, _ => false
  end.

(** Stable insertion sort, the order of [sorted(l, key=...)]: [le a b]
    says that [a] may stay in front of [b]. *)
Section Sorted.
Context {A : Type} (le : A -> A -> bool).

Fixpoint insert_sorted (x : A) (l : list A) : list A :=
  match l with
  | [] => [x]
  | y :: l' => if le x y then x :: l else y :: insert_sorted x l'
  end.

Definition sorted (l : list A) : list A :=
  fold_right insert_sorted [] l.
End Sorted.

End Py.
Import Py.

Declare Scope result_scope.
Delimit Scope result_scope with result.
Notation "x <- c ;; k" := (rbind c (fun x => k))
  (at level 61, c at next level, right associativity) : result_scope.

(** ** The data of the pipeline *)

Definition DomainId := string.
Definition FeatureRecord := dict string value.
Definition FeatureStore := dict DomainId FeatureRecord.
Definition ClassificationCode := (Z * Z * Z * Z)%type.
Definition ClassificationIndex := dict DomainId ClassificationCode.
Definition ValidationResult := dict string R.

(** ** What the libraries and the interpreter provide *)

Class Runtime : Type := {
  (** [scipy.stats.kstest(a, b)[1]]: the p-value of the two-sample test. *)
  kstest : list value -> list value -> result R;
  (** [scipy.stats.chi2.cdf(x, df)] *)
  chi2_cdf : Q -> nat -> R;
  (** [(np.array(m) - mean) / (std + 1e-10)], column by column. *)
  np_standardize : list (list value) -> result (list (list R));
  (** [KMeans(n_clusters=k, random_state=42).fit_predict(x)] *)
  kmeans_fit_predict : nat -> list (list R) -> result (list nat);
  (** The order in which a [set] of strings with these members is
      iterated. *)
  set_order : list DomainId -> list DomainId
}.

(** ** validation.py *)

Module Validation.
Section WithRuntime.
Context {RT : Runtime}.

Local Open Scope result_scope.

Definition str_get {V} := @dict_get string V String.eqb.
Definition str_mem {V} := @dict_mem string V String.eqb.
Definition str_set {V} := @dict_set string V String.eqb.

(** [x ** (1/3)] read over the reals: the cube root of a positive base
    and 0 at 0.  On a negative base numpy yields nan, which the reals do
    not have; the model takes 0 there, and the validator does not reach
    that branch when the tests return probabilities (lemma
    [factors_nonneg] of the second part). *)
Definition pow_third (x : R) : R :=
  if Rlt_dec 0 x then exp (ln x / 3) else 0%R.

(** [np.mean(l)] of a non-empty list. *)
Definition np_mean (l : list R) : R :=
  (fold_right Rplus 0 l / INR (List.length l))%R.

(** [[domain_features[d][field] for d in ds]] *)
Definition feature_column (domain_features : FeatureStore)
    (field : string) (ds : list DomainId) : result (list value) :=
  rmap (fun d => rec <- dict_index d domain_features ;; dict_index field rec)
       ds.

(** The record looked at by both availability tests:
    [domain_features.get(holdout_with_features[0], {})]. *)
Definition first_record (domain_features : FeatureStore)
    (holdout_with_features : list DomainId) : result FeatureRecord :=
  first <- list_index holdout_with_features 0 ;;
  Ok (dict_get_default String.eqb first [] domain_features).

(** 1. Domain size distribution. *)
Definition validate_size (domain_features : FeatureStore)
    (holdout_with_features all_with_features : list DomainId)
    (validation_results : ValidationResult) : result ValidationResult :=
  holdout_sizes <- feature_column domain_features "size" holdout_with_features ;;
  all_sizes <- feature_column domain_features "size" all_with_features ;;
  ks_size_pval <- kstest holdout_sizes all_sizes ;;
  Ok (str_set "ks_size_pval" ks_size_pval validation_results).

(** [[d for d in ds if field in domain_features[d]]] *)
Definition having (domain_features : FeatureStore) (field : string)
    (ds : list DomainId) : result (list DomainId) :=
  kept <- rmap (fun d => rec <- dict_index d domain_features ;;
                         Ok (d, str_mem field rec)) ds ;;
  Ok (map fst (filter snd kept)).

(** 2. RMSF distribution at 320K. *)
Definition validate_rmsf (domain_features : FeatureStore)
    (holdout_with_features all_with_features : list DomainId)
    (validation_results : ValidationResult) : result ValidationResult :=
  first <- first_record domain_features holdout_with_features ;;
  if str_mem "avg_rmsf_320" first then
    hs <- having domain_features "avg_rmsf_320" holdout_with_features ;;
    holdout_rmsf <- feature_column domain_features "avg_rmsf_320" hs ;;
    als <- having domain_features "avg_rmsf_320" all_with_features ;;
    all_rmsf <- feature_column domain_features "avg_rmsf_320" als ;;
    ks_rmsf_pval <- kstest holdout_rmsf all_rmsf ;;
    Ok (str_set "ks_rmsf_pval" ks_rmsf_pval validation_results)
  else Ok validation_results.

(** 3. Secondary structure composition. *)
Definition validate_secondary (domain_features : FeatureStore)
    (holdout_with_features all_with_features : list DomainId)
    (validation_results : ValidationResult) : result ValidationResult :=
  holdout_helix <- feature_column domain_features "helix_pct" holdout_with_features ;;
  all_helix <- feature_column domain_features "helix_pct" all_with_features ;;
  holdout_sheet <- feature_column domain_features "sheet_pct" holdout_with_features ;;
  all_sheet <- feature_column domain_features "sheet_pct" all_with_features ;;
  ks_helix_pval <- kstest holdout_helix all_helix ;;
  ks_sheet_pval <- kstest holdout_sheet all_sheet ;;
  Ok (str_set "ks_sheet_pval" ks_sheet_pval
        (str_set "ks_helix_pval" ks_helix_pval validation_results)).

(** [[cath_dict[d] for d in ds if d in cath_dict]] *)
Definition cath_of (cath_dict : ClassificationIndex) (ds : list DomainId)
    : list ClassificationCode :=
  flat_map (fun d => match str_get d cath_dict with
                     | Some c => [c]
                     | None => []
                     end) ds.

Definition code_c (c : ClassificationCode) : Z :=
  let '(c0, _, _, _) := c in c0.
Definition code_ca (c : ClassificationCode) : Z * Z :=
  let '(c0, a, _, _) := c in (c0, a).
Definition code_cat (c : ClassificationCode) : Z * Z * Z :=
  let '(c0, a, t, _) := c in (c0, a, t).

Definition pair_eqb (x y : Z * Z) : bool :=
  Z.eqb (fst x) (fst y) && Z.eqb (snd x) (snd y).
Definition triple_eqb (x y : Z * Z * Z) : bool :=
  pair_eqb (fst x) (fst y) && Z.eqb (snd x) (snd y).

Definition Qsquare (x : Q) : Q := (x * x)%Q.

(** The chi-squared statistic over the top-level codes of the full
    population; [expected[c]] is the full count scaled by the size
    ratio. *)
Definition chi2_statistic (holdout_class all_class : list Z) : Q :=
  let expected c :=
    (inject_Z (Z.of_nat (count Z.eqb c all_class)) * len_Q holdout_class
     / len_Q all_class)%Q in
  fold_left
    (fun chi2 c =>
       let observed := inject_Z (Z.of_nat (count Z.eqb c holdout_class)) in
       if negb (Qle_bool (expected c) 0)
       then (chi2 + Qsquare (observed - expected c) / expected c)%Q
       else chi2)
    (dedup Z.eqb all_class) 0%Q.

(** 4. CATH classification counts. *)
Definition validate_class (holdout_cath all_cath : list ClassificationCode)
    (validation_results : ValidationResult) : ValidationResult :=
  let holdout_class := map code_c holdout_cath in
  let all_class := map code_c all_cath in
  let holdout_class_count := dedup Z.eqb holdout_class in
  let all_class_count := dedup Z.eqb all_class in
  if (1 <? List.length holdout_class_count)
     && (1 <? List.length all_class_count)
  then
    let chi2 := chi2_statistic holdout_class all_class in
    let df := List.length all_class_count - 1 in
    str_set "chi2_class_pval" (1 - chi2_cdf chi2 df)%R validation_results
  else validation_results.

(** [[domain_features[d].get('stability_class', 'unknown') for d in ds]] *)
Definition stability_column (domain_features : FeatureStore)
    (ds : list DomainId) : result (list value) :=
  rmap (fun d => rec <- dict_index d domain_features ;;
                 Ok (dict_get_default String.eqb "stability_class"
                       (VStr "unknown") rec)) ds.

(** [len(a) / len(b) if b else 1.0] *)
Definition coverage {A} (a b : list A) : Q :=
  match b with
  | [] => 1%Q
  | _ => (len_Q a / len_Q b)%Q
  end.

(** 5. Stability class representation. *)
Definition validate_stability (domain_features : FeatureStore)
    (holdout_with_features all_with_features : list DomainId)
    (validation_results : ValidationResult) : result ValidationResult :=
  first <- first_record domain_features holdout_with_features ;;
  if str_mem "stability_class" first then
    holdout_stability <- stability_column domain_features holdout_with_features ;;
    all_stability <- stability_column domain_features all_with_features ;;
    let stability_classes := dedup value_eqb all_stability in
    let represented_classes := dedup value_eqb holdout_stability in
    let stability_coverage := coverage represented_classes stability_classes in
    Ok (str_set "stability_coverage" (Q2R stability_coverage)
          validation_results)
  else Ok validation_results.

(** The weighted hierarchy coverage. *)
Definition hierarchy_coverage_of (holdout_cath all_cath : list ClassificationCode)
    : Q :=
  let all_c := dedup Z.eqb (map code_c all_cath) in
  let all_ca := dedup pair_eqb (map code_ca all_cath) in
  let all_cat := dedup triple_eqb (map code_cat all_cath) in
  let holdout_c := dedup Z.eqb (map code_c holdout_cath) in
  let holdout_ca := dedup pair_eqb (map code_ca holdout_cath) in
  let holdout_cat := dedup triple_eqb (map code_cat holdout_cath) in
  let c_coverage := coverage holdout_c all_c in
  let ca_coverage := coverage holdout_ca all_ca in
  let cat_coverage := coverage holdout_cat all_cat in
  ((2 # 10) * c_coverage + (3 # 10) * ca_coverage + (5 # 10) * cat_coverage)%Q.

(** [[v for k, v in validation_results.items() if k.endswith('_pval')]] *)
Definition p_values_of (validation_results : ValidationResult) : list R :=
  map snd (filter (fun kv => endswith "_pval" (fst kv)) validation_results).

(** [np.mean(p_values) if p_values else 0.0] *)
Definition average_p_value (validation_results : ValidationResult) : R :=
  let p_values := p_values_of validation_results in
  match p_values with
  | [] => 0%R
  | _ => np_mean p_values
  end.

(** Lines 86 to 111: hierarchy coverage, distribution similarity and the
    index, stored in this order. *)
Definition summarize (hierarchy_coverage : R)
    (validation_results : ValidationResult) : ValidationResult :=
  let validation_results :=
    str_set "hierarchy_coverage" hierarchy_coverage validation_results in
  let distribution_similarity := average_p_value validation_results in
  let validation_results :=
    str_set "distribution_similarity" distribution_similarity
            validation_results in
  let stability_coverage :=
    dict_get_default String.eqb "stability_coverage" 1%R validation_results in
  let ri :=
    pow_third (distribution_similarity * hierarchy_coverage
               * stability_coverage) in
  str_set "representation_index" ri validation_results.

Definition statistical_validation (holdout_domains all_domains : list DomainId)
    (domain_features : FeatureStore) (cath_dict : ClassificationIndex)
    : result ValidationResult :=
  let validation_results : ValidationResult := [] in
  let holdout_with_features :=
    filter (fun d => str_mem d domain_features) holdout_domains in
  let all_with_features :=
    filter (fun d => str_mem d domain_features) all_domains in
  validation_results <-
    validate_size domain_features holdout_with_features all_with_features
                  validation_results ;;
  validation_results <-
    validate_rmsf domain_features holdout_with_features all_with_features
                  validation_results ;;
  validation_results <-
    validate_secondary domain_features holdout_with_features
                       all_with_features validation_results ;;
  let holdout_cath := cath_of cath_dict holdout_domains in
  let all_cath := cath_of cath_dict all_domains in
  let validation_results :=
    validate_class holdout_cath all_cath validation_results in
  validation_results <-
    validate_stability domain_features holdout_with_features
                       all_with_features validation_results ;;
  Ok (summarize (Q2R (hierarchy_coverage_of holdout_cath all_cath))
                validation_results).

Definition calculate_representation_index
    (validation_results : ValidationResult) : R :=
  let distribution_similarity :=
    dict_get_default String.eqb "distribution_similarity" 0%R
                     validation_results in
  let hierarchy_coverage :=
    dict_get_default String.eqb "hierarchy_coverage" 0%R validation_results in
  let stability_coverage :=
    dict_get_default String.eqb "stability_coverage" 0%R validation_results in
  pow_third (distribution_similarity * hierarchy_coverage
             * stability_coverage).

End WithRuntime.
End Validation.

(** ** The random generator *)

Module Random.

(** The tape of raw draws that numpy's global generator will deliver; an
    exhausted tape delivers zeros. *)
Definition rng := list N.

Definition M (A : Type) : Type := rng -> result (A * rng).

Definition ret {A} (a : A) : M A := fun g => Ok (a, g).

Definition bind {A B} (c : M A) (k : A -> M B) : M B :=
  fun g => match c g with
           | Ok (a, g') => k a g'
           | Raise e => Raise e
           end.

Definition raise {A} (e : exn) : M A := fun _ => Raise e.

Definition lift {A} (c : result A) : M A :=
  fun g => match c with
           | Ok a => Ok (a, g)
           | Raise e => Raise e
           end.

Definition next_raw : M N :=
  fun g => match g with
           | [] => Ok (0%N, [])
           | x :: g' => Ok (x, g')
           end.

(** A [for] loop that updates an accumulator. *)
Fixpoint mfold {A B} (f : B -> A -> M B) (l : list A) (b : B) : M B :=
  match l with
  | [] => ret b
  | x :: l' => bind (f b x) (mfold f l')
  end.

(** [np.random.random()]: 53 random bits scaled into [0, 1). *)
Definition np_random : M Q :=
  bind next_raw (fun raw =>
  ret (inject_Z (Z.of_N (raw mod 2 ^ 53)) / inject_Z (2 ^ 53))%Q).

Fixpoint remove_at {A} (i : nat) (l : list A) {struct l} : list A :=
  match l with
  | [] => []
  | x :: l' =>
      match i with
      | 0 => l'
      | S i' => x :: remove_at i' l'
      end
  end.

Definition pick_position (raw : N) (n : nat) : nat :=
  N.to_nat (raw mod N.of_nat n).

(** [np.random.choice(l)] *)
Definition np_choice {A} (l : list A) : M A :=
  match l with
  | [] => raise (ValueError "a must be non-empty")
  | x0 :: _ =>
      bind next_raw (fun raw => ret (nth (pick_position raw (List.length l)) l x0))
  end.

(** [k] draws from [pool], each among the members not drawn yet. *)
Fixpoint draw {A} (k : nat) (pool : list A) : M (list A) :=
  match k with
  | 0 => ret []
  | S k' =>
      match pool with
      | [] => raise (ValueError "a must be non-empty")
      | x0 :: _ =>
          bind next_raw (fun raw =>
          let i := pick_position raw (List.length pool) in
          bind (draw k' (remove_at i pool)) (fun rest =>
          ret (nth i pool x0 :: rest)))
      end
  end.

(** [np.random.choice(l, k, replace=False)] *)
Definition np_choice_without_replacement {A} (l : list A) (k : nat)
    : M (list A) :=
  if List.length l <? k
  then raise (ValueError "Cannot take a larger sample than population when 'replace=False'")
  else draw k l.



End Random.
Import Random.

Declare Scope rand_scope.
Delimit Scope rand_scope with rand.
Notation "x <- c ;; k" := (bind c (fun x => k))
  (at level 61, c at next level, right associativity) : rand_scope.

(** ** sampling.py *)

Module Sampling.
Section WithRuntime.
Context {RT : Runtime}.

Import Validation.
Local Open Scope rand_scope.

(** [list(enumerate(l))] *)
Definition enumerate {A} (l : list A) : list (nat * A) :=
  combine (seq 0 (List.length l)) l.

(** *** network_aware_sampling *)

(** [domain[:4]] *)
Definition pdb_id (domain : DomainId) : string := substring 0 4 domain.

Definition code_eqb (x y : ClassificationCode) : bool :=
  let '(c1, a1, t1, h1) := x in
  let '(c2, a2, t2, h2) := y in
  Z.eqb c1 c2 && Z.eqb a1 a2 && Z.eqb t1 t2 && Z.eqb h1 h2.

(** The test under which the double loop adds an edge. *)
Definition linked (cath_dict : ClassificationIndex)
    (domain1 domain2 : DomainId) : bool :=
  if String.eqb (pdb_id domain1) (pdb_id domain2) then true
  else match str_get domain1 cath_dict, str_get domain2 cath_dict with
       | Some x, Some y => code_eqb x y
       | _, _ => false
       end.

Record Graph : Type := {
  nodes : list DomainId;
  edges : list (DomainId * DomainId)
}.

(** [G.add_node(domain)] for every candidate. *)
Definition graph_nodes (candidate_domains : list DomainId) : list DomainId :=
  fold_left (fun ns domain => if mem String.eqb domain ns then ns
                              else ns ++ [domain])
            candidate_domains [].

(** The loops over [i] and [j > i]. *)
Fixpoint graph_edges (cath_dict : ClassificationIndex)
    (candidate_domains : list DomainId) (es : list (DomainId * DomainId))
    : list (DomainId * DomainId) :=
  match candidate_domains with
  | [] => es
  | domain1 :: later =>
      graph_edges cath_dict later
        (fold_left (fun es domain2 =>
                      if linked cath_dict domain1 domain2
                      then es ++ [(domain1, domain2)] else es)
                   later es)
  end.

Definition build_graph (cath_dict : ClassificationIndex)
    (candidate_domains : list DomainId) : Graph :=
  {| nodes := graph_nodes candidate_domains;
     edges := graph_edges cath_dict candidate_domains [] |}.

Definition adjacent (G : Graph) (u v : DomainId) : bool :=
  existsb (fun e => (String.eqb (fst e) u && String.eqb (snd e) v)
                    || (String.eqb (fst e) v && String.eqb (snd e) u))
          (edges G).

(** The nodes next to the component found so far and not yet in it. *)
Definition frontier (G : Graph) (component : list DomainId)
    : list DomainId :=
  filter (fun v => negb (mem String.eqb v component)
                   && existsb (fun u => adjacent G u v) component)
         (nodes G).

(** The breadth-first search of networkx, round by round: the frontier is
    added to the component until it is empty. *)
Fixpoint grow (fuel : nat) (G : Graph) (component : list DomainId)
    : list DomainId :=
  match fuel with
  | 0 => component
  | S fuel' =>
      match frontier G component with
      | [] => component
      | next => grow fuel' G (component ++ next)
      end
  end.

(** The nodes that a search has not reached: the measure that bounds the
    number of rounds. *)
Definition missing (G : Graph) (component : list DomainId) : nat :=
  List.length (filter (fun v => negb (mem String.eqb v component)) (nodes G)).

(** A set of nodes that contains every neighbour of its members. *)
Definition closed_in (G : Graph) (c : list DomainId) : Prop :=
  forall u v, In u c -> In v (nodes G) -> adjacent G u v = true -> In v c.

Definition plain_bfs (G : Graph) (source : DomainId) : list DomainId :=
  grow (List.length (nodes G)) G [source].

(** [nx.connected_components(G)]: a search from every node not seen yet,
    in the order of the nodes. *)
Fixpoint components_from (G : Graph) (todo seen : list DomainId)
    : list (list DomainId) :=
  match todo with
  | [] => []
  | v :: todo' =>
      if mem String.eqb v seen then components_from G todo' seen
      else let c := plain_bfs G v in
           c :: components_from G todo' (seen ++ c)
  end.

Definition connected_components (G : Graph) : list (list DomainId) :=
  components_from G (nodes G) [].

(** [sorted(connected_components, key=len, reverse=True)] *)
Definition sort_components (cs : list (list DomainId))
    : list (list DomainId) :=
  sorted (fun a b => List.length b <=? List.length a) cs.

(** [stability_counts] of one component, in the order in which its members
    are met. *)
Definition stability_counts (domain_features : FeatureStore)
    (component : list DomainId) : dict value nat :=
  fold_left
    (fun counts domain =>
       match str_get domain domain_features with
       | Some rec =>
           let stability_class :=
             dict_get_default String.eqb "stability_class" (VStr "unknown") rec in
           dict_set value_eqb stability_class
             (dict_get_default value_eqb stability_class 0 counts + 1) counts
       | None => counts
       end)
    (set_order component) [].

(** [max(items, key=lambda x: x[1])]: the first item with the largest
    count. *)
Definition max_by_count (first : value * nat) (others : list (value * nat))
    : value * nat :=
  fold_left (fun best item => if snd best <? snd item then item else best)
            others first.

Definition majority_class (domain_features : FeatureStore)
    (component : list DomainId) : value :=
  match stability_counts domain_features component with
  | [] => VStr "unknown"
  | first :: others => fst (max_by_count first others)
  end.

(** [stability_components]: the sorted components with their positions,
    grouped by majority class. *)
Definition bucket_components (domain_features : FeatureStore)
    (sorted_components : list (list DomainId))
    : dict value (list (nat * list DomainId)) :=
  fold_left
    (fun stability_components ic =>
       let majority := majority_class domain_features (snd ic) in
       dict_set value_eqb majority
         (dict_get_default value_eqb majority [] stability_components ++ [ic])
         stability_components)
    (enumerate sorted_components) [].

(** [max(1, int(len(components) * sample_ratio))] *)
Definition class_sample_size (n : nat) (sample_ratio : Q) : Z :=
  Z.max 1 (py_int (scaled_length n sample_ratio)).

(** The body of the loop over the stability classes: the positions, among
    the sorted components, of the components drawn from one bucket. *)
Definition sample_bucket (sample_ratio : Q)
    (components : list (nat * list DomainId)) : M (list nat) :=
  let size := class_sample_size (List.length components) sample_ratio in
  selected_indices <-
    np_choice_without_replacement (seq 0 (List.length components))
                                  (Z.to_nat size) ;;
  lift (rmap (fun idx => rbind (list_index components idx)
                               (fun ic => Ok (fst ic)))
             selected_indices).

Definition sample_indices (sample_ratio : Q)
    (stability_components : dict value (list (nat * list DomainId)))
    : M (list nat) :=
  mfold (fun sampled_indices bucket =>
           picked <- sample_bucket sample_ratio (snd bucket) ;;
           ret (sampled_indices ++ picked))
        stability_components [].

(** [final_holdout.extend(sorted_components[idx])] for the sorted
    positions. *)
Definition extend_with (sorted_components : list (list DomainId))
    (indices : list nat) : result (list DomainId) :=
  fold_left
    (fun final_holdout idx =>
       rbind final_holdout (fun acc =>
       rbind (list_index sorted_components idx) (fun component =>
       Ok (acc ++ set_order component))))
    indices (Ok []).

(** The source also computes [num_components_to_sample], the same
    expression over all components, and never uses it; it is left out. *)
Definition network_aware_sampling (candidate_domains : list DomainId)
    (domain_features : FeatureStore) (cath_dict : ClassificationIndex)
    (sample_ratio : Q) : M (list DomainId) :=
  let G := build_graph cath_dict candidate_domains in
  let connected_components := connected_components G in
  let sorted_components := sort_components connected_components in
  let stability_components :=
    bucket_components domain_features sorted_components in
  sampled_indices <- sample_indices sample_ratio stability_components ;;
  lift (extend_with sorted_components (sorted Nat.leb sampled_indices)).


(** *** hierarchical_stratified_sampling *)

Definition Hierarchy := dict Z (dict Z (dict Z (list DomainId))).

(** [cath_hierarchy[c][a][t].append(domain)] on nested [defaultdict]s. *)
Definition hierarchy_append (c a t : Z) (domain : DomainId)
    (cath_hierarchy : Hierarchy) : Hierarchy :=
  let architectures := dict_get_default Z.eqb c [] cath_hierarchy in
  let topologies := dict_get_default Z.eqb a [] architectures in
  let domain_list := dict_get_default Z.eqb t [] topologies in
  dict_set Z.eqb c
    (dict_set Z.eqb a
       (dict_set Z.eqb t (domain_list ++ [domain]) topologies)
       architectures)
    cath_hierarchy.

(** The domains of both inputs, in the order in which the set is
    iterated. *)
Definition common_domains (domain_features : FeatureStore)
    (cath_dict : ClassificationIndex) : list DomainId :=
  set_order (filter (fun d => mem String.eqb d (dict_keys String.eqb cath_dict))
                    (dict_keys String.eqb domain_features)).

Definition build_hierarchy (cath_dict : ClassificationIndex)
    (domains : list DomainId) : Hierarchy :=
  fold_left
    (fun cath_hierarchy domain =>
       match str_get domain cath_dict with
       | Some (c, a, t, h) => hierarchy_append c a t domain cath_hierarchy
       | None => cath_hierarchy
       end)
    domains [].

(** [max(1, int(np.ceil(len(domain_list) * sample_ratio)))] *)
Definition n_clusters_of (n : nat) (sample_ratio : Q) : Z :=
  Z.max 1 (Qceiling (scaled_length n sample_ratio)).

(** The row of the feature matrix built from one record. *)
Definition feature_vector (rec : FeatureRecord) : list value :=
  let features :=
    [ dict_get_default String.eqb "size" (VNum 0) rec;
      dict_get_default String.eqb "helix_pct" (VNum 0) rec;
      dict_get_default String.eqb "sheet_pct" (VNum 0) rec;
      dict_get_default String.eqb "core_ratio" (VNum 0) rec;
      dict_get_default String.eqb "avg_accessibility" (VNum 0) rec ] in
  match str_get "avg_rmsf_320" rec with
  | Some rmsf => features ++ [rmsf]
  | None => features
  end.

(** [feature_matrix] and [domain_order] after the loop over the stratum. *)
Definition stratum_matrix (domain_features : FeatureStore)
    (domain_list : list DomainId) : list (list value) * list DomainId :=
  fold_left
    (fun acc domain =>
       match str_get domain domain_features with
       | Some rec => (fst acc ++ [feature_vector rec], snd acc ++ [domain])
       | None => acc
       end)
    domain_list ([], []).

(** [[domain_order[i] for i, c in enumerate(clusters) if c == cluster_id]] *)
Definition cluster_domains (domain_order : list DomainId)
    (clusters : list nat) (cluster_id : nat) : result (list DomainId) :=
  rmap (fun ic => list_index domain_order (fst ic))
       (filter (fun ic => snd ic =? cluster_id) (enumerate clusters)).

(** The loop over [range(n_clusters)]: one random member of every cluster
    that has members. *)
Definition pick_representatives (domain_order : list DomainId)
    (clusters : list nat) (n_clusters : nat) (holdout_domains : list DomainId)
    : M (list DomainId) :=
  mfold (fun holdout_domains cluster_id =>
           members <- lift (cluster_domains domain_order clusters cluster_id) ;;
           match members with
           | [] => ret holdout_domains
           | _ => chosen <- np_choice members ;;
                  ret (holdout_domains ++ [chosen])
           end)
        (seq 0 n_clusters) holdout_domains.

(** A stratum of at least ten domains. *)
Definition sample_large_stratum (domain_features : FeatureStore)
    (sample_ratio : Q) (domain_list : list DomainId)
    (holdout_domains : list DomainId) : M (list DomainId) :=
  let n_clusters :=
    Z.to_nat (n_clusters_of (List.length domain_list) sample_ratio) in
  let '(feature_matrix, domain_order) :=
    stratum_matrix domain_features domain_list in
  match feature_matrix with
  | [] => ret holdout_domains
  | _ =>
      standardized <- lift (np_standardize feature_matrix) ;;
      clusters <- lift (kmeans_fit_predict n_clusters standardized) ;;
      pick_representatives domain_order clusters n_clusters holdout_domains
  end.

(** A stratum of one to nine domains. *)
Definition sample_small_stratum (sample_ratio : Q)
    (domain_list : list DomainId) (holdout_domains : list DomainId)
    : M (list DomainId) :=
  match domain_list with
  | [only] =>
      u <- np_random ;;
      if negb (Qle_bool (round_double sample_ratio) u)
      then ret (holdout_domains ++ [only])
      else ret holdout_domains
  | _ =>
      let num_to_sample :=
        Z.max 1 (py_int (scaled_length (List.length domain_list)
                                       sample_ratio)) in
      sampled <- np_choice_without_replacement domain_list
                   (Z.to_nat num_to_sample) ;;
      ret (holdout_domains ++ sampled)
  end.

(** The body of the innermost loop. *)
Definition sample_stratum (domain_features : FeatureStore)
    (sample_ratio : Q) (holdout_domains : list DomainId)
    (domain_list : list DomainId) : M (list DomainId) :=
  if 10 <=? List.length domain_list then
    sample_large_stratum domain_features sample_ratio domain_list
                         holdout_domains
  else if 0 <? List.length domain_list then
    sample_small_stratum sample_ratio domain_list holdout_domains
  else ret holdout_domains.

(** The three nested loops over the hierarchy. *)
Definition sample_hierarchy (domain_features : FeatureStore)
    (sample_ratio : Q) (cath_hierarchy : Hierarchy) : M (list DomainId) :=
  mfold (fun holdout_domains c_entry =>
    mfold (fun holdout_domains a_entry =>
      mfold (fun holdout_domains t_entry =>
               sample_stratum domain_features sample_ratio holdout_domains
                              (snd t_entry))
            (snd a_entry) holdout_domains)
      (snd c_entry) holdout_domains)
    cath_hierarchy [].

Definition hierarchical_stratified_sampling (domain_features : FeatureStore)
    (cath_dict : ClassificationIndex) (sample_ratio : Q) : M (list DomainId) :=
  let domains := common_domains domain_features cath_dict in
  let cath_hierarchy := build_hierarchy cath_dict domains in
  holdout_domains <-
    sample_hierarchy domain_features sample_ratio cath_hierarchy ;;
  network_aware_sampling holdout_domains domain_features cath_dict
                         sample_ratio.

End WithRuntime.
End Sampling.

(** ** main.py *)

Module Main.
Section WithRuntime.
Context {RT : Runtime}.

Import Validation Sampling.
Local Open Scope rand_scope.

(** One pass of sampler, filter and validator, as the history of the run
    records it: the ratio used, the holdout list and the index printed. *)
Record Run : Type := {
  run_ratio : Q;
  run_holdout : list DomainId;
  run_index : R
}.

(** The two calls that main makes, first before and then inside the
    loop. *)
Definition pipeline (domain_features : FeatureStore)
    (cath_dict : ClassificationIndex) (all_domains : list DomainId)
    (sample_ratio : Q) : M Run :=
  holdout_domains <-
    hierarchical_stratified_sampling domain_features cath_dict sample_ratio ;;
  validation_results <-
    lift (statistical_validation holdout_domains all_domains domain_features
                                 cath_dict) ;;
  ri <- lift (dict_index "representation_index" validation_results) ;;
  ret {| run_ratio := sample_ratio;
         run_holdout := holdout_domains;
         run_index := ri |}.

(** [ri < 0.9] *)
Definition below_threshold (ri : R) : bool :=
  if Rlt_dec ri (9 / 10) then true else false.

Definition max_iterations : nat := 5.

(** The literal [0.1]. *)
Definition tenth : Q := round_double (1 # 10).

(** [0.1 * (1 + 0.1 * iteration)], each operation rounded. *)
Definition ratio_at (iteration : nat) : Q :=
  float_mul tenth
    (float_add 1 (float_mul tenth (inject_Z (Z.of_nat iteration)))).

(** The [while] loop.  [remaining] is [max_iterations - iteration], so
    that [iteration < max_iterations] reads [remaining <> 0]; [history]
    collects the passes made so far, the current one last. *)
Fixpoint refine (domain_features : FeatureStore)
    (cath_dict : ClassificationIndex) (all_domains : list DomainId)
    (remaining iteration : nat) (current : Run) (history : list Run)
    : M (Run * list Run) :=
  match remaining with
  | 0 => ret (current, history)
  | S remaining' =>
      if below_threshold (run_index current) then
        let iteration := S iteration in
        let sample_ratio := ratio_at iteration in
        next <- pipeline domain_features cath_dict all_domains sample_ratio ;;
        refine domain_features cath_dict all_domains remaining' iteration
               next (history ++ [next])
      else ret (current, history)
  end.

(** What main leaves behind: the lines of the two files, and the history
    of the passes. *)
Record Output : Type := {
  holdout_file : list DomainId;
  training_file : list DomainId;
  passes : list Run
}.

(** [list(set(all_domains) - set(holdout_domains))] *)
Definition training_domains_of (all_domains holdout_domains : list DomainId)
    : list DomainId :=
  set_order (filter (fun d => negb (mem String.eqb d holdout_domains))
                    (dedup String.eqb all_domains)).

Definition main (cath_dict : ClassificationIndex)
    (domain_features : FeatureStore) : M Output :=
  let all_domains := dict_keys String.eqb domain_features in
  first <- pipeline domain_features cath_dict all_domains (1 # 10) ;;
  final <- refine domain_features cath_dict all_domains max_iterations 0
                  first [first] ;;
  let holdout_domains := run_holdout (fst final) in
  match all_domains with
  | [] => raise ZeroDivisionError
  | _ =>
      ret {| holdout_file := sorted String.leb holdout_domains;
             training_file :=
               sorted String.leb
                      (training_domains_of all_domains holdout_domains);
             passes := snd final |}
  end.

End WithRuntime.
End Main.

(** ** Concrete inputs *)

Module Demo.

(** A runtime in which every test accepts ([p = 1]), standardisation keeps
    the rows, k-means puts every row into cluster 0 and a set is iterated
    in the order given. *)
Definition accepting : Runtime := {|
  kstest := fun _ _ => Ok 1%R;
  chi2_cdf := fun _ _ => 0%R;
  np_standardize := fun m => Ok (map (fun _ => []) m);
  kmeans_fit_predict := fun _ x => Ok (map (fun _ => 0) x);
  set_order := fun l => l
|}.

(** The same runtime with tests that reject ([p = 0]). *)
Definition rejecting : Runtime := {|
  kstest := fun _ _ => Ok 0%R;
  chi2_cdf := fun _ _ => 1%R;
  np_standardize := fun m => Ok (map (fun _ => []) m);
  kmeans_fit_predict := fun _ x => Ok (map (fun _ => 0) x);
  set_order := fun l => l
|}.

Definition basic_record (size : Z) (helix sheet : Q) : FeatureRecord :=
  [ ("size", VNum (inject_Z size));
    ("helix_pct", VNum helix);
    ("sheet_pct", VNum sheet);
    ("coil_pct", VNum (1 - (helix + sheet)));
    ("core_ratio", VNum (1 # 2));
    ("avg_accessibility", VNum (3 # 10)) ].

(** A record of a domain present at 320K and at 450K. *)
Definition full_record (size : Z) (helix sheet : Q) : FeatureRecord :=
  basic_record size helix sheet ++
  [ ("avg_rmsf_320", VNum (1 # 2));
    ("std_rmsf_320", VNum (1 # 10));
    ("avg_rmsf_450", VNum (3 # 4));
    ("std_rmsf_450", VNum (1 # 10));
    ("stability_class", VStr "stable") ].

(** A record of a domain present at 320K and missing from the 450K
    table: no avg_rmsf_450, hence no stability_class. *)
Definition partial_record (size : Z) (helix sheet : Q) : FeatureRecord :=
  basic_record size helix sheet ++
  [ ("avg_rmsf_320", VNum (1 # 2));
    ("std_rmsf_320", VNum (1 # 10)) ].

(** The three domains of the classification scenario. *)
Definition cath3 : ClassificationIndex :=
  [ ("1abcA00", (1, 10, 10, 10)%Z);
    ("1abcB00", (1, 10, 10, 10)%Z);
    ("2xyzA00", (2, 20, 20, 20)%Z) ].

Definition features2 : FeatureStore :=
  [ ("1abcA00", basic_record 120 (1 # 2) (1 # 4));
    ("1abcB00", basic_record 95 (1 # 4) (1 # 2)) ].

(** Candidates of which the first two share a source structure. *)
Definition candidates3 : list DomainId := [ "1abcA00"; "1abcB00"; "2xyzA00" ].

(** One domain without the optional fields and one with all of them. *)
Definition features_mixed : FeatureStore :=
  [ ("1abcA00", basic_record 120 (1 # 2) (1 # 4));
    ("2xyzA00", full_record 80 (1 # 4) (1 # 2)) ].

(** One domain measured at 320K only and one measured at both ends. *)
Definition features_partial : FeatureStore :=
  [ ("1abcA00", partial_record 120 (1 # 2) (1 # 4));
    ("2xyzA00", full_record 80 (1 # 4) (1 # 2)) ].

(** A record whose only RMSF aggregate is at 348K. *)
Definition record_348 : FeatureRecord :=
  basic_record 120 (1 # 2) (1 # 4) ++ [ ("avg_rmsf_348", VNum (7 # 10)) ].

(** Ten domains whose records have an RMSF aggregate at 348K only. *)
Definition features10_348 (ids : list DomainId) : FeatureStore :=
  map (fun d => (d, record_348)) ids.

(** Ten domains in one stratum. *)
Definition ten_ids : list DomainId :=
  [ "1aaaA00"; "1bbbA00"; "1cccA00"; "1dddA00"; "1eeeA00";
    "1fffA00"; "1gggA00"; "1hhhA00"; "1iiiA00"; "1jjjA00" ].


Definition cath10 : ClassificationIndex :=
  map (fun d => (d, (3, 30, 10, 5)%Z)) ten_ids.


(** The validator's result on the mixed store, the complete record
    first. *)
Definition mixed_result : ValidationResult :=
  match Validation.statistical_validation (RT := accepting)
          ["2xyzA00"; "1abcA00"] ["1abcA00"; "2xyzA00"] features_mixed cath3
  with
  | Ok res => res
  | Raise _ => []
  end.

(** The validator's results on the holdout list that the sampler returns
    for the two-domain store, under either runtime. *)
Definition accepted_result : ValidationResult :=
  match Validation.statistical_validation (RT := accepting)
          ["1abcA00"] ["1abcA00"; "1abcB00"] features2 cath3
  with
  | Ok res => res
  | Raise _ => []
  end.

Definition rejected_result : ValidationResult :=
  match Validation.statistical_validation (RT := rejecting)
          ["1abcA00"] ["1abcA00"; "1abcB00"] features2 cath3
  with
  | Ok res => res
  | Raise _ => []
  end.

End Demo.

(** ** More concrete inputs *)

Module Samples.
Import Demo.

(** A store with a single classified domain, alone in its stratum. *)
Definition features1 : FeatureStore :=
  [ ("2xyzA00", basic_record 80 (1 # 4) (1 # 2)) ].

(** A tape whose first draw reads 0.5 as a number of [0, 1). *)
Definition tape_half : rng := [ (2 ^ 52)%N ].

End Samples.

(** ** Reading the hierarchy *)

Module Strata.
Import Validation Sampling.

(** [cath_hierarchy[c][a][t]], read without inserting: a missing key at
    any level reads as the empty list of a fresh [defaultdict]. *)
Definition stratum_at (c a t : Z) (cath_hierarchy : Hierarchy)
    : list DomainId :=
  dict_get_default Z.eqb t []
    (dict_get_default Z.eqb a []
       (dict_get_default Z.eqb c [] cath_hierarchy)).

(** [cath_dict[domain][:3] == (c, a, t)], false for an unclassified
    domain. *)
Definition in_stratum (cath_dict : ClassificationIndex) (c a t : Z)
    (domain : DomainId) : bool :=
  match str_get domain cath_dict with
  | Some (c', a', t', _) => (c =? c')%Z && (a =? a')%Z && (t =? t')%Z
  | None => false
  end.

(** The body of the loop that fills the hierarchy. *)
Definition add_domain (cath_dict : ClassificationIndex)
    (cath_hierarchy : Hierarchy) (domain : DomainId) : Hierarchy :=
  match str_get domain cath_dict with
  | Some (c, a, t, h) => hierarchy_append c a t domain cath_hierarchy
  | None => cath_hierarchy
  end.

(** Keys are distinct and leaves non-empty at every level. *)
Definition leaf_ok (dl : list DomainId) : Prop := dl <> [].

Definition topologies_ok (topologies : dict Z (list DomainId)) : Prop :=
  NoDup (map fst topologies) /\
  forall t dl, In (t, dl) topologies -> leaf_ok dl.

Definition architectures_ok
    (architectures : dict Z (dict Z (list DomainId))) : Prop :=
  NoDup (map fst architectures) /\
  forall a topologies, In (a, topologies) architectures ->
    topologies_ok topologies.

Definition hierarchy_ok (h : Hierarchy) : Prop :=
  NoDup (map fst h) /\
  forall c architectures, In (c, architectures) h ->
    architectures_ok architectures.

End Strata.

(** ** cath_parser.py *)

(** The text of the file is a list of lines, as iterating over the open
    file yields them; a character is a code point below 256.  The builtin
    [int] is a parameter: a function from a field to an integer or an
    exception. *)

Module CathParser.
Import Validation.

(** [ch.isspace()] for a code point below 256. *)
Definition is_space (ch : ascii) : bool :=
  let n := nat_of_ascii ch in
  ((9 <=? n) && (n <=? 13)) || ((28 <=? n) && (n <=? 32))
  || (n =? 133) || (n =? 160).

Fixpoint lstrip (s : string) : string :=
  match s with
  | EmptyString => EmptyString
  | String ch rest => if is_space ch then lstrip rest else s
  end.

Fixpoint rstrip (s : string) : string :=
  match s with
  | EmptyString => EmptyString
  | String ch rest =>
      match rstrip rest with
      | EmptyString => if is_space ch then EmptyString
                       else String ch EmptyString
      | kept => String ch kept
      end
  end.

(** [s.strip()] *)
Definition strip (s : string) : string := rstrip (lstrip s).

Definition is_empty (s : string) : bool :=
  match s with EmptyString => true | String _ _ => false end.

(** [s.split()]: the maximal runs of characters that are not white space;
    [word] is the run being read, in reverse. *)
Fixpoint split_aux (word : list ascii) (s : string) : list string :=
  match s with
  | EmptyString =>
      match word with
      | [] => []
      | _ => [string_of_list_ascii (rev word)]
      end
  | String ch rest =>
      if is_space ch then
        match word with
        | [] => split_aux [] rest
        | _ => string_of_list_ascii (rev word) :: split_aux [] rest
        end
      else split_aux (ch :: word) rest
  end.

Definition py_split (s : string) : list string := split_aux [] s.

Section WithInt.
Variable int_of : string -> result Z.

(** The body of [for line in f]. *)
Definition parse_line (cath_dict : ClassificationIndex) (line : string)
    : result ClassificationIndex :=
  if String.prefix "#" line || is_empty (strip line) then Ok cath_dict
  else
    let parts := py_split line in
    if 5 <=? List.length parts then
      rbind (list_index parts 0) (fun domain_id =>
      rbind (rbind (list_index parts 1) int_of) (fun cath_class =>
      rbind (rbind (list_index parts 2) int_of) (fun arch =>
      rbind (rbind (list_index parts 3) int_of) (fun topo =>
      rbind (rbind (list_index parts 4) int_of) (fun homo =>
      Ok (str_set domain_id (cath_class, arch, topo, homo) cath_dict))))))
    else Ok cath_dict.

Definition parse_cath_file (lines : list string)
    : result ClassificationIndex :=
  fold_left (fun cath_dict line =>
               rbind cath_dict (fun d => parse_line d line))
            lines (Ok []).

(** What one line contributes: nothing, an entry, or an exception. *)
Definition line_record (line : string)
    : result (option (DomainId * ClassificationCode)) :=
  if String.prefix "#" line then Ok None
  else
    match py_split line with
    | domain_id :: p1 :: p2 :: p3 :: p4 :: _ =>
        rbind (int_of p1) (fun cath_class =>
        rbind (int_of p2) (fun arch =>
        rbind (int_of p3) (fun topo =>
        rbind (int_of p4) (fun homo =>
        Ok (Some (domain_id, (cath_class, arch, topo, homo)))))))
    | _ => Ok None
    end.

(** The codes of the last line that has an entry for [domain]. *)
Definition last_record (domain : DomainId) (lines : list string)
    : option ClassificationCode :=
  fold_left (fun found line =>
               match line_record line with
               | Ok (Some (domain_id, code)) =>
                   if String.eqb domain domain_id then Some code else found
               | _ => found
               end)
            lines None.

End WithInt.

(** A reading of decimal digits, for the sample runs. *)
Fixpoint digits_value (acc : Z) (s : string) : result Z :=
  match s with
  | EmptyString => Ok acc
  | String ch rest =>
      let n := nat_of_ascii ch in
      if (48 <=? n) && (n <=? 57)
      then digits_value (10 * acc + Z.of_nat (n - 48)) rest
      else Raise (ValueError "invalid literal for int() with base 10")
  end.

Definition digits_only (s : string) : result Z :=
  match s with
  | EmptyString => Raise (ValueError "invalid literal for int() with base 10")
  | _ => digits_value 0 s
  end.

(** Line feed, and a short domain list. *)
Definition nl : string := String (ascii_of_nat 10) EmptyString.

Definition sample_lines : list string :=
  [ ("# CATH domain list" ++ nl)%string;
    nl;
    ("1abcA00     1    10     8    10     1" ++ nl)%string;
    ("1defA00     3    40    50   720" ++ nl)%string;
    ("1abcA00     2    60    40    10" ++ nl)%string;
    ("1ghiA00     1    10" ++ nl)%string ].

End CathParser.

(** ** feature_extractor.py *)

(** A frame is what [pd.read_csv] returns for a file that has the columns
    domain_id, protein_size, dssp, core_exterior and
    relative_accessibility, without missing cells: its rows in order, and
    the names of all its columns.  A row gives the cell of every other
    numeric column by the name of the column.  Floats are rationals; the
    means are numpy floats, for which a division by zero gives an infinity
    or nan with a warning and no exception. *)

Module FeatureExtractor.
Import Validation.

Record Row : Type := {
  domain_id : string;
  protein_size : Q;
  dssp : string;
  core_exterior : string;
  relative_accessibility : Q;
  numeric : string -> Q
}.

Record DataFrame : Type := {
  columns : list string;
  rows : list Row
}.

(** [s.split(sep)] for a separator of one character: every piece, the
    empty ones included; [piece] is the piece being read, in reverse. *)
Fixpoint split_on_aux (sep : ascii) (piece : list ascii) (s : string)
    : list string :=
  match s with
  | EmptyString => [string_of_list_ascii (rev piece)]
  | String ch rest =>
      if Ascii.eqb ch sep
      then string_of_list_ascii (rev piece) :: split_on_aux sep [] rest
      else split_on_aux sep (ch :: piece) rest
  end.

Definition split_on (sep : ascii) (s : string) : list string :=
  split_on_aux sep [] s.

(** [l[-1]] *)
Definition list_last {A} (l : list A) : result A := list_index (rev l) 0.

(** [c in s] for a character. *)
Definition has_char (c : ascii) (s : string) : bool :=
  existsb (fun ch => Ascii.eqb ch c) (list_ascii_of_string s).

(** [file_path.split('_')[-1].split('.')[0]], with average renamed. *)
Definition temperature_of (file_path : string) : result string :=
  rbind (list_last (split_on "_" file_path)) (fun tail =>
  rbind (list_index (split_on "." tail) 0) (fun temp =>
  Ok (if String.eqb temp "average" then "avg" else temp)))%string.

(** [series.mean()] of a series that is not empty. *)
Definition series_mean (cells : list Q) : Q :=
  (fold_right Qplus 0 cells / len_Q cells)%Q.

(** [value_counts().get(code, 0)] *)
Definition dssp_count (code : string) (domain_data : list Row) : nat :=
  List.length (filter (fun row => String.eqb (dssp row) code) domain_data).

(** [count / total_residues if total_residues > 0 else 0] *)
Definition fraction (count total_residues : nat) : Q :=
  if 0 <? total_residues
  then (inject_Z (Z.of_nat count) / inject_Z (Z.of_nat total_residues))%Q
  else 0%Q.

(** The class of the ratio [avg_rmsf_450 / avg_rmsf_320]; for a zero
    denominator the ratio is minus infinity for a negative numerator, and
    plus infinity or nan otherwise, both of which fail the two tests. *)
Definition stability_class_of (avg_rmsf_320 avg_rmsf_450 : Q) : string :=
  if Qeq_bool avg_rmsf_320 0 then
    if Qlt_le_dec avg_rmsf_450 0 then "stable" else "unstable"
  else
    let rmsf_ratio := (avg_rmsf_450 / avg_rmsf_320)%Q in
    if Qlt_le_dec rmsf_ratio 2 then "stable"
    else if Qlt_le_dec rmsf_ratio 4 then "moderate"
    else "unstable".

Section WithPandas.
(** [series.std()] and [pd.read_csv(file_path)] *)
Variable series_std : list Q -> value.
Variable read_csv : string -> result DataFrame.

Definition load_temperature_data (file_paths : list string)
    : result (dict string DataFrame) :=
  fold_left
    (fun temperature_data file_path =>
       rbind temperature_data (fun acc =>
       rbind (temperature_of file_path) (fun temp =>
       rbind (read_csv file_path) (fun data =>
       Ok (str_set temp data acc)))))
    file_paths (Ok []).

(** The body of the loop over the tables, for one domain: [features] is
    [domain_features[domain]]. *)
Definition table_features (temp : string) (data : DataFrame)
    (domain : DomainId) (features : FeatureRecord) : FeatureRecord :=
  let domain_data :=
    filter (fun row => String.eqb (domain_id row) domain) (rows data) in
  match domain_data with
  | [] => features
  | first :: _ =>
      let features := str_set "size" (VNum (protein_size first)) features in
      let total_residues := List.length domain_data in
      let helix_pct :=
        fraction (dssp_count "H" domain_data + dssp_count "G" domain_data
                  + dssp_count "I" domain_data) total_residues in
      let sheet_pct :=
        fraction (dssp_count "E" domain_data + dssp_count "B" domain_data)
                 total_residues in
      let features := str_set "helix_pct" (VNum helix_pct) features in
      let features := str_set "sheet_pct" (VNum sheet_pct) features in
      let features :=
        str_set "coil_pct" (VNum (1 - (helix_pct + sheet_pct))%Q) features in
      let core_count :=
        List.length
          (filter (fun row => String.eqb (core_exterior row) "core")
                  domain_data) in
      let features :=
        str_set "core_ratio" (VNum (fraction core_count total_residues))
                features in
      let features :=
        str_set "avg_accessibility"
                (VNum (series_mean (map relative_accessibility domain_data)))
                features in
      let rmsf_col :=
        (if String.eqb temp "avg" then "rmsf_average"
         else "rmsf_" ++ temp)%string in
      if mem String.eqb rmsf_col (columns data) then
        let cells := map (fun row => numeric row rmsf_col) domain_data in
        let features :=
          str_set ("avg_rmsf_" ++ temp)%string (VNum (series_mean cells))
                  features in
        str_set ("std_rmsf_" ++ temp)%string (series_std cells) features
      else features
  end.

(** The record of one domain after the loop over the tables. *)
Definition domain_record (temperature_data : dict string DataFrame)
    (domain : DomainId) : FeatureRecord :=
  fold_left (fun features item =>
               table_features (fst item) (snd item) domain features)
            temperature_data [].

(** The loop over the domains of the first table. *)
Definition collect_features (temperature_data : dict string DataFrame)
    (domains : list DomainId) : FeatureStore :=
  fold_left (fun domain_features domain =>
               let domain_features := str_set domain [] domain_features in
               str_set domain (domain_record temperature_data domain)
                       domain_features)
            domains [].

(** The body of the loop that assigns the stability classes. *)
Definition assign_stability (temperature_data : dict string DataFrame)
    (domain_features : FeatureStore) (domain : DomainId) : FeatureStore :=
  if str_mem "320" temperature_data && str_mem "450" temperature_data then
    match str_get domain domain_features with
    | Some features =>
        match str_get "avg_rmsf_320" features,
              str_get "avg_rmsf_450" features with
        | Some (VNum avg_rmsf_320), Some (VNum avg_rmsf_450) =>
            str_set domain
              (str_set "stability_class"
                 (VStr (stability_class_of avg_rmsf_320 avg_rmsf_450))
                 features)
              domain_features
        | _, _ => domain_features
        end
    | None => domain_features
    end
  else domain_features.

Definition aggregate_domain_features
    (temperature_data : dict string DataFrame) : result FeatureStore :=
  rbind (list_index (dict_keys String.eqb temperature_data) 0)
        (fun first_temp =>
  rbind (dict_index first_temp temperature_data) (fun first =>
  let domains := dedup String.eqb (map domain_id (rows first)) in
  let domain_features := collect_features temperature_data domains in
  Ok (fold_left (assign_stability temperature_data)
                (dict_keys String.eqb domain_features) domain_features))).

(** What the stability loop leaves in a finished record. *)
Definition expected_class (temperature_data : dict string DataFrame)
    (features : FeatureRecord) : option value :=
  if str_mem "320" temperature_data && str_mem "450" temperature_data then
    match str_get "avg_rmsf_320" features,
          str_get "avg_rmsf_450" features with
    | Some (VNum avg_rmsf_320), Some (VNum avg_rmsf_450) =>
        Some (VStr (stability_class_of avg_rmsf_320 avg_rmsf_450))
    | _, _ => None
    end
  else None.

End WithPandas.

(** Two small tables. *)
Definition residue (domain code place : string) (accessibility rmsf : Q)
    : Row :=
  {| domain_id := domain; protein_size := 3; dssp := code;
     core_exterior := place; relative_accessibility := accessibility;
     numeric := fun _ => rmsf |}.

Definition table_320 : DataFrame :=
  {| columns := [ "domain_id"; "protein_size"; "dssp"; "core_exterior";
                  "relative_accessibility"; "rmsf_320" ]%string;
     rows := [ residue "1abcA00" "H" "core" (1 # 2) (1 # 2);
               residue "1abcA00" "E" "exterior" (1 # 4) (3 # 2);
               residue "1defA00" "T" "core" (1 # 4) 1;
               residue "1abcA00" "H" "core" (3 # 4) 1 ] |}.

Definition table_450 : DataFrame :=
  {| columns := [ "domain_id"; "protein_size"; "dssp"; "core_exterior";
                  "relative_accessibility"; "rmsf_450" ]%string;
     rows := [ residue "1abcA00" "H" "core" (1 # 2) 3;
               residue "1abcA00" "T" "exterior" (1 # 4) 3;
               residue "1abcA00" "T" "core" (3 # 4) 3 ] |}.

Definition sample_tables : dict string DataFrame :=
  [ ("320", table_320); ("450", table_450) ]%string.

(** A standard deviation that is left out of the sample runs. *)
Definition no_std (cells : list Q) : value := VNum 0.

(** The file list of [main], after [os.path.join]. *)
Definition main_file_paths : list string :=
  map (fun f =>
         ("/home/s_felix/mdcath-processor/outputs/ML_features" ++ "/" ++ f)
         %string)
      [ "final_dataset_temperature_320.csv";
        "final_dataset_temperature_348.csv";
        "final_dataset_temperature_379.csv";
        "final_dataset_temperature_413.csv";
        "final_dataset_temperature_450.csv";
        "final_dataset_temperature_average.csv" ]%string.

(** A reader that finds the same table under every path. *)
Definition read_sample (file_path : string) : result DataFrame :=
  Ok table_320.

End FeatureExtractor.

(* ================================================================== *)
(** * Part II: properties *)
(* ================================================================== *)

(** ** Results, dictionaries and lists *)

Module PyFacts.

Lemma rbind_Ok {A B} (c : result A) (k : A -> result B) (b : B) :
  rbind c k = Ok b -> exists a, c = Ok a /\ k a = Ok b.
Proof.
  destruct c as [a|e]; simpl; intros Hk.
  - exists a. split; [reflexivity | exact Hk].
  - discriminate.
Qed.

Lemma str_get_set {V} (k k' : string) (v : V) (d : dict string V) :
  dict_get String.eqb k (dict_set String.eqb k' v d)
  = if String.eqb k k' then Some v else dict_get String.eqb k d.
Proof.
  induction d as [|[a w] d IH]; simpl.
  - destruct (String.eqb k k'); reflexivity.
  - destruct (String.eqb_spec k' a) as [Ha|Ha]; simpl.
    + subst a. destruct (String.eqb k k'); reflexivity.
    + destruct (String.eqb_spec k a) as [Hk|Hk].
      * subst a. destruct (String.eqb_spec k k') as [E|E].
        -- congruence.
        -- reflexivity.
      * exact IH.
Qed.

Lemma str_mem_set {V} (k k' : string) (v : V) (d : dict string V) :
  dict_mem String.eqb k (dict_set String.eqb k' v d)
  = String.eqb k k' || dict_mem String.eqb k d.
Proof.
  unfold dict_mem. rewrite str_get_set.
  destruct (String.eqb k k'); reflexivity.
Qed.

Lemma mem_In (x : string) (l : list string) :
  mem String.eqb x l = true <-> In x l.
Proof.
  unfold mem. rewrite existsb_exists. split.
  - intros [y [Hy E]]. apply String.eqb_eq in E. subst y. exact Hy.
  - intros Hx. exists x. split; [exact Hx | apply String.eqb_refl].
Qed.

Lemma mem_false (x : string) (l : list string) :
  mem String.eqb x l = false <-> ~ In x l.
Proof.
  rewrite <- mem_In. destruct (mem String.eqb x l); split; intros; congruence.
Qed.

Lemma dict_get_In {K V} (eqb : K -> K -> bool) (k : K) (d : dict K V) (v : V) :
  dict_get eqb k d = Some v -> exists k', In (k', v) d.
Proof.
  induction d as [|[k' v'] d IH]; simpl; [discriminate|].
  destruct (eqb k k').
  - intros H. injection H as ->. exists k'. now left.
  - intros H. destruct (IH H) as [k'' Hk]. exists k''. now right.
Qed.

Lemma dict_set_In {K V} (eqb : K -> K -> bool) (k k' : K) (v v' : V)
    (d : dict K V) :
  In (k', v') (dict_set eqb k v d) -> v' = v \/ In (k', v') d.
Proof.
  induction d as [|[k0 v0] d IH]; simpl.
  - intros [H|[]]. injection H as _ <-. now left.
  - destruct (eqb k k0); simpl.
    + intros [H|H]; [injection H as _ <-; now left | right; now right].
    + intros [H|H]; [right; now left|].
      destruct (IH H) as [E|E]; [now left | right; now right].
Qed.

End PyFacts.
Import PyFacts.

(** ** The index *)

Module IndexFacts.
Import Validation.

Local Open Scope R_scope.

Lemma pow_third_0 : pow_third 0 = 0.
Proof.
  unfold pow_third. destruct (Rlt_dec 0 0) as [H|H]; [lra | reflexivity].
Qed.

Lemma pow_third_nonneg (x : R) : 0 <= pow_third x.
Proof.
  unfold pow_third. destruct (Rlt_dec 0 x).
  - left. apply exp_pos.
  - lra.
Qed.

Lemma pow_third_cube (x : R) :
  0 <= x -> pow_third x * pow_third x * pow_third x = x.
Proof.
  intros Hx. unfold pow_third. destruct (Rlt_dec 0 x) as [Hpos|Hneg].
  - rewrite <- !exp_plus.
    replace (ln x / 3 + ln x / 3 + ln x / 3) with (ln x) by field.
    apply exp_ln. exact Hpos.
  - lra.
Qed.

Lemma pow_third_le_1 (x : R) : x <= 1 -> pow_third x <= 1.
Proof.
  intros Hx. unfold pow_third. destruct (Rlt_dec 0 x) as [Hpos|Hneg].
  - rewrite <- exp_0.
    assert (Hln : ln x <= 0).
    { rewrite <- ln_1. destruct Hx as [Hlt|Heq].
      - left. apply ln_increasing; assumption.
      - right. now rewrite Heq. }
    destruct (Rle_lt_or_eq_dec _ _ Hln) as [Hlt|Heq].
    + left. apply exp_increasing. lra.
    + right. f_equal. lra.
  - lra.
Qed.

Lemma pow_third_1 : pow_third 1 = 1.
Proof.
  unfold pow_third. destruct (Rlt_dec 0 1) as [H|H]; [|lra].
  rewrite ln_1. replace (0 / 3) with 0 by field. apply exp_0.
Qed.

End IndexFacts.

(** ** The validator *)

Module ValidationFacts.
Section WithRuntime.
Context {RT : Runtime}.

Import Validation IndexFacts.
Local Open Scope R_scope.

Lemma summarize_fields (hc : R) (vr : ValidationResult) :
  let res := summarize hc vr in
  let ds := average_p_value (str_set "hierarchy_coverage" hc vr) in
  str_get "hierarchy_coverage" res = Some hc /\
  str_get "distribution_similarity" res = Some ds /\
  str_get "stability_coverage" res = str_get "stability_coverage" vr /\
  str_get "representation_index" res
  = Some (pow_third
            (ds * hc * dict_get_default String.eqb "stability_coverage" 1 vr)).
Proof.
  unfold summarize, str_get, str_set, dict_get_default.
  cbv zeta. rewrite !str_get_set. simpl.
  repeat split; reflexivity.
Qed.

Lemma validation_summarizes (holdout_domains all_domains : list DomainId)
    (domain_features : FeatureStore) (cath_dict : ClassificationIndex)
    (res : ValidationResult) :
  statistical_validation holdout_domains all_domains domain_features cath_dict
  = Ok res ->
  exists vr,
    res = summarize
            (Q2R (hierarchy_coverage_of (cath_of cath_dict holdout_domains)
                                        (cath_of cath_dict all_domains)))
            vr.
Proof.
  unfold statistical_validation. intros H.
  apply rbind_Ok in H. destruct H as [vr1 [_ H]].
  apply rbind_Ok in H. destruct H as [vr2 [_ H]].
  apply rbind_Ok in H. destruct H as [vr3 [_ H]].
  apply rbind_Ok in H. destruct H as [vr4 [_ H]].
  injection H as H. eexists. symmetry. exact H.
Qed.

(** C7: the stored representation_index is the cube root of
    distribution_similarity * hierarchy_coverage * stability_coverage, with
    stability_coverage read as 1.0 when the result has no such entry: it is
    [(ds * hc * sc) ** (1/3)], non-negative with cube [ds * hc * sc] for a
    non-negative product; it is 0 as soon as one factor is 0, and it lies
    in [0, 1] when the three factors do. *)
Theorem representation_index_is_cube_root
    (holdout_domains all_domains : list DomainId)
    (domain_features : FeatureStore) (cath_dict : ClassificationIndex)
    (res : ValidationResult) :
  statistical_validation holdout_domains all_domains domain_features cath_dict
  = Ok res ->
  exists ds hc ri : R,
    let sc := dict_get_default String.eqb "stability_coverage" 1 res in
    str_get "distribution_similarity" res = Some ds /\
    str_get "hierarchy_coverage" res = Some hc /\
    str_get "representation_index" res = Some ri /\
    ri = pow_third (ds * hc * sc) /\
    (0 <= ds * hc * sc -> 0 <= ri /\ ri * ri * ri = ds * hc * sc) /\
    (ds = 0 \/ hc = 0 \/ sc = 0 -> ri = 0) /\
    (0 <= ds <= 1 -> 0 <= hc <= 1 -> 0 <= sc <= 1 -> 0 <= ri <= 1).
Proof.
  intros Hres. destruct (validation_summarizes _ _ _ _ _ Hres) as [vr ->].
  set (hc := Q2R _).
  destruct (summarize_fields hc vr) as (Hhc & Hds & Hsc & Hri).
  exists (average_p_value (str_set "hierarchy_coverage" hc vr)), hc.
  eexists. cbv zeta.
  assert (Esc : dict_get_default String.eqb "stability_coverage" 1
                  (summarize hc vr)
                = dict_get_default String.eqb "stability_coverage" 1 vr).
  { unfold dict_get_default. unfold str_get in Hsc. now rewrite Hsc. }
  rewrite Esc.
  split; [exact Hds|]. split; [exact Hhc|]. split; [exact Hri|].
  split; [reflexivity|].
  set (ds := average_p_value _) in *.
  set (x := ds * hc * _).
  split; [|split].
  - intros Hx. split; [apply pow_third_nonneg | now apply pow_third_cube].
  - intros Hzero.
    assert (Ex : x = 0).
    { unfold x. destruct Hzero as [E|[E|E]]; rewrite E; ring. }
    rewrite Ex. apply pow_third_0.
  - intros Hds1 Hhc1 Hsc1. split; [apply pow_third_nonneg|].
    apply pow_third_le_1. unfold x.
    assert (H1 : ds * hc <= 1).
    { replace 1 with (1 * 1) by ring. apply Rmult_le_compat; lra. }
    set (sc := dict_get_default _ _ _ _) in *.
    assert (H0 : 0 <= ds * hc) by (apply Rmult_le_pos; lra).
    apply Rle_trans with (1 * 1); [|lra].
    apply Rmult_le_compat; lra.
Qed.

(** C10: on a result of the validator that has the entry
    stability_coverage, calculate_representation_index returns the stored
    representation_index. *)
Theorem helper_agrees_with_stored_index
    (holdout_domains all_domains : list DomainId)
    (domain_features : FeatureStore) (cath_dict : ClassificationIndex)
    (res : ValidationResult) :
  statistical_validation holdout_domains all_domains domain_features cath_dict
  = Ok res ->
  str_mem "stability_coverage" res = true ->
  str_get "representation_index" res
  = Some (calculate_representation_index res).
Proof.
  intros Hres Hmem. destruct (validation_summarizes _ _ _ _ _ Hres) as [vr ->].
  set (hc := Q2R _) in *.
  destruct (summarize_fields hc vr) as (Hhc & Hds & Hsc & Hri).
  rewrite Hri. f_equal. unfold calculate_representation_index.
  unfold str_get in *. unfold str_mem, dict_mem in Hmem.
  unfold dict_get_default. rewrite Hds, Hhc, Hsc.
  rewrite Hsc in Hmem.
  destruct (dict_get String.eqb "stability_coverage" vr); [reflexivity|discriminate].
Qed.

(** Without the entry the two computations differ: the helper reads the
    missing factor as 0, the validator as 1. *)
Lemma helper_without_stability
    (holdout_domains all_domains : list DomainId)
    (domain_features : FeatureStore) (cath_dict : ClassificationIndex)
    (res : ValidationResult) :
  statistical_validation holdout_domains all_domains domain_features cath_dict
  = Ok res ->
  str_mem "stability_coverage" res = false ->
  calculate_representation_index res = 0.
Proof.
  intros Hres Hmem. destruct (validation_summarizes _ _ _ _ _ Hres) as [vr ->].
  unfold calculate_representation_index, dict_get_default.
  unfold str_mem, dict_mem in Hmem.
  destruct (dict_get String.eqb "stability_coverage" _); [discriminate|].
  rewrite Rmult_0_r. apply pow_third_0.
Qed.

(** C1: when no holdout domain has a feature record the validator does
    index the empty list: unless building the size columns or the size
    test has raised before, the run ends in IndexError, the exception of
    [holdout_with_features[0]]; no dedicated error is raised. *)
Theorem validation_without_holdout_features_raises
    (holdout_domains all_domains : list DomainId)
    (domain_features : FeatureStore) (cath_dict : ClassificationIndex) :
  filter (fun d => str_mem d domain_features) holdout_domains = [] ->
  statistical_validation holdout_domains all_domains domain_features cath_dict
  = match validate_size domain_features []
            (filter (fun d => str_mem d domain_features) all_domains) [] with
    | Ok _ => Raise IndexError
    | Raise e => Raise e
    end.
Proof.
  intros Hempty. unfold statistical_validation. rewrite Hempty.
  destruct (validate_size _ _ _ _) as [vr|e]; reflexivity.
Qed.

(** Which record decides whether a metric is computed. *)
Lemma rmsf_metric_gate (domain_features : FeatureStore)
    (holdout_with_features all_with_features : list DomainId)
    (vr vr' : ValidationResult) (first : FeatureRecord) :
  first_record domain_features holdout_with_features = Ok first ->
  str_mem "avg_rmsf_320" first = false ->
  validate_rmsf domain_features holdout_with_features all_with_features vr
  = Ok vr' ->
  vr' = vr.
Proof.
  unfold validate_rmsf. intros -> Hmem. simpl. rewrite Hmem.
  intros H. now injection H.
Qed.

Lemma stability_metric_gate (domain_features : FeatureStore)
    (holdout_with_features all_with_features : list DomainId)
    (vr vr' : ValidationResult) (first : FeatureRecord) :
  first_record domain_features holdout_with_features = Ok first ->
  str_mem "stability_class" first = false ->
  validate_stability domain_features holdout_with_features all_with_features vr
  = Ok vr' ->
  vr' = vr.
Proof.
  unfold validate_stability. intros -> Hmem. simpl. rewrite Hmem.
  intros H. now injection H.
Qed.

(** *** The factors are non-negative when the tests return probabilities *)

Hypothesis kstest_probability :
  forall a b p, kstest a b = Ok p -> 0 <= p <= 1.
Hypothesis chi2_cdf_probability :
  forall x df, 0 <= chi2_cdf x df <= 1.

Lemma str_set_nonneg (k : string) (v : R) (vr : ValidationResult) :
  Forall (fun kv => 0 <= snd kv) vr -> 0 <= v ->
  Forall (fun kv => 0 <= snd kv) (str_set k v vr).
Proof.
  intros Hvr Hv. unfold str_set.
  induction Hvr as [|[k' v'] vr Hk Hvr IH]; simpl.
  - constructor; [exact Hv | constructor].
  - destruct (String.eqb k k'); constructor; auto.
Qed.

Lemma coverage_nonneg {A} (a b : list A) : (0 <= coverage a b)%Q.
Proof.
  unfold coverage. destruct b as [|x b]; [discriminate|].
  apply Qmult_le_0_compat; [|apply Qinv_le_0_compat];
    unfold len_Q, Qle; simpl; lia.
Qed.

Lemma hierarchy_coverage_nonneg (holdout_cath all_cath : list ClassificationCode) :
  0 <= Q2R (hierarchy_coverage_of holdout_cath all_cath).
Proof.
  rewrite <- RMicromega.Q2R_0. apply Qle_Rle. unfold hierarchy_coverage_of.
  cbv zeta.
  assert (Hplus : forall a b : Q, (0 <= a)%Q -> (0 <= b)%Q -> (0 <= a + b)%Q).
  { intros a b Ha Hb. exact (Qplus_le_compat 0 a 0 b Ha Hb). }
  repeat apply Hplus;
    (apply Qmult_le_0_compat; [discriminate | apply coverage_nonneg]).
Qed.

Lemma np_mean_nonneg (l : list R) :
  Forall (fun p => 0 <= p) l -> l <> [] -> 0 <= np_mean l.
Proof.
  intros Hl Hne. unfold np_mean.
  assert (Hsum : 0 <= fold_right Rplus 0 l).
  { clear Hne. induction Hl as [|p l Hp _ IH]; simpl; lra. }
  assert (Hlen : 0 < INR (List.length l)).
  { apply lt_0_INR. destruct l; [congruence | simpl; lia]. }
  apply Rmult_le_pos; [exact Hsum|]. left. now apply Rinv_0_lt_compat.
Qed.

Lemma factors_nonneg (holdout_domains all_domains : list DomainId)
    (domain_features : FeatureStore) (cath_dict : ClassificationIndex)
    (res : ValidationResult) :
  statistical_validation holdout_domains all_domains domain_features cath_dict
  = Ok res ->
  exists ds hc,
    str_get "distribution_similarity" res = Some ds /\
    str_get "hierarchy_coverage" res = Some hc /\
    0 <= ds /\ 0 <= hc /\
    0 <= dict_get_default String.eqb "stability_coverage" 1 res /\
    0 <= ds * hc * dict_get_default String.eqb "stability_coverage" 1 res.
Proof.
  unfold statistical_validation. intros H.
  apply rbind_Ok in H. destruct H as [vr1 [H1 H]].
  apply rbind_Ok in H. destruct H as [vr2 [H2 H]].
  apply rbind_Ok in H. destruct H as [vr3 [H3 H]].
  apply rbind_Ok in H. destruct H as [vr4 [H4 H]].
  injection H as <-.
  set (hc := Q2R _).
  assert (Hhc0 : 0 <= hc) by apply hierarchy_coverage_nonneg.
  assert (N1 : Forall (fun kv => 0 <= snd kv) vr1).
  { unfold validate_size in H1.
    apply rbind_Ok in H1. destruct H1 as [hs [_ H1]].
    apply rbind_Ok in H1. destruct H1 as [als [_ H1]].
    apply rbind_Ok in H1. destruct H1 as [p [Hp H1]].
    injection H1 as <-. apply kstest_probability in Hp.
    constructor; [simpl; lra | constructor]. }
  assert (N2 : Forall (fun kv => 0 <= snd kv) vr2).
  { unfold validate_rmsf in H2.
    apply rbind_Ok in H2. destruct H2 as [first [_ H2]].
    destruct (str_mem "avg_rmsf_320" first).
    - apply rbind_Ok in H2. destruct H2 as [hs [_ H2]].
      apply rbind_Ok in H2. destruct H2 as [hr [_ H2]].
      apply rbind_Ok in H2. destruct H2 as [als [_ H2]].
      apply rbind_Ok in H2. destruct H2 as [ar [_ H2]].
      apply rbind_Ok in H2. destruct H2 as [p [Hp H2]].
      injection H2 as <-. apply str_set_nonneg; [exact N1|].
      apply kstest_probability in Hp. lra.
    - injection H2 as <-. exact N1. }
  assert (N3 : Forall (fun kv => 0 <= snd kv) vr3).
  { unfold validate_secondary in H3.
    apply rbind_Ok in H3. destruct H3 as [hh [_ H3]].
    apply rbind_Ok in H3. destruct H3 as [ah [_ H3]].
    apply rbind_Ok in H3. destruct H3 as [hsh [_ H3]].
    apply rbind_Ok in H3. destruct H3 as [ash [_ H3]].
    apply rbind_Ok in H3. destruct H3 as [p [Hp H3]].
    apply rbind_Ok in H3. destruct H3 as [q [Hq H3]].
    injection H3 as <-.
    apply kstest_probability in Hp. apply kstest_probability in Hq.
    repeat apply str_set_nonneg; auto; lra. }
  assert (N3' : Forall (fun kv => 0 <= snd kv)
                  (validate_class (cath_of cath_dict holdout_domains)
                                  (cath_of cath_dict all_domains) vr3)).
  { unfold validate_class. cbv zeta.
    destruct (_ && _); [|exact N3].
    apply str_set_nonneg; [exact N3|].
    match goal with
    | |- 0 <= 1 - chi2_cdf ?x ?df =>
        pose proof (chi2_cdf_probability x df); lra
    end. }
  assert (N4 : Forall (fun kv => 0 <= snd kv) vr4).
  { unfold validate_stability in H4.
    apply rbind_Ok in H4. destruct H4 as [first [_ H4]].
    destruct (str_mem "stability_class" first).
    - apply rbind_Ok in H4. destruct H4 as [hs [_ H4]].
      apply rbind_Ok in H4. destruct H4 as [als [_ H4]].
      injection H4 as <-. apply str_set_nonneg; [exact N3'|].
      rewrite <- RMicromega.Q2R_0. apply Qle_Rle, coverage_nonneg.
    - injection H4 as <-. exact N3'. }
  destruct (summarize_fields hc vr4) as (Hhc & Hds & Hsc & _).
  exists (average_p_value (str_set "hierarchy_coverage" hc vr4)), hc.
  split; [exact Hds|]. split; [exact Hhc|].
  assert (Hds0 : 0 <= average_p_value (str_set "hierarchy_coverage" hc vr4)).
  { unfold average_p_value. cbv zeta.
    destruct (p_values_of _) as [|p ps] eqn:E; [lra|].
    apply np_mean_nonneg; [|discriminate]. rewrite <- E.
    unfold p_values_of. apply Forall_map, Forall_forall.
    intros kv Hkv. apply filter_In in Hkv. destruct Hkv as [Hkv _].
    pose proof (str_set_nonneg "hierarchy_coverage" hc vr4 N4 Hhc0) as N5.
    rewrite Forall_forall in N5. now apply N5. }
  assert (Hsc0 : 0 <= dict_get_default String.eqb "stability_coverage" 1
                        (summarize hc vr4)).
  { unfold dict_get_default. unfold str_get in Hsc. rewrite Hsc.
    destruct (dict_get String.eqb "stability_coverage" vr4) as [v|] eqn:E; [|lra].
    apply dict_get_In in E. destruct E as [k' Hk'].
    rewrite Forall_forall in N4. exact (N4 _ Hk'). }
  repeat split; auto.
  apply Rmult_le_pos; [apply Rmult_le_pos|]; assumption.
Qed.

End WithRuntime.

Import Validation IndexFacts Demo.
Local Open Scope R_scope.

Lemma validation_without_holdout_features_raises_witness :
  statistical_validation (RT := accepting) [] ["1abcA00"; "1abcB00"]
                         features2 cath3
  = Raise IndexError.
Proof.
  rewrite (validation_without_holdout_features_raises (RT := accepting)
             [] ["1abcA00"; "1abcB00"] features2 cath3 eq_refl).
  reflexivity.
Defined.

(** C6: whether a metric is computed depends on the first holdout domain
    alone.  Of two domains, one measured at 320K only and one that also
    has a stability_class, the holdout list that starts with the first
    gets no stability_coverage and the list that starts with the second
    gets one; when the first domain has no avg_rmsf_320 either, the RMSF
    test is skipped or computed in the same way. *)
Theorem metric_availability_follows_first_holdout_domain :
  str_mem "stability_class" (full_record 80 (1 # 4) (1 # 2)) = true /\
  str_mem "avg_rmsf_320" (full_record 80 (1 # 4) (1 # 2)) = true /\
  (exists res,
     statistical_validation (RT := accepting)
       ["1abcA00"; "2xyzA00"] ["1abcA00"; "2xyzA00"] features_partial cath3
     = Ok res /\
     str_mem "ks_rmsf_pval" res = true /\
     str_mem "stability_coverage" res = false) /\
  (exists res,
     statistical_validation (RT := accepting)
       ["2xyzA00"; "1abcA00"] ["1abcA00"; "2xyzA00"] features_partial cath3
     = Ok res /\
     str_mem "ks_rmsf_pval" res = true /\
     str_mem "stability_coverage" res = true) /\
  (exists res,
     statistical_validation (RT := accepting)
       ["1abcA00"; "2xyzA00"] ["1abcA00"; "2xyzA00"] features_mixed cath3
     = Ok res /\
     str_mem "ks_rmsf_pval" res = false /\
     str_mem "stability_coverage" res = false) /\
  (exists res,
     statistical_validation (RT := accepting)
       ["2xyzA00"; "1abcA00"] ["1abcA00"; "2xyzA00"] features_mixed cath3
     = Ok res /\
     str_mem "ks_rmsf_pval" res = true /\
     str_mem "stability_coverage" res = true).
Proof.
  split; [reflexivity|]. split; [reflexivity|].
  repeat split;
    (eexists; split; [vm_compute; reflexivity|]; split; reflexivity).
Qed.

Lemma mixed_result_computed :
  statistical_validation (RT := accepting)
    ["2xyzA00"; "1abcA00"] ["1abcA00"; "2xyzA00"] features_mixed cath3
  = Ok mixed_result.
Proof. vm_compute. reflexivity. Qed.

Lemma representation_index_is_cube_root_witness :
  exists ds hc ri : R,
    let sc := dict_get_default String.eqb "stability_coverage" 1 mixed_result in
    str_get "distribution_similarity" mixed_result = Some ds /\
    str_get "hierarchy_coverage" mixed_result = Some hc /\
    str_get "representation_index" mixed_result = Some ri /\
    ri = pow_third (ds * hc * sc) /\
    (0 <= ds * hc * sc -> 0 <= ri /\ ri * ri * ri = ds * hc * sc) /\
    (ds = 0 \/ hc = 0 \/ sc = 0 -> ri = 0) /\
    (0 <= ds <= 1 -> 0 <= hc <= 1 -> 0 <= sc <= 1 -> 0 <= ri <= 1).
Proof.
  apply (representation_index_is_cube_root (RT := accepting)
           ["2xyzA00"; "1abcA00"] ["1abcA00"; "2xyzA00"] features_mixed cath3).
  exact mixed_result_computed.
Defined.

Lemma helper_agrees_with_stored_index_witness :
  str_mem "stability_coverage" mixed_result = true /\
  str_get "representation_index" mixed_result
  = Some (calculate_representation_index mixed_result).
Proof.
  split; [vm_compute; reflexivity|].
  apply (helper_agrees_with_stored_index (RT := accepting)
           ["2xyzA00"; "1abcA00"] ["1abcA00"; "2xyzA00"] features_mixed cath3).
  - exact mixed_result_computed.
  - vm_compute. reflexivity.
Defined.

End ValidationFacts.

(** ** The random generator *)

Module RandomFacts.

Lemma bind_Ok {A B} (c : M A) (k : A -> M B) (g g' : rng) (b : B) :
  bind c k g = Ok (b, g') ->
  exists a g1, c g = Ok (a, g1) /\ k a g1 = Ok (b, g').
Proof.
  unfold bind. destruct (c g) as [[a g1]|e]; intros H.
  - exists a, g1. split; [reflexivity | exact H].
  - discriminate.
Qed.

Lemma bind_step {A B} (c : M A) (k : A -> M B) (g g1 : rng) (a : A) :
  c g = Ok (a, g1) -> bind c k g = k a g1.
Proof. unfold bind. intros ->. reflexivity. Qed.

Lemma lift_Ok {A} (c : result A) (g g' : rng) (a : A) :
  lift c g = Ok (a, g') -> c = Ok a /\ g' = g.
Proof.
  unfold lift. destruct c as [x|e]; intros H; [|discriminate].
  injection H as -> ->. split; reflexivity.
Qed.

Lemma next_raw_total (g : rng) : exists raw g', next_raw g = Ok (raw, g').
Proof. destruct g as [|x g]; simpl; eauto. Qed.

Lemma pick_position_lt (raw : N) (n : nat) :
  n <> 0 -> pick_position raw n < n.
Proof.
  intros Hn. unfold pick_position.
  assert (H : (raw mod N.of_nat n < N.of_nat n)%N) by (apply N.mod_lt; lia).
  lia.
Qed.

Lemma remove_at_length {A} (i : nat) (l : list A) :
  i < List.length l -> S (List.length (remove_at i l)) = List.length l.
Proof.
  revert i. induction l as [|x l IH]; intros i Hi; simpl in *; [lia|].
  destruct i as [|i]; [reflexivity|].
  simpl. rewrite IH; [reflexivity | lia].
Qed.

Lemma remove_at_In {A} (i : nat) (l : list A) (x : A) :
  In x (remove_at i l) -> In x l.
Proof.
  revert i. induction l as [|y l IH]; intros i H; simpl in *; [exact H|].
  destruct i as [|i]; [now right|].
  destruct H as [H|H]; [now left | right; eauto].
Qed.

Lemma remove_at_NoDup {A} (i : nat) (l : list A) (d : A) :
  NoDup l -> i < List.length l ->
  NoDup (remove_at i l) /\ ~ In (nth i l d) (remove_at i l).
Proof.
  intros Hnd. revert i. induction Hnd as [|x l Hx Hnd IH]; intros i Hi.
  - simpl in Hi. lia.
  - destruct i as [|i]; simpl.
    + split; assumption.
    + simpl in Hi. destruct (IH i ltac:(lia)) as [H1 H2]. split.
      * constructor; [|exact H1]. intros H. apply Hx. eapply remove_at_In, H.
      * intros [H|H]; [|exact (H2 H)].
        apply Hx. rewrite H. apply nth_In. lia.
Qed.

Lemma draw_cons {A} (k : nat) (x0 : A) (pool' : list A) :
  draw (S k) (x0 :: pool')
  = bind next_raw (fun raw =>
      bind (draw k (remove_at (pick_position raw (List.length (x0 :: pool')))
                              (x0 :: pool')))
           (fun rest =>
              ret (nth (pick_position raw (List.length (x0 :: pool')))
                       (x0 :: pool') x0 :: rest))).
Proof. reflexivity. Qed.

(** Drawing without replacement returns as many distinct members of the
    pool as were asked for. *)
Lemma draw_spec {A} (k : nat) :
  forall (pool : list A) (g : rng),
    k <= List.length pool ->
    exists picked g',
      draw k pool g = Ok (picked, g') /\
      List.length picked = k /\
      incl picked pool /\
      (NoDup pool -> NoDup picked).
Proof.
  induction k as [|k IH]; intros pool g Hk.
  - exists [], g. repeat split; auto using incl_nil_l, NoDup_nil.
  - destruct pool as [|x0 pool']; [simpl in Hk; lia|].
    set (pool := x0 :: pool') in *.
    destruct (next_raw_total g) as (raw & g1 & Hraw).
    set (i := pick_position raw (List.length pool)).
    assert (Hi : i < List.length pool) by (apply pick_position_lt; discriminate).
    destruct (IH (remove_at i pool) g1) as (rest & g2 & Hrest & Hlen & Hincl & Hnd).
    { pose proof (remove_at_length i pool Hi). lia. }
    exists (nth i pool x0 :: rest), g2.
    split; [|split; [|split]].
    + unfold pool at 1. rewrite draw_cons.
      rewrite (bind_step _ _ _ _ _ Hraw). fold pool. fold i.
      rewrite (bind_step _ _ _ _ _ Hrest). reflexivity.
    + simpl. now rewrite Hlen.
    + intros y [Hy|Hy].
      * subst y. apply nth_In. exact Hi.
      * eapply remove_at_In, Hincl, Hy.
    + intros Hpool.
      destruct (remove_at_NoDup i pool x0 Hpool Hi) as [H1 H2].
      constructor; [|now apply Hnd].
      intros Hin. apply H2, Hincl, Hin.
Qed.

Lemma np_choice_without_replacement_spec {A} (l : list A) (k : nat) (g : rng) :
  k <= List.length l ->
  exists picked g',
    np_choice_without_replacement l k g = Ok (picked, g') /\
    List.length picked = k /\
    incl picked l /\
    (NoDup l -> NoDup picked).
Proof.
  intros Hk. unfold np_choice_without_replacement.
  destruct (Nat.ltb_spec (List.length l) k) as [H|H]; [lia|].
  now apply draw_spec.
Qed.


(** What is drawn, whenever a draw succeeds, comes from the pool. *)
Lemma draw_incl {A} (k : nat) :
  forall (pool picked : list A) (g g' : rng),
    draw k pool g = Ok (picked, g') -> incl picked pool.
Proof.
  induction k as [|k IH]; intros pool picked g g' H.
  - injection H as <- _. apply incl_nil_l.
  - destruct pool as [|x0 pool']; [discriminate|].
    rewrite draw_cons in H.
    apply bind_Ok in H. destruct H as (raw & g1 & _ & H).
    apply bind_Ok in H. destruct H as (rest & g2 & Hrest & H).
    injection H as <- _.
    apply IH in Hrest.
    set (pool := x0 :: pool') in *.
    set (i := pick_position raw (List.length pool)) in *.
    intros y [Hy|Hy].
    + subst y. change (In (nth i pool x0) pool).
      apply nth_In, pick_position_lt. discriminate.
    + eapply remove_at_In, Hrest, Hy.
Qed.

Lemma np_choice_without_replacement_incl {A} (l picked : list A) (k : nat)
    (g g' : rng) :
  np_choice_without_replacement l k g = Ok (picked, g') -> incl picked l.
Proof.
  unfold np_choice_without_replacement.
  destruct (List.length l <? k); [discriminate|]. apply draw_incl.
Qed.

Lemma np_choice_In {A} (l : list A) (x : A) (g g' : rng) :
  np_choice l g = Ok (x, g') -> In x l.
Proof.
  destruct l as [|x0 l']; [discriminate|].
  unfold np_choice. intros H. apply bind_Ok in H.
  destruct H as (raw & g1 & _ & H). injection H as <- _.
  change (In (nth (pick_position raw (List.length (x0 :: l'))) (x0 :: l') x0)
             (x0 :: l')).
  apply nth_In, pick_position_lt. discriminate.
Qed.

(** An invariant of the accumulator is kept by a loop whose body keeps
    it. *)
Lemma mfold_invariant {A B} (P : B -> Prop) (f : B -> A -> M B) (l : list A) :
  (forall b x g b' g', In x l -> P b -> f b x g = Ok (b', g') -> P b') ->
  forall b g b' g', P b -> mfold f l b g = Ok (b', g') -> P b'.
Proof.
  induction l as [|x l IH]; intros Hf b g b' g' Hb H.
  - injection H as <- _. exact Hb.
  - simpl in H. apply bind_Ok in H. destruct H as (b1 & g1 & H1 & H2).
    eapply IH; [| |exact H2].
    + intros; eapply Hf; eauto. now right.
    + eapply Hf; eauto. now left.
Qed.

End RandomFacts.
Import RandomFacts.

(** ** The arithmetic of doubles *)

Module FloatFacts.

Lemma round_half_even_le (a n : Z) (b : positive) :
  (a <= n * Z.pos b)%Z -> (round_half_even a b <= n)%Z.
Proof.
  intros H. unfold round_half_even.
  pose proof (Z.div_mod a (Z.pos b) ltac:(lia)) as Hdm.
  pose proof (Z.mod_pos_bound a (Z.pos b) ltac:(lia)) as Hm.
  assert (Hf : (a / Z.pos b <= n)%Z) by (apply Z.div_le_upper_bound; lia).
  assert (Hup : (Z.pos b <= 2 * (a mod Z.pos b) -> a / Z.pos b + 1 <= n)%Z)
    by (intros Hr; nia).
  destruct (2 * (a mod Z.pos b) ?= Z.pos b)%Z eqn:E.
  - apply Z.compare_eq_iff in E. destruct (Z.even (a / Z.pos b)); lia.
  - exact Hf.
  - apply Z.compare_gt_iff in E. lia.
Qed.

Lemma round_half_even_ge (a n : Z) (b : positive) :
  (n * Z.pos b <= a)%Z -> (n <= round_half_even a b)%Z.
Proof.
  intros H. unfold round_half_even.
  assert (Hf : (n <= a / Z.pos b)%Z) by (apply Z.div_le_lower_bound; lia).
  destruct (2 * (a mod Z.pos b) ?= Z.pos b)%Z;
    [destruct (Z.even (a / Z.pos b))|..]; lia.
Qed.

(** Rounding does not cross an integer. *)
Lemma round_double_le (x : Q) (n : Z) :
  (x <= inject_Z n)%Q -> (round_double x <= inject_Z n)%Q.
Proof.
  intros H. unfold round_double.
  destruct (Qle_bool (inject_Z (2 ^ 53)) (Qabs x)); [exact H|].
  cbv zeta. set (scale := Z.to_pos _). rewrite Qred_correct.
  unfold Qle in *. cbn [Qnum Qden inject_Z] in *.
  assert (Hr : (round_half_even (Qnum x * Z.pos scale) (Qden x)
                <= n * Z.pos scale)%Z)
    by (apply round_half_even_le; nia).
  lia.
Qed.

Lemma round_double_ge (x : Q) (n : Z) :
  (inject_Z n <= x)%Q -> (inject_Z n <= round_double x)%Q.
Proof.
  intros H. unfold round_double.
  destruct (Qle_bool (inject_Z (2 ^ 53)) (Qabs x)); [exact H|].
  cbv zeta. set (scale := Z.to_pos _). rewrite Qred_correct.
  unfold Qle in *. cbn [Qnum Qden inject_Z] in *.
  assert (Hr : (n * Z.pos scale
                <= round_half_even (Qnum x * Z.pos scale) (Qden x))%Z)
    by (apply round_half_even_ge; nia).
  lia.
Qed.

(** At a ratio of at most 1 the product does not exceed the length. *)
Lemma scaled_length_le (n : nat) (r : Q) :
  (r <= 1)%Q -> (scaled_length n r <= inject_Z (Z.of_nat n))%Q.
Proof.
  intros Hr. unfold scaled_length, float_mul. apply round_double_le.
  assert (H1 : (round_double r <= 1)%Q) by (apply (round_double_le r 1), Hr).
  apply Qle_trans with (inject_Z (Z.of_nat n) * 1)%Q.
  - rewrite !(Qmult_comm (inject_Z (Z.of_nat n))).
    apply Qmult_le_compat_r; [exact H1|]. unfold Qle. simpl. lia.
  - rewrite Qmult_1_r. apply Qle_refl.
Qed.

(** The literal 0.1, the six ratios of the refinement loop as Python
    prints their exact values, and counts at which the rounding of the
    product decides. *)
Lemma tenth_value :
  round_double (1 # 10) = 3602879701896397 # 36028797018963968.
Proof. vm_compute. reflexivity. Qed.

Lemma schedule_values :
  map Main.ratio_at [0; 1; 2; 3; 4; 5]
  = [ 3602879701896397 # 36028797018963968;
      3963167672086037 # 36028797018963968;
      1080863910568919 # 9007199254740992;
      1170935903116329 # 9007199254740992;
      5044031582654955 # 36028797018963968;
      1351079888211149 # 9007199254740992 ].
Proof. vm_compute. reflexivity. Qed.

Lemma schedule_counts :
  Sampling.n_clusters_of 10 (1 # 10) = 1%Z /\
  Sampling.n_clusters_of 100 (Main.ratio_at 1) = 12%Z /\
  Sampling.n_clusters_of 20 (Main.ratio_at 5) = 4%Z /\
  Sampling.class_sample_size 25 (Main.ratio_at 2) = 3%Z /\
  Sampling.class_sample_size 50 (Main.ratio_at 4) = 6%Z /\
  Sampling.class_sample_size 950 (Main.ratio_at 4) = 133%Z.
Proof. vm_compute. repeat split; reflexivity. Qed.

End FloatFacts.

(** ** Drawing without replacement, position by position *)

Module DrawFacts.
Import RandomFacts.







End DrawFacts.

(** ** The homology filter: how many components a bucket gives *)

Module BucketFacts.
Import Sampling.

Lemma py_int_floor (x : Q) : (0 <= x)%Q -> py_int x = Qfloor x.
Proof.
  destruct x as [n d]. unfold Qle, py_int, Qfloor. simpl. intros Hn.
  apply Z.quot_div_nonneg; lia.
Qed.

(** Truncation and floor differ on negative numbers only, where both
    are below 1. *)
Lemma max_1_py_int (x : Q) : Z.max 1 (py_int x) = Z.max 1 (Qfloor x).
Proof.
  destruct (Qlt_le_dec x 0) as [Hneg|Hpos].
  - destruct x as [n d]. unfold Qlt in Hneg. unfold py_int, Qfloor.
    simpl in *.
    assert (Hq : (Z.quot n (Z.pos d) <= 0)%Z).
    { rewrite <- (Z.opp_involutive n), Z.quot_opp_l by lia.
      assert (0 <= Z.quot (- n) (Z.pos d))%Z by (apply Z.quot_pos; lia).
      lia. }
    assert (Hd : (n / Z.pos d < 0)%Z) by (apply Z.div_lt_upper_bound; lia).
    lia.
  - now rewrite py_int_floor.
Qed.

Lemma class_sample_size_floor (n : nat) (r : Q) :
  class_sample_size n r = Z.max 1 (Qfloor (scaled_length n r)).
Proof. unfold class_sample_size. apply max_1_py_int. Qed.

Lemma class_sample_size_le (n : nat) (r : Q) :
  n <> 0 -> (r <= 1)%Q ->
  (1 <= class_sample_size n r <= Z.of_nat n)%Z.
Proof.
  intros Hn Hr1. rewrite class_sample_size_floor.
  assert (H : (Qfloor (scaled_length n r) <= Z.of_nat n)%Z).
  { rewrite <- (Qfloor_Z (Z.of_nat n)). apply Qfloor_resp_le.
    now apply FloatFacts.scaled_length_le. }
  lia.
Qed.

Lemma rmap_Forall2 {A B} (f : A -> result B) (l : list A) (ys : list B) :
  rmap f l = Ok ys -> Forall2 (fun x y => f x = Ok y) l ys.
Proof.
  revert ys. induction l as [|x l IH]; intros ys H; simpl in H.
  - injection H as <-. constructor.
  - apply rbind_Ok in H. destruct H as (y & Hy & H).
    apply rbind_Ok in H. destruct H as (ys' & Hys & H).
    injection H as <-. constructor; auto.
Qed.

Lemma rmap_total {A B} (f : A -> result B) (l : list A) :
  (forall x, In x l -> exists y, f x = Ok y) ->
  exists ys, rmap f l = Ok ys.
Proof.
  induction l as [|x l IH]; intros Hf; simpl.
  - eauto.
  - destruct (Hf x (or_introl eq_refl)) as [y Hy]. rewrite Hy. simpl.
    destruct IH as [ys Hys]; [intros; apply Hf; now right|].
    rewrite Hys. simpl. eauto.
Qed.

Lemma list_index_Ok {A} (l : list A) (i : nat) (x : A) :
  list_index l i = Ok x <-> nth_error l i = Some x.
Proof.
  unfold list_index. destruct (nth_error l i); split; intros H;
    try discriminate; injection H as ->; reflexivity.
Qed.


Import Demo.



End BucketFacts.

(** ** The stratified sampler: a large stratum *)

Module StratumFacts.
Section WithRuntime.
Context {RT : Runtime}.

Import Validation Sampling BucketFacts.

Lemma feature_vector_rows (rec : FeatureRecord) :
  feature_vector rec
  = [ dict_get_default String.eqb "size" (VNum 0) rec;
      dict_get_default String.eqb "helix_pct" (VNum 0) rec;
      dict_get_default String.eqb "sheet_pct" (VNum 0) rec;
      dict_get_default String.eqb "core_ratio" (VNum 0) rec;
      dict_get_default String.eqb "avg_accessibility" (VNum 0) rec ]
    ++ match str_get "avg_rmsf_320" rec with
       | Some rmsf => [rmsf]
       | None => []
       end.
Proof. unfold feature_vector. destruct (str_get _ rec); reflexivity. Qed.

Lemma stratum_matrix_from (domain_features : FeatureStore)
    (domain_list : list DomainId) :
  forall acc : list (list value) * list DomainId,
  exists rows,
    fold_left
      (fun acc domain =>
         match str_get domain domain_features with
         | Some rec => (fst acc ++ [feature_vector rec], snd acc ++ [domain])
         | None => acc
         end)
      domain_list acc
    = (fst acc ++ rows,
       snd acc ++ filter (fun d => str_mem d domain_features) domain_list) /\
    Forall2 (fun d row => exists rec, str_get d domain_features = Some rec /\
                                      row = feature_vector rec)
            (filter (fun d => str_mem d domain_features) domain_list) rows.
Proof.
  induction domain_list as [|d l IH]; intros [fm ord]; cbn [fold_left filter fst snd].
  - exists []. rewrite !app_nil_r. split; [reflexivity | constructor].
  - unfold str_mem, dict_mem, str_get in *.
    destruct (dict_get String.eqb d domain_features) as [rec|] eqn:E.
    + destruct (IH (fm ++ [feature_vector rec], ord ++ [d])) as (rows & Hrows & Hall).
      exists (feature_vector rec :: rows). cbn [fst snd] in *.
      split; [etransitivity; [exact Hrows|]; now rewrite <- !app_assoc|].
      constructor; [|exact Hall]. exists rec. split; [exact E | reflexivity].
    + apply (IH (fm, ord)).
Qed.

Lemma feature_vector_rows_aux (domain_features : FeatureStore)
    (domain_list : list DomainId) :
  snd (stratum_matrix domain_features domain_list)
  = filter (fun d => str_mem d domain_features) domain_list /\
  Forall2 (fun d row => exists rec, str_get d domain_features = Some rec /\
                                    row = feature_vector rec)
          (snd (stratum_matrix domain_features domain_list))
          (fst (stratum_matrix domain_features domain_list)).
Proof.
  destruct (stratum_matrix_from domain_features domain_list ([], []))
    as (rows & Hrows & Hall).
  change (stratum_matrix domain_features domain_list
          = ([] ++ rows,
             [] ++ filter (fun d => str_mem d domain_features) domain_list))
    in Hrows.
  rewrite Hrows. simpl. split; [reflexivity | exact Hall].
Qed.

(** C5 (amended): the matrix built for a stratum has one row for every
    domain of the stratum that has a feature record, in order; the row is
    [size, helix_pct, sheet_pct, core_ratio, avg_accessibility], a missing
    entry counting as 0, followed by the value of avg_rmsf_320 whenever the
    record has that entry, and by nothing else. *)
Theorem feature_vector_uses_rmsf_320 (domain_features : FeatureStore)
    (domain_list : list DomainId) :
  let domain_order := snd (stratum_matrix domain_features domain_list) in
  let feature_matrix := fst (stratum_matrix domain_features domain_list) in
  domain_order = filter (fun d => str_mem d domain_features) domain_list /\
  Forall2
    (fun domain row =>
       exists rec,
         str_get domain domain_features = Some rec /\
         row = [ dict_get_default String.eqb "size" (VNum 0) rec;
                 dict_get_default String.eqb "helix_pct" (VNum 0) rec;
                 dict_get_default String.eqb "sheet_pct" (VNum 0) rec;
                 dict_get_default String.eqb "core_ratio" (VNum 0) rec;
                 dict_get_default String.eqb "avg_accessibility" (VNum 0) rec ]
               ++ match str_get "avg_rmsf_320" rec with
                  | Some rmsf => [rmsf]
                  | None => []
                  end)
    domain_order feature_matrix.
Proof.
  destruct (feature_vector_rows_aux domain_features domain_list) as [Hord Hall].
  split; [exact Hord|].
  eapply Forall2_impl; [|exact Hall].
  intros d row (rec & Hrec & ->). exists rec. split; [exact Hrec|].
  apply feature_vector_rows.
Qed.


Lemma In_combine_seq {A} (l : list A) :
  forall (start i : nat) (x : A),
    In (i, x) (combine (seq start (List.length l)) l)
    <-> start <= i /\ nth_error l (i - start) = Some x.
Proof.
  induction l as [|y l IH]; intros start i x; simpl.
  - split; [tauto|]. intros [_ H]. destruct (i - start); discriminate.
  - rewrite IH. split.
    + intros [H|[Hle H]].
      * injection H as <- <-. rewrite Nat.sub_diag. split; [lia | reflexivity].
      * split; [lia|]. replace (i - start) with (S (i - S start)) by lia.
        exact H.
    + intros [Hle H]. destruct (i - start) as [|m] eqn:E.
      * left. injection H as <-. f_equal. lia.
      * right. split; [lia|]. replace (i - S start) with m by lia. exact H.
Qed.

Lemma In_enumerate {A} (l : list A) (i : nat) (x : A) :
  In (i, x) (enumerate l) <-> nth_error l i = Some x.
Proof.
  unfold enumerate. rewrite In_combine_seq, Nat.sub_0_r.
  split; [tauto | split; [lia | assumption]].
Qed.

Lemma Forall2_In_r {A B} (R : A -> B -> Prop) (l : list A) (l' : list B)
    (y : B) :
  Forall2 R l l' -> In y l' -> exists x, In x l /\ R x y.
Proof.
  induction 1 as [|x y' l l' Hxy _ IH]; intros Hy; [contradiction|].
  destruct Hy as [->|Hy].
  - exists x. split; [now left | exact Hxy].
  - destruct (IH Hy) as (x' & Hx' & HR). exists x'. split; [now right | exact HR].
Qed.







End WithRuntime.

Import Validation Sampling Demo.


(** C5 as stated does not hold: a record whose only RMSF aggregate is the
    one at 348K gives the five base features and nothing more, for one
    record as for a stratum of ten. *)
Lemma rmsf_at_other_temperature_is_ignored :
  filter (String.prefix "avg_rmsf_") (map fst record_348) = ["avg_rmsf_348"] /\
  str_get "avg_rmsf_348" record_348 = Some (VNum (7 # 10)) /\
  feature_vector record_348
  = [VNum (inject_Z 120); VNum (1 # 2); VNum (1 # 4); VNum (1 # 2);
     VNum (3 # 10)] /\
  fst (stratum_matrix (features10_348 ten_ids) ten_ids)
  = repeat [VNum (inject_Z 120); VNum (1 # 2); VNum (1 # 4); VNum (1 # 2);
            VNum (3 # 10)] 10.
Proof. repeat split; reflexivity. Qed.

End StratumFacts.

(** ** The graph of the homology filter *)

Module GraphFacts.
Import Validation Sampling.

Lemma NoDup_snoc {A} (l : list A) (x : A) :
  NoDup l -> ~ In x l -> NoDup (l ++ [x]).
Proof.
  intros Hl Hx. apply Permutation_NoDup with (x :: l).
  - apply Permutation_cons_append.
  - now constructor.
Qed.

Lemma graph_nodes_from (l : list DomainId) :
  forall acc : list DomainId,
    let ns := fold_left (fun ns domain => if mem String.eqb domain ns then ns
                                          else ns ++ [domain]) l acc in
    (forall d, In d ns <-> In d acc \/ In d l) /\ (NoDup acc -> NoDup ns).
Proof.
  induction l as [|x l IH]; intros acc; cbn [fold_left].
  - split; [intros d; simpl; tauto | auto].
  - destruct (mem String.eqb x acc) eqn:E.
    + apply mem_In in E. destruct (IH acc) as [Hin Hnd]. split; [|exact Hnd].
      intros d. rewrite Hin. simpl. split; [tauto|].
      intros [H|[H|H]]; subst; auto.
    + apply mem_false in E. destruct (IH (acc ++ [x])) as [Hin Hnd]. split.
      * intros d. rewrite Hin, in_app_iff. simpl. tauto.
      * intros Hacc. apply Hnd. now apply NoDup_snoc.
Qed.

Lemma graph_nodes_In (candidate_domains : list DomainId) (d : DomainId) :
  In d (graph_nodes candidate_domains) <-> In d candidate_domains.
Proof.
  unfold graph_nodes.
  destruct (graph_nodes_from candidate_domains []) as [H _].
  rewrite H. simpl. tauto.
Qed.

Lemma linked_sym (cath_dict : ClassificationIndex) (u v : DomainId) :
  linked cath_dict u v = linked cath_dict v u.
Proof.
  unfold linked. rewrite (String.eqb_sym (pdb_id u)).
  destruct (String.eqb (pdb_id v) (pdb_id u)); [reflexivity|].
  destruct (str_get u cath_dict) as [[[[c1 a1] t1] h1]|],
           (str_get v cath_dict) as [[[[c2 a2] t2] h2]|]; try reflexivity.
  unfold code_eqb.
  now rewrite (Z.eqb_sym c1), (Z.eqb_sym a1), (Z.eqb_sym t1), (Z.eqb_sym h1).
Qed.

Lemma code_eqb_eq (x y : ClassificationCode) : code_eqb x y = true <-> x = y.
Proof.
  destruct x as [[[c1 a1] t1] h1], y as [[[c2 a2] t2] h2]. unfold code_eqb.
  rewrite !andb_true_iff, !Z.eqb_eq. split.
  - intros [[[-> ->] ->] ->]. reflexivity.
  - intros H. injection H as -> -> -> ->. auto.
Qed.

(** Two domains are linked when they share the source structure or the
    full classification. *)
Lemma linked_true (cath_dict : ClassificationIndex) (u v : DomainId) :
  linked cath_dict u v = true <->
  pdb_id u = pdb_id v \/
  exists code, str_get u cath_dict = Some code /\
               str_get v cath_dict = Some code.
Proof.
  unfold linked. destruct (String.eqb_spec (pdb_id u) (pdb_id v)) as [E|E].
  - split; auto.
  - destruct (str_get u cath_dict) as [x|], (str_get v cath_dict) as [y|].
    + rewrite code_eqb_eq. split.
      * intros ->. right. eauto.
      * intros [H|(code & Hx & Hy)]; congruence.
    + split; [discriminate|]. intros [H|(code & _ & Hy)]; congruence.
    + split; [discriminate|]. intros [H|(code & Hx & _)]; congruence.
    + split; [discriminate|]. intros [H|(code & Hx & _)]; congruence.
Qed.

Lemma inner_edges_spec (cath_dict : ClassificationIndex) (domain1 : DomainId)
    (later : list DomainId) :
  forall es : list (DomainId * DomainId),
    let es' := fold_left (fun es domain2 =>
                            if linked cath_dict domain1 domain2
                            then es ++ [(domain1, domain2)] else es)
                         later es in
    incl es es' /\
    (forall domain2, In domain2 later ->
                     linked cath_dict domain1 domain2 = true ->
                     In (domain1, domain2) es').
Proof.
  induction later as [|d later IH]; intros es; cbn [fold_left].
  - split; [apply incl_refl | contradiction].
  - destruct (linked cath_dict domain1 d) eqn:E.
    + destruct (IH (es ++ [(domain1, d)])) as [Hincl Hnew]. split.
      * intros e He. apply Hincl, in_or_app. now left.
      * intros d2 [<-|Hd2] Hl; [|now apply Hnew].
        apply Hincl, in_or_app. right. now left.
    + destruct (IH es) as [Hincl Hnew]. split; [exact Hincl|].
      intros d2 [<-|Hd2] Hl; [congruence | now apply Hnew].
Qed.

Lemma graph_edges_spec (cath_dict : ClassificationIndex)
    (candidate_domains : list DomainId) :
  forall es : list (DomainId * DomainId),
    incl es (graph_edges cath_dict candidate_domains es) /\
    (forall before domain1 later domain2,
        candidate_domains = before ++ domain1 :: later ->
        In domain2 later ->
        linked cath_dict domain1 domain2 = true ->
        In (domain1, domain2) (graph_edges cath_dict candidate_domains es)).
Proof.
  induction candidate_domains as [|d rest IH]; intros es; cbn [graph_edges].
  - split; [apply incl_refl|]. intros [|? ?]; discriminate.
  - destruct (inner_edges_spec cath_dict d rest es) as [Hincl Hnew].
    match goal with
    | |- context [graph_edges cath_dict rest ?inner] =>
        destruct (IH inner) as [Hincl' Hrest]
    end.
    split.
    + intros e He. apply Hincl', Hincl, He.
    + intros before d1 later d2 Hsplit Hd2 Hl.
      destruct before as [|b before]; simpl in Hsplit;
        injection Hsplit as <- ->.
      * apply Hincl'. now apply Hnew.
      * eapply Hrest; eauto.
Qed.

Lemma In_two_split {A} (l : list A) (u v : A) :
  In u l -> In v l -> u <> v ->
  (exists l1 l2, l = l1 ++ u :: l2 /\ In v l2) \/
  (exists l1 l2, l = l1 ++ v :: l2 /\ In u l2).
Proof.
  induction l as [|x l IH]; intros Hu Hv Hneq; [contradiction|].
  destruct Hu as [->|Hu], Hv as [->|Hv].
  - congruence.
  - left. exists [], l. split; [reflexivity | exact Hv].
  - right. exists [], l. split; [reflexivity | exact Hu].
  - destruct (IH Hu Hv Hneq) as [(l1 & l2 & -> & H)|(l1 & l2 & -> & H)].
    + left. exists (x :: l1), l2. split; [reflexivity | exact H].
    + right. exists (x :: l1), l2. split; [reflexivity | exact H].
Qed.

Lemma adjacent_sym (G : Graph) (u v : DomainId) :
  adjacent G u v = adjacent G v u.
Proof.
  unfold adjacent. induction (edges G) as [|e es IH]; simpl; [reflexivity|].
  rewrite IH. f_equal. apply orb_comm.
Qed.

Lemma edge_adjacent (G : Graph) (u v : DomainId) :
  In (u, v) (edges G) -> adjacent G u v = true.
Proof.
  intros H. unfold adjacent. apply existsb_exists. exists (u, v).
  split; [exact H|]. simpl. now rewrite !String.eqb_refl.
Qed.

(** Two distinct candidates that the filter links are neighbours in the
    graph. *)
Lemma linked_adjacent (cath_dict : ClassificationIndex)
    (candidate_domains : list DomainId) (u v : DomainId) :
  In u candidate_domains -> In v candidate_domains -> u <> v ->
  linked cath_dict u v = true ->
  adjacent (build_graph cath_dict candidate_domains) u v = true.
Proof.
  intros Hu Hv Hneq Hl.
  destruct (graph_edges_spec cath_dict candidate_domains []) as [_ Hedges].
  destruct (In_two_split _ _ _ Hu Hv Hneq)
    as [(l1 & l2 & Hsplit & H)|(l1 & l2 & Hsplit & H)].
  - apply edge_adjacent. simpl. eapply Hedges; eauto.
  - rewrite adjacent_sym. apply edge_adjacent. simpl.
    eapply Hedges; eauto. now rewrite linked_sym.
Qed.

Lemma filter_length_le {A} (f : A -> bool) (l : list A) :
  List.length (filter f l) <= List.length l.
Proof.
  induction l as [|x l IH]; simpl; [lia|]. destruct (f x); simpl; lia.
Qed.

Lemma filter_length_lt {A} (f g : A -> bool) (l : list A) (x : A) :
  (forall y, f y = true -> g y = true) ->
  In x l -> g x = true -> f x = false ->
  List.length (filter f l) < List.length (filter g l).
Proof.
  intros Hfg. induction l as [|y l IH]; intros Hx Hg Hf; [contradiction|].
  assert (Hle : List.length (filter f l) <= List.length (filter g l)).
  { clear -Hfg. induction l as [|z l IH]; simpl; [lia|].
    destruct (f z) eqn:E.
    - rewrite (Hfg z E). simpl. lia.
    - destruct (g z); simpl; lia. }
  simpl. destruct Hx as [->|Hx].
  - rewrite Hf, Hg. simpl. lia.
  - specialize (IH Hx Hg Hf). destruct (f y) eqn:E.
    + rewrite (Hfg y E). simpl. lia.
    + destruct (g y); simpl; lia.
Qed.

Lemma grow_step (fuel : nat) (G : Graph) (c : list DomainId) :
  grow (S fuel) G c
  = match frontier G c with
    | [] => c
    | next => grow fuel G (c ++ next)
    end.
Proof. reflexivity. Qed.

Lemma frontier_In (G : Graph) (c : list DomainId) (v : DomainId) :
  In v (frontier G c) <->
  In v (nodes G) /\ ~ In v c /\ exists u, In u c /\ adjacent G u v = true.
Proof.
  unfold frontier. rewrite filter_In, andb_true_iff, negb_true_iff,
    mem_false, existsb_exists. tauto.
Qed.

Lemma frontier_empty_closed (G : Graph) (c : list DomainId) :
  frontier G c = [] -> closed_in G c.
Proof.
  intros Hnil u v Hu Hv Hadj.
  destruct (mem String.eqb v c) eqn:E; [now apply mem_In|].
  apply mem_false in E.
  assert (Hin : In v (frontier G c)).
  { apply frontier_In. split; [exact Hv|]. split; [exact E|]. eauto. }
  rewrite Hnil in Hin. contradiction.
Qed.

Lemma missing_decreases (G : Graph) (c : list DomainId) (x : DomainId) :
  In x (frontier G c) -> missing G (c ++ frontier G c) < missing G c.
Proof.
  intros Hx. unfold missing. apply filter_length_lt with x.
  - intros y. rewrite !negb_true_iff, !mem_false, in_app_iff. tauto.
  - now apply frontier_In in Hx.
  - apply frontier_In in Hx. apply negb_true_iff, mem_false. tauto.
  - apply negb_false_iff, mem_In, in_or_app. now right.
Qed.

(** With enough rounds the search ends on a closed set. *)
Lemma grow_closed (G : Graph) :
  forall (fuel : nat) (c : list DomainId),
    missing G c <= fuel -> closed_in G (grow fuel G c).
Proof.
  induction fuel as [|fuel IH]; intros c Hm.
  - simpl. intros u v Hu Hv _.
    destruct (mem String.eqb v c) eqn:E; [now apply mem_In|].
    assert (Hin : In v (filter (fun v => negb (mem String.eqb v c)) (nodes G))).
    { apply filter_In. split; [exact Hv|]. now rewrite E. }
    unfold missing in Hm.
    destruct (filter (fun v => negb (mem String.eqb v c)) (nodes G));
      [contradiction | simpl in Hm; lia].
  - rewrite grow_step. destruct (frontier G c) as [|x next] eqn:E.
    + now apply frontier_empty_closed.
    + apply IH. rewrite <- E.
      assert (Hx : In x (frontier G c)) by (rewrite E; now left).
      pose proof (missing_decreases G c x Hx). lia.
Qed.

Lemma grow_within (G : Graph) (P : DomainId -> Prop) :
  (forall u v, P u -> In v (nodes G) -> adjacent G u v = true -> P v) ->
  forall (fuel : nat) (c : list DomainId),
    (forall x, In x c -> P x) -> forall x, In x (grow fuel G c) -> P x.
Proof.
  intros Hstep. induction fuel as [|fuel IH]; intros c Hc x Hx.
  - now apply Hc.
  - rewrite grow_step in Hx. destruct (frontier G c) as [|y next] eqn:E.
    + now apply Hc.
    + apply (IH (c ++ y :: next)); [|exact Hx].
      intros z Hz. apply in_app_or in Hz. destruct Hz as [Hz|Hz]; [now apply Hc|].
      rewrite <- E in Hz. apply frontier_In in Hz.
      destruct Hz as (Hn & _ & u & Hu & Hadj). eapply Hstep; eauto.
Qed.

Lemma grow_incl (G : Graph) :
  forall (fuel : nat) (c : list DomainId), incl c (grow fuel G c).
Proof.
  induction fuel as [|fuel IH]; intros c x Hx; [exact Hx|].
  rewrite grow_step. destruct (frontier G c) as [|y next]; [exact Hx|].
  apply IH, in_or_app. now left.
Qed.

Lemma plain_bfs_spec (G : Graph) (source : DomainId) :
  In source (nodes G) ->
  closed_in G (plain_bfs G source) /\
  incl (plain_bfs G source) (nodes G) /\
  In source (plain_bfs G source).
Proof.
  intros Hs. unfold plain_bfs. split; [|split].
  - apply grow_closed. unfold missing. apply filter_length_le.
  - intros x Hx.
    apply (grow_within G (fun x => In x (nodes G))) with (List.length (nodes G)) [source];
      auto.
    intros y [<-|[]]. exact Hs.
  - apply grow_incl. now left.
Qed.

(** What the search from a node outside a closed set finds stays outside
    of it. *)
Lemma plain_bfs_avoids (G : Graph) (seen : list DomainId) (source : DomainId) :
  closed_in G seen -> incl seen (nodes G) ->
  In source (nodes G) -> ~ In source seen ->
  forall x, In x (plain_bfs G source) -> ~ In x seen.
Proof.
  intros Hclosed Hseen Hs Hnot x Hx.
  apply (grow_within G (fun x => In x (nodes G) /\ ~ In x seen))
    with (List.length (nodes G)) [source]; [| |exact Hx].
  - intros u v [Hu Hnu] Hv Hadj. split; [exact Hv|].
    intros Hvs. apply Hnu. apply (Hclosed v u Hvs Hu).
    now rewrite adjacent_sym.
  - intros y [<-|[]]. split; assumption.
Qed.

Lemma closed_in_app (G : Graph) (a b : list DomainId) :
  closed_in G a -> closed_in G b -> closed_in G (a ++ b).
Proof.
  intros Ha Hb u v Hu Hv Hadj. apply in_or_app.
  apply in_app_or in Hu. destruct Hu as [Hu|Hu]; [left | right]; eauto.
Qed.

(** The components are closed sets of nodes, and a node lies in one
    component at most. *)
Lemma components_from_spec (G : Graph) :
  forall todo seen : list DomainId,
    incl todo (nodes G) -> closed_in G seen -> incl seen (nodes G) ->
    (forall c, In c (components_from G todo seen) ->
       closed_in G c /\ incl c (nodes G) /\ (forall x, In x c -> ~ In x seen)) /\
    (forall c1 c2 x, In c1 (components_from G todo seen) ->
                     In c2 (components_from G todo seen) ->
                     In x c1 -> In x c2 -> c1 = c2).
Proof.
  induction todo as [|v todo IH]; intros seen Htodo Hclosed Hseen.
  - split; simpl; intros; contradiction.
  - assert (Htodo' : incl todo (nodes G)).
    { intros x Hx. apply Htodo. now right. }
    cbn [components_from]. destruct (mem String.eqb v seen) eqn:E.
    + now apply IH.
    + apply mem_false in E.
      assert (Hv : In v (nodes G)) by (apply Htodo; now left).
      destruct (plain_bfs_spec G v Hv) as (Hc & Hcn & _).
      pose proof (plain_bfs_avoids G seen v Hclosed Hseen Hv E) as Havoid.
      destruct (IH (seen ++ plain_bfs G v) Htodo')
        as [Heach Huniq].
      { now apply closed_in_app. }
      { now apply incl_app. }
      split.
      * intros c [<-|Hc']; [auto|].
        destruct (Heach c Hc') as (H1 & H2 & H3).
        split; [exact H1|]. split; [exact H2|].
        intros x Hx Hxs. apply (H3 x Hx), in_or_app. now left.
      * intros c1 c2 x [<-|H1] [<-|H2] Hx1 Hx2.
        -- reflexivity.
        -- destruct (Heach c2 H2) as (_ & _ & H3).
           exfalso. apply (H3 x Hx2), in_or_app. now right.
        -- destruct (Heach c1 H1) as (_ & _ & H3).
           exfalso. apply (H3 x Hx1), in_or_app. now right.
        -- eapply Huniq; eauto.
Qed.

Lemma insert_sorted_In {A} (le : A -> A -> bool) (x y : A) (l : list A) :
  In y (insert_sorted le x l) <-> y = x \/ In y l.
Proof.
  induction l as [|z l IH]; simpl.
  - intuition congruence.
  - destruct (le x z); simpl; [intuition congruence|].
    rewrite IH. intuition congruence.
Qed.

Lemma sorted_In {A} (le : A -> A -> bool) (y : A) (l : list A) :
  In y (sorted le l) <-> In y l.
Proof.
  unfold sorted. induction l as [|x l IH]; simpl; [tauto|].
  rewrite insert_sorted_In, IH. intuition congruence.
Qed.

End GraphFacts.

(** ** The homology filter: which domains pass *)

Module FilterFacts.
Section WithRuntime.
Context {RT : Runtime}.

Import Validation Sampling BucketFacts StratumFacts GraphFacts.

(** A set is iterated member by member, whatever the order. *)
Hypothesis set_order_members :
  forall (l : list DomainId) (d : DomainId), In d (set_order l) <-> In d l.

(** Every entry of a bucket is a sorted component with its position. *)
Lemma bucket_components_from (domain_features : FeatureStore)
    (P : nat * list DomainId -> Prop) (l : list (nat * list DomainId)) :
  (forall ic, In ic l -> P ic) ->
  forall acc : dict value (list (nat * list DomainId)),
    (forall k v ic, In (k, v) acc -> In ic v -> P ic) ->
    forall k v ic,
      In (k, v)
         (fold_left
            (fun stability_components ic =>
               let majority := majority_class domain_features (snd ic) in
               dict_set value_eqb majority
                 (dict_get_default value_eqb majority [] stability_components
                  ++ [ic])
                 stability_components)
            l acc) ->
      In ic v -> P ic.
Proof.
  induction l as [|x l IH]; intros Hl acc Hacc; cbn [fold_left].
  - exact Hacc.
  - apply IH; [intros; apply Hl; now right|].
    intros k v ic Hkv Hic. cbv zeta in Hkv.
    apply dict_set_In in Hkv. destruct Hkv as [->|Hkv]; [|eauto].
    apply in_app_or in Hic. destruct Hic as [Hic|[<-|[]]].
    + unfold dict_get_default in Hic.
      destruct (dict_get value_eqb _ acc) as [v0|] eqn:E; [|contradiction].
      apply dict_get_In in E. destruct E as [k0 Hk0]. eauto.
    + apply Hl. now left.
Qed.

Lemma bucket_components_positions (domain_features : FeatureStore)
    (sorted_components : list (list DomainId)) :
  forall k v idx comp,
    In (k, v) (bucket_components domain_features sorted_components) ->
    In (idx, comp) v ->
    nth_error sorted_components idx = Some comp.
Proof.
  intros k v idx comp Hkv Hic. apply In_enumerate.
  apply (bucket_components_from domain_features
           (fun ic => In ic (enumerate sorted_components))
           (enumerate sorted_components) (fun ic H => H) [])
    with k v; auto.
  intros ? ? ? [].
Qed.

Lemma sample_bucket_In (sample_ratio : Q)
    (components : list (nat * list DomainId)) (g g' : rng)
    (picked : list nat) :
  sample_bucket sample_ratio components g = Ok (picked, g') ->
  forall idx, In idx picked -> exists comp, In (idx, comp) components.
Proof.
  unfold sample_bucket. intros H idx Hidx.
  apply bind_Ok in H. destruct H as (selected & g1 & _ & H).
  apply lift_Ok in H. destruct H as [H _].
  apply rmap_Forall2 in H.
  destruct (Forall2_In_r _ _ _ idx H Hidx) as (i & _ & Hi).
  apply rbind_Ok in Hi. destruct Hi as ([p comp] & Hic & Hp).
  injection Hp as <-. exists comp.
  apply list_index_Ok in Hic. eapply nth_error_In, Hic.
Qed.

Lemma sample_indices_positions (domain_features : FeatureStore)
    (sample_ratio : Q) (sorted_components : list (list DomainId))
    (g g' : rng) (sampled_indices : list nat) :
  sample_indices sample_ratio
    (bucket_components domain_features sorted_components) g
  = Ok (sampled_indices, g') ->
  forall idx, In idx sampled_indices ->
    exists comp, nth_error sorted_components idx = Some comp.
Proof.
  unfold sample_indices. intros H.
  eapply (mfold_invariant
            (fun acc : list nat =>
               forall idx, In idx acc ->
                 exists comp, nth_error sorted_components idx = Some comp));
    [| |exact H].
  - intros acc [k v] g0 acc' g0' Hbucket Hacc Hstep.
    apply bind_Ok in Hstep. destruct Hstep as (picked & g1 & Hpick & Hret).
    injection Hret as <- _.
    intros idx Hidx. apply in_app_or in Hidx. destruct Hidx as [Hidx|Hidx].
    + now apply Hacc.
    + destruct (sample_bucket_In _ _ _ _ _ Hpick idx Hidx) as [comp Hcomp].
      exists comp. eapply bucket_components_positions; eauto.
  - intros idx [].
Qed.

Lemma extend_with_raise (sorted_components : list (list DomainId))
    (indices : list nat) (e : exn) :
  fold_left
    (fun final_holdout idx =>
       rbind final_holdout (fun acc =>
       rbind (list_index sorted_components idx) (fun component =>
       Ok (acc ++ set_order component))))
    indices (Raise e)
  = Raise e.
Proof. induction indices as [|i l IH]; simpl; [reflexivity | exact IH]. Qed.

Lemma extend_with_from (sorted_components : list (list DomainId))
    (indices : list nat) :
  forall acc final : list DomainId,
    fold_left
      (fun final_holdout idx =>
         rbind final_holdout (fun acc =>
         rbind (list_index sorted_components idx) (fun component =>
         Ok (acc ++ set_order component))))
      indices (Ok acc)
    = Ok final ->
    forall d, In d final <->
              In d acc \/
              exists idx comp, In idx indices /\
                               nth_error sorted_components idx = Some comp /\
                               In d comp.
Proof.
  induction indices as [|i l IH]; intros acc final H d; cbn [fold_left] in H.
  - injection H as <-. split; [tauto|]. intros [H|(? & ? & [] & _)]. exact H.
  - cbn [rbind] in H.
    destruct (list_index sorted_components i) as [comp|e] eqn:E.
    + cbn [rbind] in H. rewrite (IH _ _ H d), in_app_iff, set_order_members.
      apply list_index_Ok in E. split.
      * intros [[Hd|Hd]|(idx & c & Hidx & Hc & Hd)].
        -- now left.
        -- right. exists i, comp. repeat split; auto. now left.
        -- right. exists idx, c. repeat split; auto. now right.
      * intros [Hd|(idx & c & [<-|Hidx] & Hc & Hd)].
        -- left. now left.
        -- left. right. congruence.
        -- right. exists idx, c. repeat split; auto.
    + cbn [rbind] in H. rewrite extend_with_raise in H. discriminate.
Qed.

(** The domains that pass the filter are the members of the sorted
    components at the sampled positions. *)
Lemma filter_output (candidate_domains : list DomainId)
    (domain_features : FeatureStore) (cath_dict : ClassificationIndex)
    (sample_ratio : Q) (g g' : rng) (final_holdout : list DomainId) :
  network_aware_sampling candidate_domains domain_features cath_dict
                         sample_ratio g
  = Ok (final_holdout, g') ->
  exists selected : list (list DomainId),
    incl selected
         (connected_components (build_graph cath_dict candidate_domains)) /\
    (forall d, In d final_holdout <-> exists c, In c selected /\ In d c).
Proof.
  unfold network_aware_sampling. intros H.
  set (G := build_graph cath_dict candidate_domains) in *.
  set (sorted_components := sort_components (connected_components G)) in *.
  apply bind_Ok in H. destruct H as (sampled & g1 & Hsampled & H).
  apply lift_Ok in H. destruct H as [H _].
  pose proof (extend_with_from _ _ _ _ H) as Hfinal.
  exists (flat_map (fun idx => match nth_error sorted_components idx with
                               | Some c => [c]
                               | None => []
                               end) sampled).
  split.
  - intros c Hc. apply in_flat_map in Hc. destruct Hc as (idx & _ & Hc).
    destruct (nth_error sorted_components idx) as [c'|] eqn:E; [|contradiction].
    destruct Hc as [<-|[]]. apply nth_error_In in E.
    unfold sorted_components, sort_components in E. now apply sorted_In in E.
  - intros d. rewrite Hfinal. split.
    + intros [[]|(idx & c & Hidx & Hc & Hd)].
      exists c. split; [|exact Hd]. apply in_flat_map. exists idx.
      split; [now apply sorted_In in Hidx|]. rewrite Hc. now left.
    + intros (c & Hc & Hd). right. apply in_flat_map in Hc.
      destruct Hc as (idx & Hidx & Hc).
      destruct (nth_error sorted_components idx) as [c'|] eqn:E; [|contradiction].
      destruct Hc as [<-|[]]. exists idx, c'.
      split; [now apply sorted_In|]. split; [exact E | exact Hd].
Qed.

Lemma components_spec (cath_dict : ClassificationIndex)
    (candidate_domains : list DomainId) :
  let G := build_graph cath_dict candidate_domains in
  (forall c, In c (connected_components G) ->
             closed_in G c /\ incl c candidate_domains) /\
  (forall c1 c2 x, In c1 (connected_components G) ->
                   In c2 (connected_components G) ->
                   In x c1 -> In x c2 -> c1 = c2).
Proof.
  intros G. unfold connected_components.
  destruct (components_from_spec G (nodes G) []) as [Heach Huniq].
  - apply incl_refl.
  - intros u v [].
  - intros x [].
  - split; [|exact Huniq]. intros c Hc.
    destruct (Heach c Hc) as (H1 & H2 & _). split; [exact H1|].
    intros x Hx. apply H2 in Hx.
    exact (proj1 (graph_nodes_In candidate_domains x) Hx).
Qed.

(** C2: the domains that leave the homology filter are the members of the
    selected connected components.  A component contains every candidate
    that is linked, by source-structure prefix or by identical
    classification, to one of its members; so two linked domains of the
    output lie in one selected component, and a component is in the output
    with all of its members or with none. *)
Theorem homology_filter_keeps_components_whole
    (candidate_domains : list DomainId) (domain_features : FeatureStore)
    (cath_dict : ClassificationIndex) (sample_ratio : Q) (g g' : rng)
    (final_holdout : list DomainId) :
  network_aware_sampling candidate_domains domain_features cath_dict
                         sample_ratio g
  = Ok (final_holdout, g') ->
  let components :=
    connected_components (build_graph cath_dict candidate_domains) in
  exists selected : list (list DomainId),
    incl selected components /\
    (forall d, In d final_holdout <-> exists c, In c selected /\ In d c) /\
    (forall c d1 d2, In c components -> In d1 c -> In d2 candidate_domains ->
                     (pdb_id d1 = pdb_id d2 \/
                      exists code, str_get d1 cath_dict = Some code /\
                                   str_get d2 cath_dict = Some code) ->
                     In d2 c) /\
    (forall d1 d2, In d1 final_holdout -> In d2 final_holdout ->
                   (pdb_id d1 = pdb_id d2 \/
                    exists code, str_get d1 cath_dict = Some code /\
                                 str_get d2 cath_dict = Some code) ->
                   exists c, In c selected /\ In d1 c /\ In d2 c) /\
    (forall c d1 d2, In c components -> In d1 c -> In d2 c ->
                     In d1 final_holdout -> In d2 final_holdout).
Proof.
  intros H components.
  destruct (filter_output _ _ _ _ _ _ _ H) as (selected & Hsel & Hfinal).
  destruct (components_spec cath_dict candidate_domains) as [Heach Huniq].
  fold components in Hsel, Heach, Huniq.
  assert (Hlink : forall c d1 d2, In c components -> In d1 c ->
            In d2 candidate_domains ->
            (pdb_id d1 = pdb_id d2 \/
             exists code, str_get d1 cath_dict = Some code /\
                          str_get d2 cath_dict = Some code) ->
            In d2 c).
  { intros c d1 d2 Hc Hd1 Hd2 Hl. apply linked_true in Hl.
    destruct (Heach c Hc) as [Hclosed Hincl].
    destruct (String.eqb_spec d1 d2) as [<-|Hneq]; [exact Hd1|].
    apply (Hclosed d1 d2 Hd1).
    - exact (proj2 (graph_nodes_In candidate_domains d2) Hd2).
    - apply linked_adjacent; auto. }
  exists selected. split; [exact Hsel|]. split; [exact Hfinal|].
  split; [exact Hlink|]. split.
  - intros d1 d2 Hd1 Hd2 Hl.
    apply Hfinal in Hd1. destruct Hd1 as (c & Hc & Hd1).
    apply Hfinal in Hd2. destruct Hd2 as (c2 & Hc2 & Hd2).
    exists c. split; [exact Hc|]. split; [exact Hd1|].
    apply (Hlink c d1 d2); auto.
    destruct (Heach c2 (Hsel c2 Hc2)) as [_ Hincl]. now apply Hincl.
  - intros c d1 d2 Hc Hd1 Hd2 Hin.
    apply Hfinal in Hin. destruct Hin as (c' & Hc' & Hd1').
    assert (E : c' = c) by (eapply Huniq; eauto).
    subst c'. apply Hfinal. eauto.
Qed.

(** What leaves the filter was a candidate. *)
Lemma filter_output_candidates (candidate_domains : list DomainId)
    (domain_features : FeatureStore) (cath_dict : ClassificationIndex)
    (sample_ratio : Q) (g g' : rng) (final_holdout : list DomainId) :
  network_aware_sampling candidate_domains domain_features cath_dict
                         sample_ratio g
  = Ok (final_holdout, g') ->
  incl final_holdout candidate_domains.
Proof.
  intros H d Hd.
  destruct (filter_output _ _ _ _ _ _ _ H) as (selected & Hsel & Hfinal).
  apply Hfinal in Hd. destruct Hd as (c & Hc & Hd).
  destruct (components_spec cath_dict candidate_domains) as [Heach _].
  destruct (Heach c (Hsel c Hc)) as [_ Hincl]. now apply Hincl.
Qed.

End WithRuntime.
End FilterFacts.

(** ** The stratified sampler: where the candidates come from *)

Module SamplerFacts.
Section WithRuntime.
Context {RT : Runtime}.

Import Validation Sampling BucketFacts StratumFacts GraphFacts FilterFacts.

Hypothesis set_order_members :
  forall (l : list DomainId) (d : DomainId), In d (set_order l) <-> In d l.

Lemma dedup_acc_In (l : list string) :
  forall (seen : list string) (x : string),
    In x (dedup_acc String.eqb seen l) <-> In x l /\ ~ In x seen.
Proof.
  induction l as [|y l IH]; intros seen x; cbn [dedup_acc].
  - simpl. tauto.
  - destruct (mem String.eqb y seen) eqn:E.
    + apply mem_In in E. rewrite IH. simpl. split; [tauto|].
      intros [[<-|H] Hn]; [contradiction | tauto].
    + apply mem_false in E. simpl. rewrite IH. simpl.
      destruct (String.eqb_spec y x) as [<-|Hneq]; [tauto|].
      split; [tauto|]. intros [[H|H] Hn]; [congruence|]. right.
      split; [exact H|]. intros [H'|H']; [congruence | contradiction].
Qed.

Lemma dedup_In (l : list string) (x : string) :
  In x (dedup String.eqb l) <-> In x l.
Proof. unfold dedup. rewrite dedup_acc_In. simpl. tauto. Qed.

Lemma dict_keys_In {V} (d : dict string V) (k : string) :
  In k (dict_keys String.eqb d) <-> dict_mem String.eqb k d = true.
Proof.
  unfold dict_keys, dict_mem. rewrite dedup_In.
  induction d as [|[k' v] d IH]; simpl.
  - split; [contradiction | discriminate].
  - destruct (String.eqb_spec k k') as [->|Hneq].
    + split; auto.
    + rewrite <- IH. split; [|tauto]. intros [H|H]; [congruence | exact H].
Qed.

Lemma common_domains_have_features (domain_features : FeatureStore)
    (cath_dict : ClassificationIndex) (d : DomainId) :
  In d (common_domains domain_features cath_dict) ->
  str_mem d domain_features = true.
Proof.
  unfold common_domains. rewrite set_order_members, filter_In.
  intros [H _]. now apply dict_keys_In.
Qed.

Lemma dict_get_default_inv {K V} (eqb : K -> K -> bool) (Q : V -> Prop)
    (k : K) (default : V) (d : dict K V) :
  (forall k' v, In (k', v) d -> Q v) -> Q default ->
  Q (dict_get_default eqb k default d).
Proof.
  intros Hd Hdefault. unfold dict_get_default.
  destruct (dict_get eqb k d) as [v|] eqn:E; [|exact Hdefault].
  apply dict_get_In in E. destruct E as [k' Hk']. eauto.
Qed.

Lemma dict_set_inv {K V} (eqb : K -> K -> bool) (Q : V -> Prop)
    (k : K) (v : V) (d : dict K V) :
  (forall k' v', In (k', v') d -> Q v') -> Q v ->
  forall k' v', In (k', v') (dict_set eqb k v d) -> Q v'.
Proof.
  intros Hd Hv k' v' H. apply dict_set_In in H.
  destruct H as [->|H]; eauto.
Qed.

(** Every leaf of the hierarchy holds domains of the list it was built
    from. *)
Lemma build_hierarchy_leaves (cath_dict : ClassificationIndex)
    (P : DomainId -> Prop) (domains : list DomainId) :
  (forall d, In d domains -> P d) ->
  forall c architectures a topologies t domain_list d,
    In (c, architectures) (build_hierarchy cath_dict domains) ->
    In (a, topologies) architectures ->
    In (t, domain_list) topologies ->
    In d domain_list -> P d.
Proof.
  intros Hdomains. unfold build_hierarchy.
  set (leaf := fun dl : list DomainId => forall d, In d dl -> P d).
  set (inv3 := fun topo : dict Z (list DomainId) =>
                 forall t dl, In (t, dl) topo -> leaf dl).
  set (inv2 := fun archs : dict Z (dict Z (list DomainId)) =>
                 forall a topo, In (a, topo) archs -> inv3 topo).
  assert (Hfold : forall (l : list DomainId) (h : Hierarchy),
            (forall d, In d l -> P d) ->
            (forall c archs, In (c, archs) h -> inv2 archs) ->
            forall c archs,
              In (c, archs)
                 (fold_left
                    (fun cath_hierarchy domain =>
                       match str_get domain cath_dict with
                       | Some (c, a, t, h) =>
                           hierarchy_append c a t domain cath_hierarchy
                       | None => cath_hierarchy
                       end) l h) ->
              inv2 archs).
  { induction l as [|x l IH]; intros h Hl Hh; cbn [fold_left]; [exact Hh|].
    apply IH; [intros; apply Hl; now right|].
    destruct (str_get x cath_dict) as [[[[c0 a0] t0] h0]|]; [|exact Hh].
    unfold hierarchy_append.
    assert (H2 : inv2 (dict_get_default Z.eqb c0 [] h)).
    { apply (dict_get_default_inv Z.eqb inv2); [exact Hh|]. intros ? ? []. }
    assert (H3 : inv3 (dict_get_default Z.eqb a0 []
                         (dict_get_default Z.eqb c0 [] h))).
    { apply (dict_get_default_inv Z.eqb inv3); [exact H2|]. intros ? ? []. }
    refine (dict_set_inv Z.eqb inv2 _ _ _ Hh _).
    refine (dict_set_inv Z.eqb inv3 _ _ _ H2 _).
    refine (dict_set_inv Z.eqb leaf _ _ _ H3 _).
    intros d Hd. apply in_app_or in Hd. destruct Hd as [Hd|[<-|[]]].
    - revert d Hd. fold (leaf (dict_get_default Z.eqb t0 []
                                 (dict_get_default Z.eqb a0 []
                                    (dict_get_default Z.eqb c0 [] h)))).
      apply (dict_get_default_inv Z.eqb leaf); [exact H3|]. intros ? [].
    - apply Hl. now left. }
  intros c archs a topo t dl d Hc Ha Ht Hd.
  apply (Hfold domains [] Hdomains (fun _ _ (H : In _ []) => match H with end)
               c archs Hc a topo Ha t dl Ht d Hd).
Qed.

Lemma cluster_domains_incl (domain_order : list DomainId)
    (clusters : list nat) (cluster_id : nat) (members : list DomainId) :
  cluster_domains domain_order clusters cluster_id = Ok members ->
  incl members domain_order.
Proof.
  unfold cluster_domains. intros H d Hd. apply rmap_Forall2 in H.
  destruct (Forall2_In_r _ _ _ d H Hd) as (ic & _ & Hic).
  apply list_index_Ok in Hic. eapply nth_error_In, Hic.
Qed.

(** What a stratum adds to the holdout list are domains of the stratum. *)
Lemma sample_stratum_incl (domain_features : FeatureStore)
    (sample_ratio : Q) (holdout_domains domain_list : list DomainId)
    (g g' : rng) (holdout' : list DomainId) :
  sample_stratum domain_features sample_ratio holdout_domains domain_list g
  = Ok (holdout', g') ->
  forall d, In d holdout' -> In d holdout_domains \/ In d domain_list.
Proof.
  unfold sample_stratum.
  destruct (10 <=? List.length domain_list).
  - unfold sample_large_stratum.
    pose proof (feature_vector_rows_aux domain_features domain_list) as [Hord _].
    destruct (stratum_matrix domain_features domain_list) as [fm ord].
    simpl in Hord.
    destruct fm as [|row fm'].
    + intros H. injection H as <- _. auto.
    + intros H. apply bind_Ok in H. destruct H as (X & g1 & _ & H).
      apply bind_Ok in H. destruct H as (labels & g2 & _ & H).
      unfold pick_representatives in H.
      eapply (mfold_invariant
                (fun acc : list DomainId =>
                   forall d, In d acc ->
                     In d holdout_domains \/ In d domain_list));
        [| |exact H]; [|auto].
      intros acc cid g3 acc' g3' _ Hacc Hstep.
      apply bind_Ok in Hstep. destruct Hstep as (members & g4 & Hm & Hstep).
      apply lift_Ok in Hm. destruct Hm as [Hm _].
      apply cluster_domains_incl in Hm.
      destruct members as [|m members'].
      * injection Hstep as <- _. exact Hacc.
      * apply bind_Ok in Hstep. destruct Hstep as (chosen & g5 & Hch & Hret).
        injection Hret as <- _. apply np_choice_In in Hch.
        intros d Hd. apply in_app_or in Hd. destruct Hd as [Hd|[<-|[]]]; auto.
        right. apply Hm in Hch. rewrite Hord in Hch.
        apply filter_In in Hch. tauto.
  - destruct (0 <? List.length domain_list).
    + unfold sample_small_stratum.
      destruct domain_list as [|only [|second rest]].
      * intros H. apply bind_Ok in H. destruct H as (sampled & g1 & Hs & H).
        injection H as <- _. apply np_choice_without_replacement_incl in Hs.
        intros d Hd. apply in_app_or in Hd. destruct Hd as [Hd|Hd]; auto.
      * intros H. apply bind_Ok in H. destruct H as (u & g1 & _ & H).
        destruct (negb (Qle_bool (round_double sample_ratio) u));
          injection H as <- _.
        -- intros d Hd. apply in_app_or in Hd. destruct Hd as [Hd|Hd]; auto.
        -- auto.
      * intros H. apply bind_Ok in H. destruct H as (sampled & g1 & Hs & H).
        injection H as <- _. apply np_choice_without_replacement_incl in Hs.
        intros d Hd. apply in_app_or in Hd. destruct Hd as [Hd|Hd]; auto.
    + intros H. injection H as <- _. auto.
Qed.

Lemma sample_hierarchy_incl (domain_features : FeatureStore)
    (sample_ratio : Q) (cath_hierarchy : Hierarchy) (P : DomainId -> Prop)
    (g g' : rng) (holdout_domains : list DomainId) :
  (forall c architectures a topologies t domain_list d,
      In (c, architectures) cath_hierarchy ->
      In (a, topologies) architectures ->
      In (t, domain_list) topologies ->
      In d domain_list -> P d) ->
  sample_hierarchy domain_features sample_ratio cath_hierarchy g
  = Ok (holdout_domains, g') ->
  forall d, In d holdout_domains -> P d.
Proof.
  intros Hleaves H. unfold sample_hierarchy in H.
  eapply (mfold_invariant (fun acc : list DomainId => forall d, In d acc -> P d));
    [| |exact H]; [|intros d []].
  intros acc1 [c archs] g1 acc1' g1' Hc Hacc1 H1. simpl in H1.
  eapply (mfold_invariant (fun acc : list DomainId => forall d, In d acc -> P d));
    [| |exact H1]; [|exact Hacc1].
  intros acc2 [a topos] g2 acc2' g2' Ha Hacc2 H2. simpl in H2.
  eapply (mfold_invariant (fun acc : list DomainId => forall d, In d acc -> P d));
    [| |exact H2]; [|exact Hacc2].
  intros acc3 [t dl] g3 acc3' g3' Ht Hacc3 H3. simpl in H3.
  intros d Hd.
  destruct (sample_stratum_incl _ _ _ _ _ _ _ H3 d Hd) as [Hin|Hin]; eauto.
Qed.

(** Every domain of the sampler's result has a feature record. *)
Lemma holdout_has_features (domain_features : FeatureStore)
    (cath_dict : ClassificationIndex) (sample_ratio : Q) (g g' : rng)
    (holdout_domains : list DomainId) :
  hierarchical_stratified_sampling domain_features cath_dict sample_ratio g
  = Ok (holdout_domains, g') ->
  forall d, In d holdout_domains -> str_mem d domain_features = true.
Proof.
  unfold hierarchical_stratified_sampling. intros H d Hd.
  apply bind_Ok in H. destruct H as (candidates & g1 & Hcand & Hfilter).
  apply (filter_output_candidates set_order_members) in Hfilter.
  apply Hfilter in Hd. revert d Hd.
  eapply sample_hierarchy_incl; [|exact Hcand].
  intros c archs a topos t dl d Hc Ha Ht Hd.
  eapply (build_hierarchy_leaves cath_dict
            (fun d => str_mem d domain_features = true)); eauto.
  intros d' Hd'. eapply common_domains_have_features, Hd'.
Qed.

End WithRuntime.
End SamplerFacts.

(** ** The refinement loop and the two files *)

Module MainFacts.
Section WithRuntime.
Context {RT : Runtime}.

Import Validation Sampling Main GraphFacts SamplerFacts.

Lemma below_threshold_true (ri : R) :
  below_threshold ri = true <-> (ri < 9 / 10)%R.
Proof.
  unfold below_threshold. destruct (Rlt_dec ri (9 / 10)%R); split; intros;
    try reflexivity; try assumption; try discriminate; contradiction.
Qed.

Lemma below_threshold_false (ri : R) :
  below_threshold ri = false <-> (9 / 10 <= ri)%R.
Proof.
  unfold below_threshold. destruct (Rlt_dec ri (9 / 10)%R); split; intros;
    try reflexivity; try discriminate; lra.
Qed.

Lemma pipeline_ratio (domain_features : FeatureStore)
    (cath_dict : ClassificationIndex) (all_domains : list DomainId)
    (sample_ratio : Q) (g g' : rng) (run : Run) :
  pipeline domain_features cath_dict all_domains sample_ratio g = Ok (run, g') ->
  run_ratio run = sample_ratio /\
  exists g1,
    hierarchical_stratified_sampling domain_features cath_dict sample_ratio g
    = Ok (run_holdout run, g1).
Proof.
  unfold pipeline. intros H.
  apply bind_Ok in H. destruct H as (holdout & g1 & Hh & H).
  apply bind_Ok in H. destruct H as (vr & g2 & _ & H).
  apply bind_Ok in H. destruct H as (ri & g3 & _ & H).
  injection H as <- _. simpl. split; [reflexivity|]. eauto.
Qed.

(** A pass is a run of the sampler, of the filter on its candidates and
    of the validator on the filtered list. *)
Lemma pipeline_steps (domain_features : FeatureStore)
    (cath_dict : ClassificationIndex) (all_domains : list DomainId)
    (sample_ratio : Q) (g g' : rng) (run : Run) :
  pipeline domain_features cath_dict all_domains sample_ratio g = Ok (run, g') ->
  exists g1 candidates validation_results,
    sample_hierarchy domain_features sample_ratio
      (build_hierarchy cath_dict (common_domains domain_features cath_dict))
      g
    = Ok (candidates, g1) /\
    network_aware_sampling candidates domain_features cath_dict sample_ratio
                           g1
    = Ok (run_holdout run, g') /\
    statistical_validation (run_holdout run) all_domains domain_features
                           cath_dict
    = Ok validation_results /\
    dict_index "representation_index" validation_results
    = Ok (run_index run).
Proof.
  unfold pipeline. intros H.
  apply bind_Ok in H. destruct H as (holdout & g1 & Hh & H).
  apply bind_Ok in H. destruct H as (vr & g2 & Hvr & H).
  apply bind_Ok in H. destruct H as (ri & g3 & Hri & H).
  apply lift_Ok in Hvr. destruct Hvr as [Hvr ->].
  apply lift_Ok in Hri. destruct Hri as [Hri ->].
  injection H as <- <-. cbn [run_holdout run_index].
  unfold hierarchical_stratified_sampling in Hh.
  apply bind_Ok in Hh. destruct Hh as (candidates & g0 & Hc & Hf).
  exists g0, candidates, vr. repeat split; assumption.
Qed.

(** The ratios of the six passes are doubles, each within 2^-55 of the
    exact value of 0.1 * (1 + 0.1 * i). *)
Lemma ratio_schedule (i : nat) :
  i <= 5 ->
  round_double (ratio_at i) = ratio_at i /\
  (Qabs (ratio_at i - (1 # 10) * (1 + (1 # 10) * inject_Z (Z.of_nat i)))
   <= 1 # 36028797018963968)%Q.
Proof.
  intros Hi.
  destruct i as [|[|[|[|[|[|i]]]]]]; try lia;
    (split; [vm_compute; reflexivity
            |apply Qle_bool_iff; vm_compute; reflexivity]).
Qed.

Lemma last_cons {A} (l : list A) :
  forall x d : A, last (x :: l) d = last l x.
Proof.
  induction l as [|y l IH]; intros x d; [reflexivity|].
  change (last (x :: y :: l) d) with (last (y :: l) d).
  now rewrite (IH y d), (IH y x).
Qed.

Lemma nth_error_last {A} (l : list A) (x : A) :
  nth_error (x :: l) (List.length l) = Some (last l x).
Proof.
  revert x. induction l as [|y l IH]; intros x; [reflexivity|].
  cbn [List.length nth_error]. rewrite IH. f_equal. symmetry. apply last_cons.
Qed.

(** The passes that the loop adds to the history. *)
Lemma refine_history (domain_features : FeatureStore)
    (cath_dict : ClassificationIndex) (all_domains : list DomainId) :
  forall (remaining iteration : nat) (current : Run) (history : list Run)
         (g g' : rng) (final : Run) (passes : list Run),
    refine domain_features cath_dict all_domains remaining iteration current
           history g
    = Ok (final, passes, g') ->
    exists extra : list Run,
      passes = history ++ extra /\
      List.length extra <= remaining /\
      final = last extra current /\
      (forall j run, nth_error extra j = Some run ->
         run_ratio run = ratio_at (iteration + 1 + j) /\
         exists gj gj',
           pipeline domain_features cath_dict all_domains (run_ratio run) gj
           = Ok (run, gj')) /\
      (forall j run, nth_error (current :: extra) j = Some run ->
         j < List.length extra -> (run_index run < 9 / 10)%R) /\
      ((9 / 10 <= run_index final)%R \/ List.length extra = remaining).
Proof.
  induction remaining as [|remaining IH];
    intros iteration current history g g' final passes H.
  - injection H as <- <- _. exists []. rewrite app_nil_r. simpl.
    split; [reflexivity|]. split; [lia|]. split; [reflexivity|].
    split; [intros [|j] run Hj; discriminate|].
    split; [intros j run _ Hj; lia | now right].
  - cbn [refine] in H. destruct (below_threshold (run_index current)) eqn:Hb.
    + apply bind_Ok in H. destruct H as (next & g1 & Hnext & H).
      apply IH in H.
      destruct H as (extra & -> & Hlen & -> & Hratio & Hbelow & Hstop).
      exists (next :: extra). rewrite <- app_assoc. simpl.
      split; [reflexivity|]. split; [lia|]. split.
      { symmetry. apply last_cons. }
      split; [|split].
      * intros [|j] run Hj; simpl in Hj.
        -- injection Hj as <-. destruct (pipeline_ratio _ _ _ _ _ _ _ Hnext) as [Er _].
           rewrite Er. split; [f_equal; lia|]. eauto.
        -- destruct (Hratio j run Hj) as [Er Hp]. split; [|exact Hp].
           rewrite Er. f_equal. lia.
      * intros [|j] run Hj Hlt; simpl in Hj.
        -- injection Hj as <-. now apply below_threshold_true.
        -- apply (Hbelow j run Hj). lia.
      * destruct Hstop as [Hstop|Hstop]; [left; exact Hstop | right; lia].
    + injection H as <- <- _. exists []. rewrite app_nil_r. simpl.
      split; [reflexivity|]. split; [lia|]. split; [reflexivity|].
      split; [intros [|j] run Hj; discriminate|].
      split; [intros j run _ Hj; lia|].
      left. now apply below_threshold_false.
Qed.

(** C9: main makes a first pass at the ratio 0.1 and then at most five
    more; pass number i uses the ratio 0.1 * (1 + 0.1 * i), computed in
    doubles and so within 2^-55 of the exact value, and runs afresh, on
    the inputs alone, the sampler, the filter on the sampler's candidates
    and the validator on the filtered list; every pass but the last has
    an index below 0.9, so that the loop stops at the first index of at
    least 0.9 (at once when the first pass has it) or after the fifth
    extra pass; the holdout written is that of the last pass. *)
Theorem refinement_loop_schedule (cath_dict : ClassificationIndex)
    (domain_features : FeatureStore) (g g' : rng) (out : Output) :
  main cath_dict domain_features g = Ok (out, g') ->
  let all_domains := dict_keys String.eqb domain_features in
  exists (n : nat) (final : Run),
    n <= 5 /\
    List.length (passes out) = S n /\
    nth_error (passes out) n = Some final /\
    (forall i run, nth_error (passes out) i = Some run ->
       round_double (run_ratio run) = ratio_at i /\
       (Qabs (ratio_at i
              - (1 # 10) * (1 + (1 # 10) * inject_Z (Z.of_nat i)))
        <= 1 # 36028797018963968)%Q /\
       (exists gi g1 gi' candidates validation_results,
          sample_hierarchy domain_features (run_ratio run)
            (build_hierarchy cath_dict
               (common_domains domain_features cath_dict))
            gi
          = Ok (candidates, g1) /\
          network_aware_sampling candidates domain_features cath_dict
                                 (run_ratio run) g1
          = Ok (run_holdout run, gi') /\
          statistical_validation (run_holdout run) all_domains
                                 domain_features cath_dict
          = Ok validation_results /\
          dict_index "representation_index" validation_results
          = Ok (run_index run)) /\
       (i < n -> (run_index run < 9 / 10)%R)) /\
    ((9 / 10 <= run_index final)%R \/ n = 5) /\
    holdout_file out = sorted String.leb (run_holdout final).
Proof.
  unfold main. intros H.
  set (all_domains := dict_keys String.eqb domain_features) in *.
  apply bind_Ok in H. destruct H as (first & g1 & Hfirst & H).
  apply bind_Ok in H. destruct H as ([final passes] & g2 & Hloop & H).
  apply refine_history in Hloop.
  destruct Hloop as (extra & -> & Hlen & -> & Hratio & Hbelow & Hstop).
  destruct all_domains as [|d0 rest] eqn:Eall; [discriminate|].
  injection H as <- _. cbn [holdout_file Main.passes fst snd].
  exists (List.length extra), (last extra first).
  change max_iterations with 5 in *.
  split; [exact Hlen|]. split; [reflexivity|]. split.
  { apply nth_error_last. }
  split; [|split; [exact Hstop | reflexivity]].
  intros i run Hi.
  assert (Hi5 : i <= 5).
  { assert (Hlt : i < List.length ([first] ++ extra)).
    { apply nth_error_Some. intros E.
      change (nth_error ([first] ++ extra) i = Some run) in Hi. congruence. }
    simpl in Hlt. lia. }
  destruct (ratio_schedule i Hi5) as [Hdouble Hnear].
  assert (Hrun : round_double (run_ratio run) = ratio_at i /\
                 exists gi gi',
                   pipeline domain_features cath_dict (d0 :: rest)
                            (run_ratio run) gi
                   = Ok (run, gi')).
  { destruct i as [|i]; simpl in Hi.
    - injection Hi as <-.
      destruct (pipeline_ratio _ _ _ _ _ _ _ Hfirst) as [Er _].
      rewrite Er. split; [vm_compute; reflexivity | eauto].
    - destruct (Hratio i run Hi) as [Er Hp]. split; [|exact Hp].
      rewrite Er. replace (0 + 1 + i) with (S i) by lia. exact Hdouble. }
  destruct Hrun as (Hr & gi & gi' & Hp).
  split; [exact Hr|]. split; [exact Hnear|]. split.
  - destruct (pipeline_steps _ _ _ _ _ _ _ Hp)
      as (gm & candidates & vr & H1 & H2 & H3 & H4).
    exists gi, gm, gi', candidates, vr. repeat split; assumption.
  - intros Hlt. destruct i as [|i]; simpl in Hi.
    + injection Hi as <-. apply (Hbelow 0 first eq_refl Hlt).
    + apply (Hbelow (S i) run Hi). lia.
Qed.

Hypothesis set_order_members :
  forall (l : list DomainId) (d : DomainId), In d (set_order l) <-> In d l.

Lemma refine_invariant (P : Run -> Prop) (domain_features : FeatureStore)
    (cath_dict : ClassificationIndex) (all_domains : list DomainId) :
  (forall r g g' run,
      pipeline domain_features cath_dict all_domains r g = Ok (run, g') ->
      P run) ->
  forall (remaining iteration : nat) (current : Run) (history : list Run)
         (g g' : rng) (final : Run) (passes : list Run),
    P current ->
    refine domain_features cath_dict all_domains remaining iteration current
           history g
    = Ok (final, passes, g') ->
    P final.
Proof.
  intros Hpipe. induction remaining as [|remaining IH];
    intros iteration current history g g' final passes Hcur H.
  - injection H as <- _ _. exact Hcur.
  - cbn [refine] in H. destruct (below_threshold (run_index current)).
    + apply bind_Ok in H. destruct H as (next & g1 & Hnext & H).
      eapply IH; [|exact H]. eapply Hpipe, Hnext.
    + injection H as <- _ _. exact Hcur.
Qed.

(** C3: the two lists that main writes have no domain in common, and a
    domain is in one of them exactly when it has a feature record. *)
Theorem holdout_and_training_partition (cath_dict : ClassificationIndex)
    (domain_features : FeatureStore) (g g' : rng) (out : Output) :
  main cath_dict domain_features g = Ok (out, g') ->
  (forall d, In d (holdout_file out) -> ~ In d (training_file out)) /\
  (forall d, str_mem d domain_features = true <->
             In d (holdout_file out) \/ In d (training_file out)).
Proof.
  unfold main. intros H.
  set (all_domains := dict_keys String.eqb domain_features) in *.
  apply bind_Ok in H. destruct H as (first & g1 & Hfirst & H).
  apply bind_Ok in H. destruct H as ([final passes] & g2 & Hloop & H).
  assert (Hsub : forall d, In d (run_holdout final) ->
                           str_mem d domain_features = true).
  { refine (refine_invariant
              (fun run => forall d, In d (run_holdout run) ->
                                    str_mem d domain_features = true)
              domain_features cath_dict all_domains _
              _ _ _ _ _ _ _ _ _ Hloop).
    - intros r g0 g0' run Hrun.
      destruct (pipeline_ratio _ _ _ _ _ _ _ Hrun) as [_ [g3 Hh]].
      eapply (holdout_has_features set_order_members), Hh.
    - destruct (pipeline_ratio _ _ _ _ _ _ _ Hfirst) as [_ [g3 Hh]].
      eapply (holdout_has_features set_order_members), Hh. }
  destruct all_domains as [|d0 rest] eqn:Eall; [discriminate|].
  injection H as <- _. cbn [holdout_file training_file fst snd].
  rewrite <- Eall.
  assert (Htrain : forall d,
            In d (sorted String.leb
                    (training_domains_of all_domains (run_holdout final)))
            <-> str_mem d domain_features = true
                /\ ~ In d (run_holdout final)).
  { intros d. rewrite sorted_In. unfold training_domains_of.
    rewrite set_order_members, filter_In, dedup_In, negb_true_iff, mem_false.
    unfold all_domains. rewrite dict_keys_In. reflexivity. }
  split.
  - intros d Hd Ht. apply sorted_In in Hd. apply Htrain in Ht. tauto.
  - intros d. rewrite Htrain, sorted_In. split.
    + intros Hd. destruct (mem String.eqb d (run_holdout final)) eqn:E.
      * left. now apply mem_In.
      * right. split; [exact Hd | now apply mem_false].
    + intros [Hd|[Hd _]]; auto.
Qed.

End WithRuntime.
End MainFacts.

(** ** Runs of the pipeline on the two-domain store *)

Module Runs.
Import Validation Sampling Main Demo IndexFacts MainFacts.

Lemma identity_order_members :
  forall (l : list DomainId) (d : DomainId),
    In d (set_order (Runtime := accepting) l) <-> In d l.
Proof. intros l d. simpl. tauto. Qed.

Lemma homology_filter_keeps_components_whole_witness :
  let components :=
    connected_components (build_graph cath3 candidates3) in
  exists selected : list (list DomainId),
    incl selected components /\
    (forall d, In d ["1abcA00"; "1abcB00"]
               <-> exists c, In c selected /\ In d c) /\
    (forall c d1 d2, In c components -> In d1 c -> In d2 candidates3 ->
                     (pdb_id d1 = pdb_id d2 \/
                      exists code, str_get d1 cath3 = Some code /\
                                   str_get d2 cath3 = Some code) ->
                     In d2 c) /\
    (forall d1 d2, In d1 ["1abcA00"; "1abcB00"] ->
                   In d2 ["1abcA00"; "1abcB00"] ->
                   (pdb_id d1 = pdb_id d2 \/
                    exists code, str_get d1 cath3 = Some code /\
                                 str_get d2 cath3 = Some code) ->
                   exists c, In c selected /\ In d1 c /\ In d2 c) /\
    (forall c d1 d2, In c components -> In d1 c -> In d2 c ->
                     In d1 ["1abcA00"; "1abcB00"] ->
                     In d2 ["1abcA00"; "1abcB00"]).
Proof.
  apply (FilterFacts.homology_filter_keeps_components_whole
           (RT := accepting) identity_order_members
           candidates3 features2 cath3 (1 # 10) [] []).
  vm_compute. reflexivity.
Defined.

Lemma accepted_result_computed :
  statistical_validation (RT := accepting) ["1abcA00"]
    (dict_keys String.eqb features2) features2 cath3
  = Ok accepted_result.
Proof. vm_compute. reflexivity. Qed.

Lemma rejected_result_computed :
  statistical_validation (RT := rejecting) ["1abcA00"]
    (dict_keys String.eqb features2) features2 cath3
  = Ok rejected_result.
Proof. vm_compute. reflexivity. Qed.

Lemma accepted_index :
  dict_index "representation_index" accepted_result = Ok 1%R.
Proof.
  cbv -[pow_third np_mean Rmult Rplus Rdiv Rminus Q2R INR IZR R0 R1].
  f_equal.
  match goal with
  | |- pow_third ?x = _ => replace x with 1%R; [apply pow_third_1|]
  end.
  unfold np_mean, Q2R. cbn [fold_right List.length INR Qnum Qden]. field.
Qed.

Lemma rejected_index :
  dict_index "representation_index" rejected_result = Ok 0%R.
Proof.
  cbv -[pow_third np_mean Rmult Rplus Rdiv Rminus Q2R INR IZR R0 R1].
  f_equal.
  match goal with
  | |- pow_third ?x = _ => replace x with 0%R; [apply pow_third_0|]
  end.
  unfold np_mean. cbn [fold_right]. unfold Rdiv.
  rewrite !Rplus_0_l, !Rmult_0_l. reflexivity.
Qed.

Lemma accepting_pass :
  pipeline (RT := accepting) features2 cath3
           (dict_keys String.eqb features2) (1 # 10) []
  = Ok ({| run_ratio := 1 # 10;
           run_holdout := ["1abcA00"];
           run_index := 1%R |}, []).
Proof.
  unfold pipeline.
  rewrite (bind_step _ _ [] [] ["1abcA00"]) by (vm_compute; reflexivity).
  rewrite (bind_step _ _ [] [] accepted_result)
    by (unfold lift; now rewrite accepted_result_computed).
  rewrite (bind_step _ _ [] [] 1%R)
    by (unfold lift; now rewrite accepted_index).
  reflexivity.
Qed.

Lemma rejecting_pass (sample_ratio : Q) :
  In sample_ratio
     [1 # 10; ratio_at 1; ratio_at 2; ratio_at 3; ratio_at 4; ratio_at 5] ->
  pipeline (RT := rejecting) features2 cath3
           (dict_keys String.eqb features2) sample_ratio []
  = Ok ({| run_ratio := sample_ratio;
           run_holdout := ["1abcA00"];
           run_index := 0%R |}, []).
Proof.
  intros Hr. unfold pipeline.
  rewrite (bind_step _ _ [] [] ["1abcA00"]).
  - rewrite (bind_step _ _ [] [] rejected_result)
      by (unfold lift; now rewrite rejected_result_computed).
    rewrite (bind_step _ _ [] [] 0%R)
      by (unfold lift; now rewrite rejected_index).
    reflexivity.
  - simpl in Hr.
    repeat (destruct Hr as [<-|Hr]; [vm_compute; reflexivity|]).
    contradiction.
Qed.

(** With accepting tests the first pass is kept. *)
Lemma main_accepting_run :
  exists (out : Output) (g' : rng),
    main (RT := accepting) cath3 features2 [] = Ok (out, g') /\
    holdout_file out = ["1abcA00"] /\
    training_file out = ["1abcB00"] /\
    List.length (passes out) = 1.
Proof.
  eexists _, _. split.
  - unfold main. rewrite (bind_step _ _ [] [] _ accepting_pass).
    cbn [refine max_iterations run_index].
    rewrite (proj2 (below_threshold_false 1)) by lra.
    rewrite (bind_step _ _ [] [] _ eq_refl).
    reflexivity.
  - repeat split; reflexivity.
Qed.

Lemma refine_rejecting_run :
  exists (final : Run) (history : list Run),
    refine (RT := rejecting) features2 cath3 (dict_keys String.eqb features2)
           max_iterations 0
           {| run_ratio := 1 # 10; run_holdout := ["1abcA00"];
              run_index := 0%R |}
           [ {| run_ratio := 1 # 10; run_holdout := ["1abcA00"];
                run_index := 0%R |} ]
           []
    = Ok (final, history, []) /\
    run_holdout final = ["1abcA00"] /\
    List.length history = 6.
Proof.
  assert (Hbelow : below_threshold 0 = true)
    by (apply below_threshold_true; lra).
  eexists _, _. split.
  - cbn [refine max_iterations run_index]. rewrite Hbelow.
    rewrite (bind_step _ _ [] [] _
               (rejecting_pass (ratio_at 1) ltac:(cbn [In]; auto 10))).
    cbn [run_index]. rewrite Hbelow.
    rewrite (bind_step _ _ [] [] _
               (rejecting_pass (ratio_at 2) ltac:(cbn [In]; auto 10))).
    cbn [run_index]. rewrite Hbelow.
    rewrite (bind_step _ _ [] [] _
               (rejecting_pass (ratio_at 3) ltac:(cbn [In]; auto 10))).
    cbn [run_index]. rewrite Hbelow.
    rewrite (bind_step _ _ [] [] _
               (rejecting_pass (ratio_at 4) ltac:(cbn [In]; auto 10))).
    cbn [run_index]. rewrite Hbelow.
    rewrite (bind_step _ _ [] [] _
               (rejecting_pass (ratio_at 5) ltac:(cbn [In]; auto 10))).
    reflexivity.
  - split; reflexivity.
Qed.

(** With rejecting tests the loop uses its whole budget. *)
Lemma main_rejecting_run :
  exists (out : Output) (g' : rng),
    main (RT := rejecting) cath3 features2 [] = Ok (out, g') /\
    holdout_file out = ["1abcA00"] /\
    List.length (passes out) = 6.
Proof.
  destruct refine_rejecting_run as (final & history & Hloop & Hfinal & Hlen).
  eexists _, _. split.
  - unfold main.
    rewrite (bind_step _ _ [] [] _
               (rejecting_pass (1 # 10) ltac:(cbn [In]; auto 10))).
    rewrite (bind_step _ _ [] [] _ Hloop).
    reflexivity.
  - cbn [holdout_file passes fst snd]. rewrite Hfinal.
    split; [reflexivity | exact Hlen].
Qed.

Lemma holdout_and_training_partition_witness :
  exists (out : Output) (g' : rng),
    main (RT := accepting) cath3 features2 [] = Ok (out, g') /\
    (forall d, In d (holdout_file out) -> ~ In d (training_file out)) /\
    (forall d, str_mem d features2 = true <->
               In d (holdout_file out) \/ In d (training_file out)).
Proof.
  destruct main_accepting_run as (out & g' & Hrun & _).
  exists out, g'. split; [exact Hrun|].
  exact (holdout_and_training_partition (RT := accepting)
           identity_order_members cath3 features2 [] g' out Hrun).
Defined.

Lemma refinement_loop_schedule_witness :
  exists (out : Output) (g' : rng),
    main (RT := rejecting) cath3 features2 [] = Ok (out, g') /\
    List.length (passes out) = 6 /\
    exists (n : nat) (final : Run),
      n <= 5 /\
      List.length (passes out) = S n /\
      nth_error (passes out) n = Some final /\
      (forall i run, nth_error (passes out) i = Some run ->
         round_double (run_ratio run) = ratio_at i /\
         (Qabs (ratio_at i
                - (1 # 10) * (1 + (1 # 10) * inject_Z (Z.of_nat i)))
          <= 1 # 36028797018963968)%Q /\
         (exists gi g1 gi' candidates validation_results,
            sample_hierarchy (RT := rejecting) features2 (run_ratio run)
              (build_hierarchy cath3
                 (common_domains (RT := rejecting) features2 cath3))
              gi
            = Ok (candidates, g1) /\
            network_aware_sampling (RT := rejecting) candidates features2
                                   cath3 (run_ratio run) g1
            = Ok (run_holdout run, gi') /\
            statistical_validation (RT := rejecting) (run_holdout run)
                                   (dict_keys String.eqb features2)
                                   features2 cath3
            = Ok validation_results /\
            dict_index "representation_index" validation_results
            = Ok (run_index run)) /\
         (i < n -> (run_index run < 9 / 10)%R)) /\
      ((9 / 10 <= run_index final)%R \/ n = 5) /\
      holdout_file out = sorted String.leb (run_holdout final).
Proof.
  destruct main_rejecting_run as (out & g' & Hrun & _ & Hlen).
  exists out, g'. split; [exact Hrun|]. split; [exact Hlen|].
  exact (refinement_loop_schedule (RT := rejecting) cath3 features2 [] g' out
           Hrun).
Defined.

End Runs.

(** ** The sample runtimes *)

Module SampleFacts.
Import Demo.

Lemma accepting_order_members :
  forall (l : list DomainId) (d : DomainId),
    In d (set_order (Runtime := accepting) l) <-> In d l.
Proof. intros l d. simpl. tauto. Qed.

Lemma rejecting_order_members :
  forall (l : list DomainId) (d : DomainId),
    In d (set_order (Runtime := rejecting) l) <-> In d l.
Proof. intros l d. simpl. tauto. Qed.

End SampleFacts.

(** ** Counting distinct values *)

Module DistinctFacts.

(** [dedup] keeps one element of every class of [eqb], when [eqb] is
    equality after the normalisation [f]. *)
Section Normalised.
Context {K C : Type} (eqb : K -> K -> bool) (f : K -> C).
Hypothesis eqb_normal : forall x y, eqb x y = true <-> f x = f y.

Lemma mem_normal (x : K) (l : list K) :
  mem eqb x l = true <-> In (f x) (map f l).
Proof.
  unfold mem. rewrite existsb_exists, in_map_iff. split.
  - intros (y & Hy & E). exists y. split; [symmetry; now apply eqb_normal | exact Hy].
  - intros (y & E & Hy). exists y. split; [exact Hy | now apply eqb_normal].
Qed.

Lemma dedup_acc_normal (l : list K) :
  forall seen : list K,
    NoDup (map f (dedup_acc eqb seen l)) /\
    (forall c, In c (map f (dedup_acc eqb seen l))
               <-> In c (map f l) /\ ~ In c (map f seen)).
Proof.
  induction l as [|x l IH]; intros seen; cbn [dedup_acc map].
  - split; [constructor | simpl; tauto].
  - destruct (mem eqb x seen) eqn:E.
    + apply mem_normal in E. destruct (IH seen) as [Hnd Hin].
      split; [exact Hnd|]. intros c. rewrite Hin. simpl. split; [tauto|].
      intros [[<-|H] Hn]; [contradiction | tauto].
    + assert (Hx : ~ In (f x) (map f seen)).
      { intros H. apply mem_normal in H. congruence. }
      destruct (IH (x :: seen)) as [Hnd Hin]. cbn [map] in *. split.
      * constructor; [|exact Hnd]. intros H. apply Hin in H. simpl in H. tauto.
      * intros c. simpl. rewrite Hin. simpl. split.
        -- intros [<-|[H Hn]]; [split; [now left | exact Hx]|].
           split; [now right|]. intros H'. apply Hn. now right.
        -- intros [[<-|H] Hn]; [now left|].
           apply in_map_iff in H. destruct H as (y & <- & Hy).
           destruct (eqb x y) eqn:Exy.
           ++ left. now apply eqb_normal.
           ++ right. split; [now apply in_map|].
              intros [H'|H']; [|contradiction].
              apply eqb_normal in H'. congruence.
Qed.

Lemma dedup_length_le (l1 l2 : list K) :
  (forall x, In x l1 -> exists y, In y l2 /\ f x = f y) ->
  List.length (dedup eqb l1) <= List.length (dedup eqb l2).
Proof.
  intros Hsub. unfold dedup.
  destruct (dedup_acc_normal l1 []) as [Hnd1 Hin1].
  destruct (dedup_acc_normal l2 []) as [_ Hin2].
  rewrite <- (length_map f (dedup_acc eqb [] l1)),
          <- (length_map f (dedup_acc eqb [] l2)).
  apply NoDup_incl_length; [exact Hnd1|].
  intros c Hc. apply Hin1 in Hc. destruct Hc as [Hc _].
  apply in_map_iff in Hc. destruct Hc as (x & <- & Hx).
  destruct (Hsub x Hx) as (y & Hy & E).
  apply Hin2. split; [|simpl; tauto]. rewrite E. now apply in_map.
Qed.

End Normalised.

Lemma pair_eqb_eq (x y : Z * Z) : Validation.pair_eqb x y = true <-> x = y.
Proof.
  destruct x as [a b], y as [c d]. unfold Validation.pair_eqb. simpl.
  rewrite andb_true_iff, !Z.eqb_eq. split; [intros [-> ->]; reflexivity|].
  intros H. injection H as -> ->. auto.
Qed.

Lemma triple_eqb_eq (x y : Z * Z * Z) :
  Validation.triple_eqb x y = true <-> x = y.
Proof.
  destruct x as [p a], y as [q b]. unfold Validation.triple_eqb. simpl.
  rewrite andb_true_iff, pair_eqb_eq, Z.eqb_eq. split; [intros [-> ->]; reflexivity|].
  intros H. injection H as -> ->. auto.
Qed.

(** Values are equal for [==] when they are equal after reducing the
    fractions. *)
Lemma value_eqb_normal (a b : value) :
  value_eqb a b = true <->
  match a with VNum q => VNum (Qred q) | VStr s => VStr s end
  = match b with VNum q => VNum (Qred q) | VStr s => VStr s end.
Proof.
  destruct a as [p|s], b as [q|t]; simpl.
  - rewrite Qeq_bool_iff. split.
    + intros H. f_equal. now apply Qred_complete.
    + intros H. injection H as H.
      apply Qeq_trans with (Qred p); [symmetry; apply Qred_correct|].
      rewrite H. apply Qred_correct.
  - split; discriminate.
  - split; discriminate.
  - rewrite String.eqb_eq. split; [intros ->; reflexivity|].
    intros H. now injection H.
Qed.

End DistinctFacts.

(** ** The validator: coverage ratios *)

Module CoverageFacts.
Import Validation DistinctFacts.

Lemma len_Q_pos {A} (x : A) (l : list A) : (0 < len_Q (x :: l))%Q.
Proof. unfold len_Q, Qlt. simpl. lia. Qed.

Lemma coverage_le_1 {A} (a b : list A) :
  List.length a <= List.length b -> (coverage a b <= 1)%Q.
Proof.
  intros Hle. unfold coverage. destruct b as [|x b]; [apply Qle_refl|].
  apply Qle_shift_div_r; [apply len_Q_pos|].
  rewrite Qmult_1_l. unfold len_Q. rewrite <- Zle_Qle. lia.
Qed.

Lemma coverage_eq_1 {A} (a b : list A) :
  List.length a = List.length b -> (coverage a b == 1)%Q.
Proof.
  intros Heq. unfold coverage. destruct b as [|x b]; [reflexivity|].
  unfold len_Q. rewrite Heq.
  apply Qmult_inv_r. intros H. pose proof (len_Q_pos x b) as Hpos.
  unfold len_Q in Hpos. rewrite H in Hpos. discriminate.
Qed.

Lemma coverage_ge_0 {A} (a b : list A) : (0 <= coverage a b)%Q.
Proof.
  unfold coverage. destruct b as [|x b]; [discriminate|].
  apply Qmult_le_0_compat; [|apply Qinv_le_0_compat];
    unfold len_Q, Qle; simpl; lia.
Qed.

Lemma cath_of_In (cath_dict : ClassificationIndex) (ds : list DomainId)
    (c : ClassificationCode) :
  In c (cath_of cath_dict ds) <->
  exists d, In d ds /\ str_get d cath_dict = Some c.
Proof.
  unfold cath_of. rewrite in_flat_map. split.
  - intros (d & Hd & Hc). exists d. split; [exact Hd|].
    destruct (str_get d cath_dict) as [c'|]; [|contradiction].
    destruct Hc as [->|[]]. reflexivity.
  - intros (d & Hd & Hc). exists d. split; [exact Hd|]. rewrite Hc. now left.
Qed.

Lemma cath_of_incl (cath_dict : ClassificationIndex)
    (holdout_domains all_domains : list DomainId) :
  incl holdout_domains all_domains ->
  incl (cath_of cath_dict holdout_domains) (cath_of cath_dict all_domains).
Proof.
  intros Hincl c Hc. apply cath_of_In in Hc. destruct Hc as (d & Hd & Hc).
  apply cath_of_In. exists d. split; [now apply Hincl | exact Hc].
Qed.

(** Distinct prefixes of a sublist are no more than those of the list. *)
Lemma distinct_map_le {A K} (eqb : K -> K -> bool) (g : A -> K)
    (l1 l2 : list A) :
  (forall x y, eqb x y = true <-> x = y) ->
  incl l1 l2 ->
  List.length (dedup eqb (map g l1)) <= List.length (dedup eqb (map g l2)).
Proof.
  intros Hspec Hincl.
  apply (dedup_length_le eqb (fun k => k) Hspec).
  intros k Hk. exists k. split; [|reflexivity].
  apply in_map_iff in Hk. destruct Hk as (x & <- & Hx).
  apply in_map, Hincl, Hx.
Qed.

Lemma hierarchy_coverage_range (holdout_cath all_cath : list ClassificationCode) :
  incl holdout_cath all_cath ->
  (0 <= hierarchy_coverage_of holdout_cath all_cath <= 1)%Q.
Proof.
  intros Hincl. unfold hierarchy_coverage_of. cbv zeta.
  pose proof (coverage_ge_0 (dedup Z.eqb (map code_c holdout_cath))
                            (dedup Z.eqb (map code_c all_cath))).
  pose proof (coverage_ge_0 (dedup pair_eqb (map code_ca holdout_cath))
                            (dedup pair_eqb (map code_ca all_cath))).
  pose proof (coverage_ge_0 (dedup triple_eqb (map code_cat holdout_cath))
                            (dedup triple_eqb (map code_cat all_cath))).
  pose proof (coverage_le_1 _ _
                (distinct_map_le Z.eqb code_c _ _ Z.eqb_eq Hincl)).
  pose proof (coverage_le_1 _ _
                (distinct_map_le pair_eqb code_ca _ _ pair_eqb_eq Hincl)).
  pose proof (coverage_le_1 _ _
                (distinct_map_le triple_eqb code_cat _ _ triple_eqb_eq Hincl)).
  split; Lqa.lra.
Qed.

(** X1: when every holdout domain belongs to the population, the weighted
    hierarchy coverage lies between 0 and 1; it is 1 when, in addition,
    every domain of the population is in the holdout list. *)
Theorem hierarchy_coverage_in_unit_interval (cath_dict : ClassificationIndex)
    (holdout_domains all_domains : list DomainId) :
  incl holdout_domains all_domains ->
  let hc := hierarchy_coverage_of (cath_of cath_dict holdout_domains)
                                  (cath_of cath_dict all_domains) in
  (0 <= hc <= 1)%Q /\
  (incl all_domains holdout_domains -> (hc == 1)%Q).
Proof.
  intros Hincl hc. split.
  - apply hierarchy_coverage_range. now apply cath_of_incl.
  - intros Hback. unfold hc, hierarchy_coverage_of. cbv zeta.
    pose proof (cath_of_incl cath_dict _ _ Hincl) as H1.
    pose proof (cath_of_incl cath_dict _ _ Hback) as H2.
    rewrite (coverage_eq_1 (dedup Z.eqb _) (dedup Z.eqb _)),
            (coverage_eq_1 (dedup pair_eqb _) (dedup pair_eqb _)),
            (coverage_eq_1 (dedup triple_eqb _) (dedup triple_eqb _)).
    + reflexivity.
    + apply Nat.le_antisymm;
        apply (distinct_map_le triple_eqb code_cat _ _ triple_eqb_eq);
        assumption.
    + apply Nat.le_antisymm;
        apply (distinct_map_le pair_eqb code_ca _ _ pair_eqb_eq);
        assumption.
    + apply Nat.le_antisymm;
        apply (distinct_map_le Z.eqb code_c _ _ Z.eqb_eq); assumption.
Qed.

Import Demo.

Lemma hierarchy_coverage_in_unit_interval_witness :
  let hc := hierarchy_coverage_of (cath_of cath3 ["1abcA00"; "2xyzA00"])
                                  (cath_of cath3 candidates3) in
  (0 <= hc <= 1)%Q /\
  (incl candidates3 ["1abcA00"; "2xyzA00"] -> (hc == 1)%Q).
Proof.
  apply (hierarchy_coverage_in_unit_interval cath3
           ["1abcA00"; "2xyzA00"] candidates3).
  intros d [<-|[<-|[]]]; simpl; tauto.
Defined.

End CoverageFacts.

(** ** The validator: every score is a fraction *)

Module ScoreFacts.
Section WithRuntime.
Context {RT : Runtime}.

Import Validation IndexFacts DistinctFacts CoverageFacts BucketFacts StratumFacts.
Local Open Scope R_scope.

Hypothesis kstest_probability :
  forall a b p, kstest a b = Ok p -> 0 <= p <= 1.
Hypothesis chi2_cdf_probability :
  forall x df, 0 <= chi2_cdf x df <= 1.

Lemma str_set_unit (k : string) (v : R) (vr : ValidationResult) :
  Forall (fun kv => 0 <= snd kv <= 1) vr -> 0 <= v <= 1 ->
  Forall (fun kv => 0 <= snd kv <= 1) (str_set k v vr).
Proof.
  intros Hvr Hv. unfold str_set.
  induction Hvr as [|[k' v'] vr Hk Hvr IH]; simpl.
  - constructor; [exact Hv | constructor].
  - destruct (String.eqb k k'); constructor; auto.
Qed.

Lemma Q2R_unit (q : Q) : (0 <= q <= 1)%Q -> 0 <= Q2R q <= 1.
Proof.
  intros [H0 H1]. rewrite <- RMicromega.Q2R_0, <- RMicromega.Q2R_1.
  split; now apply Qle_Rle.
Qed.

Lemma np_mean_unit (l : list R) :
  Forall (fun p => 0 <= p <= 1) l -> l <> [] -> 0 <= np_mean l <= 1.
Proof.
  intros Hl Hne. unfold np_mean.
  assert (Hsum : 0 <= fold_right Rplus 0 l <= INR (List.length l)).
  { clear Hne. induction Hl as [|p l Hp _ IH].
    - simpl. lra.
    - cbn [fold_right List.length]. rewrite S_INR. lra. }
  assert (Hlen : 0 < INR (List.length l)).
  { apply lt_0_INR. destruct l; [congruence | simpl; lia]. }
  split.
  - apply Rmult_le_pos; [lra|]. left. now apply Rinv_0_lt_compat.
  - apply (Rmult_le_reg_r (INR (List.length l))); [exact Hlen|].
    unfold Rdiv. rewrite Rmult_assoc, Rinv_l by lra. lra.
Qed.

Lemma Forall2_In_l {A B} (P : A -> B -> Prop) (l : list A) (l' : list B)
    (x : A) :
  Forall2 P l l' -> In x l -> exists y, In y l' /\ P x y.
Proof.
  induction 1 as [|x' y l l' Hxy _ IH]; intros Hx; [contradiction|].
  destruct Hx as [->|Hx].
  - exists y. split; [now left | exact Hxy].
  - destruct (IH Hx) as (y' & Hy' & HP). exists y'. split; [now right | exact HP].
Qed.

(** The stability classes of a sublist are among those of the list. *)
Lemma stability_column_incl (domain_features : FeatureStore)
    (ds1 ds2 : list DomainId) (l1 l2 : list value) :
  incl ds1 ds2 ->
  stability_column domain_features ds1 = Ok l1 ->
  stability_column domain_features ds2 = Ok l2 ->
  incl l1 l2.
Proof.
  unfold stability_column. intros Hincl H1 H2 x Hx.
  apply rmap_Forall2 in H1. apply rmap_Forall2 in H2.
  destruct (Forall2_In_r _ _ _ x H1 Hx) as (d & Hd & Hdx).
  destruct (Forall2_In_l _ _ _ d H2 (Hincl d Hd)) as (y & Hy & Hdy).
  simpl in Hdx, Hdy. rewrite Hdx in Hdy. injection Hdy as <-. exact Hy.
Qed.

Lemma filter_incl {A} (f : A -> bool) (l1 l2 : list A) :
  incl l1 l2 -> incl (filter f l1) (filter f l2).
Proof.
  intros Hincl x Hx. apply filter_In in Hx. apply filter_In.
  split; [apply Hincl|]; tauto.
Qed.

(** X2: when the statistical tests return probabilities and every holdout
    domain belongs to the population, every score that the validator
    stores, the representation index included, lies between 0 and 1. *)
Theorem validation_scores_in_unit_interval
    (holdout_domains all_domains : list DomainId)
    (domain_features : FeatureStore) (cath_dict : ClassificationIndex)
    (res : ValidationResult) :
  incl holdout_domains all_domains ->
  statistical_validation holdout_domains all_domains domain_features cath_dict
  = Ok res ->
  Forall (fun kv => 0 <= snd kv <= 1) res.
Proof.
  intros Hincl. unfold statistical_validation. intros H.
  apply rbind_Ok in H. destruct H as [vr1 [H1 H]].
  apply rbind_Ok in H. destruct H as [vr2 [H2 H]].
  apply rbind_Ok in H. destruct H as [vr3 [H3 H]].
  apply rbind_Ok in H. destruct H as [vr4 [H4 H]].
  injection H as <-.
  set (hc := Q2R _).
  assert (Hhc : 0 <= hc <= 1).
  { apply Q2R_unit, hierarchy_coverage_range. now apply cath_of_incl. }
  assert (N1 : Forall (fun kv => 0 <= snd kv <= 1) vr1).
  { unfold validate_size in H1.
    apply rbind_Ok in H1. destruct H1 as [hs [_ H1]].
    apply rbind_Ok in H1. destruct H1 as [als [_ H1]].
    apply rbind_Ok in H1. destruct H1 as [p [Hp H1]].
    injection H1 as <-. apply kstest_probability in Hp.
    constructor; [exact Hp | constructor]. }
  assert (N2 : Forall (fun kv => 0 <= snd kv <= 1) vr2).
  { unfold validate_rmsf in H2.
    apply rbind_Ok in H2. destruct H2 as [first [_ H2]].
    destruct (str_mem "avg_rmsf_320" first).
    - apply rbind_Ok in H2. destruct H2 as [hs [_ H2]].
      apply rbind_Ok in H2. destruct H2 as [hr [_ H2]].
      apply rbind_Ok in H2. destruct H2 as [als [_ H2]].
      apply rbind_Ok in H2. destruct H2 as [ar [_ H2]].
      apply rbind_Ok in H2. destruct H2 as [p [Hp H2]].
      injection H2 as <-. apply str_set_unit; [exact N1|].
      now apply kstest_probability in Hp.
    - injection H2 as <-. exact N1. }
  assert (N3 : Forall (fun kv => 0 <= snd kv <= 1) vr3).
  { unfold validate_secondary in H3.
    apply rbind_Ok in H3. destruct H3 as [hh [_ H3]].
    apply rbind_Ok in H3. destruct H3 as [ah [_ H3]].
    apply rbind_Ok in H3. destruct H3 as [hsh [_ H3]].
    apply rbind_Ok in H3. destruct H3 as [ash [_ H3]].
    apply rbind_Ok in H3. destruct H3 as [p [Hp H3]].
    apply rbind_Ok in H3. destruct H3 as [q [Hq H3]].
    injection H3 as <-.
    apply kstest_probability in Hp. apply kstest_probability in Hq.
    repeat apply str_set_unit; auto. }
  assert (N3' : Forall (fun kv => 0 <= snd kv <= 1)
                  (validate_class (cath_of cath_dict holdout_domains)
                                  (cath_of cath_dict all_domains) vr3)).
  { unfold validate_class. cbv zeta.
    destruct (_ && _); [|exact N3].
    apply str_set_unit; [exact N3|].
    match goal with
    | |- 0 <= 1 - chi2_cdf ?x ?df <= 1 =>
        pose proof (chi2_cdf_probability x df); lra
    end. }
  assert (N4 : Forall (fun kv => 0 <= snd kv <= 1) vr4).
  { unfold validate_stability in H4.
    apply rbind_Ok in H4. destruct H4 as [first [_ H4]].
    destruct (str_mem "stability_class" first).
    - apply rbind_Ok in H4. destruct H4 as [hs [Hhs H4]].
      apply rbind_Ok in H4. destruct H4 as [als [Hals H4]].
      injection H4 as <-. apply str_set_unit; [exact N3'|].
      apply Q2R_unit. split; [apply coverage_ge_0|].
      apply coverage_le_1.
      apply (dedup_length_le value_eqb _ value_eqb_normal).
      intros x Hx. exists x. split; [|reflexivity].
      eapply stability_column_incl; [| exact Hhs | exact Hals | exact Hx].
      now apply filter_incl.
    - injection H4 as <-. exact N3'. }
  unfold summarize. cbv zeta.
  pose proof (str_set_unit "hierarchy_coverage" hc vr4 N4 Hhc) as N5.
  set (vr5 := str_set "hierarchy_coverage" hc vr4) in *.
  assert (Hds : 0 <= average_p_value vr5 <= 1).
  { unfold average_p_value. cbv zeta.
    destruct (p_values_of vr5) as [|p ps] eqn:E; [lra|].
    apply np_mean_unit; [|discriminate]. rewrite <- E.
    unfold p_values_of. apply Forall_map, Forall_forall.
    intros kv Hkv. apply filter_In in Hkv. destruct Hkv as [Hkv _].
    rewrite Forall_forall in N5. now apply N5. }
  pose proof (str_set_unit "distribution_similarity" _ vr5 N5 Hds) as N6.
  set (vr6 := str_set "distribution_similarity" _ vr5) in *.
  apply str_set_unit; [exact N6|].
  assert (Hsc : 0 <= dict_get_default String.eqb "stability_coverage" 1 vr6 <= 1).
  { unfold dict_get_default.
    destruct (dict_get String.eqb "stability_coverage" vr6) as [v|] eqn:E; [|lra].
    apply dict_get_In in E. destruct E as [k' Hk'].
    rewrite Forall_forall in N6. exact (N6 _ Hk'). }
  set (sc := dict_get_default _ _ _ _) in *.
  set (ds := average_p_value vr5) in *.
  split; [apply pow_third_nonneg|]. apply pow_third_le_1.
  assert (H0 : 0 <= ds * hc) by (apply Rmult_le_pos; lra).
  assert (H1' : ds * hc <= 1).
  { apply Rle_trans with (1 * 1); [|lra]. apply Rmult_le_compat; lra. }
  apply Rle_trans with (1 * 1); [|lra]. apply Rmult_le_compat; lra.
Qed.

End WithRuntime.

Import Validation Demo.

Lemma validation_scores_in_unit_interval_witness :
  Forall (fun kv => (0 <= snd kv <= 1)%R) mixed_result.
Proof.
  apply (validation_scores_in_unit_interval (RT := accepting))
    with (holdout_domains := ["2xyzA00"; "1abcA00"])
         (all_domains := ["1abcA00"; "2xyzA00"])
         (domain_features := features_mixed) (cath_dict := cath3).
  - intros a b p H. simpl in H. injection H as <-. lra.
  - intros x df. simpl. lra.
  - intros d [<-|[<-|[]]]; simpl; tauto.
  - vm_compute. reflexivity.
Defined.

End ScoreFacts.

(** ** The validator: entries of the result, missing fields, the statistic *)

Module ResultFacts.
Section WithRuntime.
Context {RT : Runtime}.

Import Validation BucketFacts StratumFacts CoverageFacts.

Lemma validate_size_mem (domain_features : FeatureStore)
    (hwf awf : list DomainId) (vr vr' : ValidationResult) (k : string) :
  validate_size domain_features hwf awf vr = Ok vr' ->
  str_mem k vr' = String.eqb k "ks_size_pval" || str_mem k vr.
Proof.
  unfold validate_size. intros H.
  apply rbind_Ok in H. destruct H as [hs [_ H]].
  apply rbind_Ok in H. destruct H as [als [_ H]].
  apply rbind_Ok in H. destruct H as [p [_ H]].
  injection H as <-. apply str_mem_set.
Qed.

Lemma validate_rmsf_mem (domain_features : FeatureStore)
    (hwf awf : list DomainId) (vr vr' : ValidationResult) (k : string) :
  validate_rmsf domain_features hwf awf vr = Ok vr' ->
  str_mem k vr = true -> str_mem k vr' = true.
Proof.
  unfold validate_rmsf. intros H Hk.
  apply rbind_Ok in H. destruct H as [first [_ H]].
  destruct (str_mem "avg_rmsf_320" first).
  - apply rbind_Ok in H. destruct H as [hs [_ H]].
    apply rbind_Ok in H. destruct H as [hr [_ H]].
    apply rbind_Ok in H. destruct H as [als [_ H]].
    apply rbind_Ok in H. destruct H as [ar [_ H]].
    apply rbind_Ok in H. destruct H as [p [_ H]].
    injection H as <-. unfold str_mem, str_set in *.
    rewrite str_mem_set, Hk. apply orb_true_r.
  - now injection H as <-.
Qed.

Lemma validate_secondary_mem (domain_features : FeatureStore)
    (hwf awf : list DomainId) (vr vr' : ValidationResult) (k : string) :
  validate_secondary domain_features hwf awf vr = Ok vr' ->
  str_mem k vr' = String.eqb k "ks_sheet_pval"
                  || (String.eqb k "ks_helix_pval" || str_mem k vr).
Proof.
  unfold validate_secondary. intros H.
  apply rbind_Ok in H. destruct H as [hh [_ H]].
  apply rbind_Ok in H. destruct H as [ah [_ H]].
  apply rbind_Ok in H. destruct H as [hsh [_ H]].
  apply rbind_Ok in H. destruct H as [ash [_ H]].
  apply rbind_Ok in H. destruct H as [p [_ H]].
  apply rbind_Ok in H. destruct H as [q [_ H]].
  injection H as <-. unfold str_mem, str_set. now rewrite !str_mem_set.
Qed.

Lemma validate_class_keeps (holdout_cath all_cath : list ClassificationCode)
    (vr : ValidationResult) (k : string) :
  str_mem k vr = true ->
  str_mem k (validate_class holdout_cath all_cath vr) = true.
Proof.
  intros Hk. unfold validate_class. cbv zeta.
  destruct (_ && _); [|exact Hk].
  unfold str_mem, str_set in *. rewrite str_mem_set, Hk. apply orb_true_r.
Qed.

Lemma validate_stability_keeps (domain_features : FeatureStore)
    (hwf awf : list DomainId) (vr vr' : ValidationResult) (k : string) :
  validate_stability domain_features hwf awf vr = Ok vr' ->
  str_mem k vr = true -> str_mem k vr' = true.
Proof.
  unfold validate_stability. intros H Hk.
  apply rbind_Ok in H. destruct H as [first [_ H]].
  destruct (str_mem "stability_class" first).
  - apply rbind_Ok in H. destruct H as [hs [_ H]].
    apply rbind_Ok in H. destruct H as [als [_ H]].
    injection H as <-. unfold str_mem, str_set in *.
    rewrite str_mem_set, Hk. apply orb_true_r.
  - now injection H as <-.
Qed.

Lemma summarize_keeps (hc : R) (vr : ValidationResult) (k : string) :
  str_mem k (summarize hc vr)
  = String.eqb k "representation_index"
    || (String.eqb k "distribution_similarity"
        || (String.eqb k "hierarchy_coverage" || str_mem k vr)).
Proof.
  unfold summarize. cbv zeta. unfold str_mem, str_set.
  now rewrite !str_mem_set.
Qed.

(** X3: a result of the validator always has the three unconditional test
    entries, the hierarchy coverage, the distribution similarity and the
    representation index; the subscript with which main reads the index
    cannot raise. *)
Theorem validation_result_entries
    (holdout_domains all_domains : list DomainId)
    (domain_features : FeatureStore) (cath_dict : ClassificationIndex)
    (res : ValidationResult) :
  statistical_validation holdout_domains all_domains domain_features cath_dict
  = Ok res ->
  Forall (fun k => str_mem k res = true)
         [ "ks_size_pval"; "ks_helix_pval"; "ks_sheet_pval";
           "hierarchy_coverage"; "distribution_similarity";
           "representation_index" ] /\
  exists ri, dict_index "representation_index" res = Ok ri.
Proof.
  unfold statistical_validation. intros H.
  apply rbind_Ok in H. destruct H as [vr1 [H1 H]].
  apply rbind_Ok in H. destruct H as [vr2 [H2 H]].
  apply rbind_Ok in H. destruct H as [vr3 [H3 H]].
  apply rbind_Ok in H. destruct H as [vr4 [H4 H]].
  injection H as <-.
  assert (Hsize : str_mem "ks_size_pval" vr4 = true).
  { eapply validate_stability_keeps; [exact H4|].
    apply validate_class_keeps.
    rewrite (validate_secondary_mem _ _ _ _ _ _ H3).
    rewrite (validate_rmsf_mem _ _ _ _ _ "ks_size_pval" H2);
      [reflexivity|].
    now rewrite (validate_size_mem _ _ _ _ _ _ H1). }
  assert (Hhelix : str_mem "ks_helix_pval" vr4 = true).
  { eapply validate_stability_keeps; [exact H4|].
    apply validate_class_keeps.
    now rewrite (validate_secondary_mem _ _ _ _ _ _ H3). }
  assert (Hsheet : str_mem "ks_sheet_pval" vr4 = true).
  { eapply validate_stability_keeps; [exact H4|].
    apply validate_class_keeps.
    now rewrite (validate_secondary_mem _ _ _ _ _ _ H3). }
  split.
  - repeat constructor; rewrite summarize_keeps;
      try rewrite Hsize; try rewrite Hhelix; try rewrite Hsheet;
      reflexivity.
  - unfold dict_index.
    pose proof (summarize_keeps
                  (Q2R (hierarchy_coverage_of
                          (cath_of cath_dict holdout_domains)
                          (cath_of cath_dict all_domains)))
                  vr4 "representation_index") as Hri.
    unfold str_mem, dict_mem in Hri. simpl in Hri.
    destruct (dict_get String.eqb "representation_index" _) as [ri|];
      [eauto | discriminate].
Qed.

(** A comprehension raises the exception of an element when no element
    raises another one. *)
Lemma rmap_raises {A B} (f : A -> result B) (l : list A) (e : exn) :
  (forall x, In x l -> f x = Raise e \/ exists y, f x = Ok y) ->
  (exists x, In x l /\ f x = Raise e) ->
  rmap f l = Raise e.
Proof.
  induction l as [|x l IH]; intros Hall (x0 & Hx0 & Hraise); [contradiction|].
  simpl. destruct (Hall x (or_introl eq_refl)) as [Hx|[y Hy]].
  - now rewrite Hx.
  - rewrite Hy. simpl. rewrite IH; [reflexivity | |].
    + intros z Hz. apply Hall. now right.
    + destruct Hx0 as [->|Hx0]; [congruence|]. eauto.
Qed.

Lemma size_column_cases (domain_features : FeatureStore)
    (ds : list DomainId) (d : DomainId) :
  In d (filter (fun d => str_mem d domain_features) ds) ->
  rbind (dict_index d domain_features) (fun rec => dict_index "size" rec)
  = Raise (KeyError "size")
  \/ exists y,
       rbind (dict_index d domain_features) (fun rec => dict_index "size" rec)
       = Ok y.
Proof.
  intros Hd. apply filter_In in Hd. destruct Hd as [_ Hd].
  unfold str_mem, dict_mem, dict_index in *.
  destruct (dict_get String.eqb d domain_features) as [rec|]; [|discriminate].
  simpl. destruct (dict_get String.eqb "size" rec) as [v|]; eauto.
Qed.

(** X4: when a holdout domain has a feature record without the entry
    size, the validator raises KeyError for that field before any test is
    run. *)
Theorem validation_requires_size
    (holdout_domains all_domains : list DomainId)
    (domain_features : FeatureStore) (cath_dict : ClassificationIndex)
    (d : DomainId) (rec : FeatureRecord) :
  In d holdout_domains ->
  str_get d domain_features = Some rec ->
  str_mem "size" rec = false ->
  statistical_validation holdout_domains all_domains domain_features cath_dict
  = Raise (KeyError "size").
Proof.
  intros Hd Hrec Hsize. unfold statistical_validation, validate_size.
  assert (Hcol : feature_column domain_features "size"
                   (filter (fun d => str_mem d domain_features) holdout_domains)
                 = Raise (KeyError "size")).
  { unfold feature_column. apply rmap_raises.
    - intros x Hx. now apply size_column_cases with holdout_domains.
    - exists d. split.
      + apply filter_In. split; [exact Hd|].
        unfold str_mem, dict_mem, str_get in *. now rewrite Hrec.
      + unfold dict_index, str_get, str_mem, dict_mem in *. rewrite Hrec.
        simpl. destruct (dict_get String.eqb "size" rec); [discriminate|].
        reflexivity. }
  now rewrite Hcol.
Qed.

End WithRuntime.

Import Validation Demo.

Lemma validation_result_entries_witness :
  Forall (fun k => str_mem k mixed_result = true)
         [ "ks_size_pval"; "ks_helix_pval"; "ks_sheet_pval";
           "hierarchy_coverage"; "distribution_similarity";
           "representation_index" ] /\
  exists ri, dict_index "representation_index" mixed_result = Ok ri.
Proof.
  apply (validation_result_entries (RT := accepting)
           ["2xyzA00"; "1abcA00"] ["1abcA00"; "2xyzA00"] features_mixed cath3).
  vm_compute. reflexivity.
Defined.

Lemma validation_requires_size_witness :
  statistical_validation (RT := accepting) ["1abcA00"] ["1abcA00"]
    [("1abcA00", [("helix_pct", VNum (1 # 2))])] cath3
  = Raise (KeyError "size").
Proof.
  apply (validation_requires_size (RT := accepting) ["1abcA00"] ["1abcA00"]
           [("1abcA00", [("helix_pct", VNum (1 # 2))])] cath3
           "1abcA00" [("helix_pct", VNum (1 # 2))]).
  - now left.
  - reflexivity.
  - reflexivity.
Defined.

End ResultFacts.

(** ** The chi-squared statistic *)

Module StatisticFacts.
Import Validation CoverageFacts.

Lemma Qsquare_nonneg (x : Q) : (0 <= Qsquare x)%Q.
Proof. unfold Qsquare, Qle. simpl. nia. Qed.

Lemma chi2_fold_nonneg (expected observed : Z -> Q) (keys : list Z) :
  forall acc : Q,
    (0 <= acc)%Q ->
    (0 <= fold_left
            (fun chi2 c =>
               if negb (Qle_bool (expected c) 0)
               then (chi2 + Qsquare (observed c - expected c) / expected c)%Q
               else chi2)
            keys acc)%Q.
Proof.
  induction keys as [|c keys IH]; intros acc Hacc; cbn [fold_left]; [exact Hacc|].
  apply IH. destruct (Qle_bool (expected c) 0) eqn:E; simpl; [exact Hacc|].
  assert (Hpos : (0 < expected c)%Q).
  { apply Qnot_le_lt. intros H. apply Qle_bool_iff in H. congruence. }
  assert (Hterm : (0 <= Qsquare (observed c - expected c) / expected c)%Q).
  { apply Qle_shift_div_l; [exact Hpos|]. rewrite Qmult_0_l.
    apply Qsquare_nonneg. }
  Lqa.lra.
Qed.

Lemma chi2_fold_zero (expected observed : Z -> Q) (keys : list Z) :
  (forall c, In c keys -> (observed c == expected c)%Q) ->
  forall acc : Q,
    (acc == 0)%Q ->
    (fold_left
       (fun chi2 c =>
          if negb (Qle_bool (expected c) 0)
          then (chi2 + Qsquare (observed c - expected c) / expected c)%Q
          else chi2)
       keys acc == 0)%Q.
Proof.
  induction keys as [|c keys IH]; intros Hsame acc Hacc; cbn [fold_left];
    [exact Hacc|].
  apply IH; [intros; apply Hsame; now right|].
  destruct (negb (Qle_bool (expected c) 0)); [|exact Hacc].
  unfold Qsquare. rewrite Hacc, (Hsame c (or_introl eq_refl)).
  setoid_replace (expected c - expected c)%Q with 0%Q by ring.
  unfold Qdiv. ring.
Qed.

Lemma dedup_acc_incl {K} (eqb : K -> K -> bool) (l : list K) :
  forall (seen : list K) (x : K), In x (dedup_acc eqb seen l) -> In x l.
Proof.
  induction l as [|y l IH]; intros seen x H; cbn [dedup_acc] in H;
    [contradiction|].
  destruct (mem eqb y seen).
  - right. eapply IH, H.
  - destruct H as [H|H]; [now left | right; eapply IH, H].
Qed.

Lemma count_Permutation (c : Z) (l1 l2 : list Z) :
  Permutation l1 l2 -> count Z.eqb c l1 = count Z.eqb c l2.
Proof.
  unfold count. induction 1 as [|x l l' _ IH|x y l|l l' l'' _ IH1 _ IH2];
    cbn [filter].
  - reflexivity.
  - destruct (Z.eqb c x); cbn [List.length]; now rewrite IH.
  - destruct (Z.eqb c x), (Z.eqb c y); reflexivity.
  - now rewrite IH1.
Qed.

(** X5: the chi-squared statistic over the top-level classes is never
    negative; it is 0 when every class of the population has in the
    holdout list its share of the holdout list, that is when
    count_holdout(c) * |population| = count_population(c) * |holdout|; in
    particular it is 0 when the holdout list is the population in any
    order. *)
Theorem chi2_statistic_nonneg_and_zero (holdout_class all_class : list Z) :
  (0 <= chi2_statistic holdout_class all_class)%Q /\
  ((forall c, In c all_class ->
      count Z.eqb c holdout_class * List.length all_class
      = count Z.eqb c all_class * List.length holdout_class) ->
   (chi2_statistic holdout_class all_class == 0)%Q) /\
  (Permutation holdout_class all_class ->
   (chi2_statistic holdout_class all_class == 0)%Q).
Proof.
  assert (Hshare :
    (forall c, In c all_class ->
       count Z.eqb c holdout_class * List.length all_class
       = count Z.eqb c all_class * List.length holdout_class) ->
    (chi2_statistic holdout_class all_class == 0)%Q).
  { intros Hprop. unfold chi2_statistic. cbv zeta.
    apply (chi2_fold_zero
             (fun c => inject_Z (Z.of_nat (count Z.eqb c all_class))
                       * len_Q holdout_class / len_Q all_class)%Q
             (fun c => inject_Z (Z.of_nat (count Z.eqb c holdout_class))));
      [|reflexivity].
    intros c Hc. apply dedup_acc_incl in Hc.
    assert (E : (inject_Z (Z.of_nat (count Z.eqb c holdout_class))
                 * len_Q all_class
                 == inject_Z (Z.of_nat (count Z.eqb c all_class))
                    * len_Q holdout_class)%Q).
    { unfold len_Q. rewrite <- !inject_Z_mult, <- !Nat2Z.inj_mul.
      now rewrite (Hprop c Hc). }
    rewrite <- E. symmetry. apply Qdiv_mult_l.
    destruct all_class as [|x l]; [contradiction|].
    intros H. pose proof (len_Q_pos x l) as Hpos. rewrite H in Hpos.
    discriminate. }
  split; [|split; [exact Hshare|]].
  - unfold chi2_statistic. cbv zeta.
    apply (chi2_fold_nonneg
             (fun c => inject_Z (Z.of_nat (count Z.eqb c all_class))
                       * len_Q holdout_class / len_Q all_class)%Q
             (fun c => inject_Z (Z.of_nat (count Z.eqb c holdout_class)))).
    apply Qle_refl.
  - intros Hperm. apply Hshare. intros c _.
    now rewrite (count_Permutation c _ _ Hperm),
                (Permutation_length Hperm).
Qed.

Lemma chi2_statistic_nonneg_and_zero_witness :
  (chi2_statistic [1; 2]%Z [1; 1; 2; 2]%Z == 0)%Q /\
  (chi2_statistic [2; 1; 1]%Z [1; 2; 1]%Z == 0)%Q.
Proof.
  split.
  - apply (proj1 (proj2 (chi2_statistic_nonneg_and_zero
                           [1; 2]%Z [1; 1; 2; 2]%Z))).
    intros c Hc. simpl in Hc.
    repeat (destruct Hc as [<-|Hc]; [reflexivity|]). contradiction.
  - apply (proj2 (proj2 (chi2_statistic_nonneg_and_zero
                           [2; 1; 1]%Z [1; 2; 1]%Z))).
    apply perm_trans with [1; 2; 1]%Z; [apply perm_swap|].
    apply Permutation_refl.
Defined.

End StatisticFacts.

(** ** The first pass of main *)

Module FirstPassFacts.
Section WithRuntime.
Context {RT : Runtime}.

Import Validation Sampling Main GraphFacts SamplerFacts.

(** The validator on an empty holdout list. *)
Lemma validation_of_nothing (all_domains : list DomainId)
    (domain_features : FeatureStore) (cath_dict : ClassificationIndex) :
  statistical_validation [] all_domains domain_features cath_dict
  = match validate_size domain_features []
            (filter (fun d => str_mem d domain_features) all_domains) [] with
    | Ok _ => Raise IndexError
    | Raise e => Raise e
    end.
Proof.
  unfold statistical_validation. cbn [filter].
  destruct (validate_size _ _ _ _); reflexivity.
Qed.

Lemma main_after_empty_pass (cath_dict : ClassificationIndex)
    (domain_features : FeatureStore) (g g1 : rng) :
  hierarchical_stratified_sampling domain_features cath_dict (1 # 10) g
  = Ok ([], g1) ->
  main cath_dict domain_features g
  = match validate_size domain_features []
            (filter (fun d => str_mem d domain_features)
                    (dict_keys String.eqb domain_features)) [] with
    | Ok _ => Raise IndexError
    | Raise e => Raise e
    end.
Proof.
  intros Hpass. unfold main, pipeline.
  unfold bind at 1. unfold bind at 1. rewrite Hpass.
  unfold bind at 1. unfold lift at 1. rewrite validation_of_nothing.
  destruct (validate_size _ _ _ _); reflexivity.
Qed.

(** X6: when the first pass of the sampler returns no domain, main ends in
    an exception of the validator, IndexError unless the size test has
    raised, and returns no lists to write. *)
Theorem main_raises_after_empty_first_pass (cath_dict : ClassificationIndex)
    (domain_features : FeatureStore) (g g1 : rng) :
  hierarchical_stratified_sampling domain_features cath_dict (1 # 10) g
  = Ok ([], g1) ->
  exists e,
    main cath_dict domain_features g = Raise e /\
    (e = IndexError \/
     validate_size domain_features []
       (filter (fun d => str_mem d domain_features)
               (dict_keys String.eqb domain_features)) []
     = Raise e).
Proof.
  intros Hpass. rewrite (main_after_empty_pass _ _ _ _ Hpass).
  destruct (validate_size _ _ _ _) as [vr|e] eqn:E.
  - exists IndexError. split; [reflexivity | now left].
  - exists e. split; [reflexivity | now right].
Qed.

Hypothesis set_order_members :
  forall (l : list DomainId) (d : DomainId), In d (set_order l) <-> In d l.

Lemma set_order_nil : set_order [] = [].
Proof.
  destruct (set_order []) as [|x l] eqn:E; [reflexivity|].
  exfalso. apply (set_order_members [] x). rewrite E. now left.
Qed.

(** X7: on an empty feature store main raises: the sampler returns no
    domain, the size test is run on two empty samples, and the run ends
    in IndexError or in the exception of that test; the division by the
    number of domains is not reached. *)
Theorem main_on_empty_store (cath_dict : ClassificationIndex) (g : rng) :
  main cath_dict [] g
  = match kstest [] [] with
    | Ok _ => Raise IndexError
    | Raise e => Raise e
    end.
Proof.
  rewrite (main_after_empty_pass cath_dict [] g g).
  - unfold validate_size. simpl. destruct (kstest [] []); reflexivity.
  - unfold hierarchical_stratified_sampling, common_domains.
    cbn [dict_keys map dedup dedup_acc filter].
    pose proof set_order_nil as E.
    match goal with
    | |- context [set_order ?l] => change (set_order l) with (set_order []);
                                   rewrite E
    end.
    reflexivity.
Qed.

Lemma common_domains_classified (domain_features : FeatureStore)
    (cath_dict : ClassificationIndex) (d : DomainId) :
  In d (common_domains domain_features cath_dict) ->
  str_mem d domain_features = true /\ str_mem d cath_dict = true.
Proof.
  unfold common_domains. rewrite set_order_members, filter_In.
  intros [Hf Hc]. split; [now apply dict_keys_In|].
  apply mem_In in Hc. now apply dict_keys_In in Hc.
Qed.

(** X8: every domain that the sampler returns has a feature record and a
    classification. *)
Theorem holdout_in_both_inputs (domain_features : FeatureStore)
    (cath_dict : ClassificationIndex) (sample_ratio : Q) (g g' : rng)
    (holdout_domains : list DomainId) :
  hierarchical_stratified_sampling domain_features cath_dict sample_ratio g
  = Ok (holdout_domains, g') ->
  forall d, In d holdout_domains ->
    str_mem d domain_features = true /\ str_mem d cath_dict = true.
Proof.
  unfold hierarchical_stratified_sampling. intros H d Hd.
  apply bind_Ok in H. destruct H as (candidates & g1 & Hcand & Hfilter).
  apply (FilterFacts.filter_output_candidates set_order_members) in Hfilter.
  apply Hfilter in Hd. revert d Hd.
  eapply sample_hierarchy_incl; [|exact Hcand].
  intros c archs a topos t dl d Hc Ha Ht Hd.
  eapply (build_hierarchy_leaves cath_dict
            (fun d => str_mem d domain_features = true
                      /\ str_mem d cath_dict = true)); eauto.
  intros d' Hd'. eapply common_domains_classified, Hd'.
Qed.

End WithRuntime.

Import Validation Sampling Main Demo Samples.

Lemma main_raises_after_empty_first_pass_witness :
  exists e,
    main (RT := accepting) cath3 features1 tape_half = Raise e /\
    (e = IndexError \/
     validate_size (RT := accepting) features1 []
       (filter (fun d => str_mem d features1)
               (dict_keys String.eqb features1)) []
     = Raise e).
Proof.
  apply (main_raises_after_empty_first_pass (RT := accepting)
           cath3 features1 tape_half []).
  vm_compute. reflexivity.
Defined.

Lemma main_on_empty_store_witness :
  main (RT := accepting) cath3 [] [] = Raise IndexError.
Proof.
  exact (main_on_empty_store (RT := accepting)
           SampleFacts.accepting_order_members cath3 []).
Defined.

Lemma holdout_in_both_inputs_witness :
  hierarchical_stratified_sampling (RT := accepting) features2 cath3
                                   (1 # 10) []
  = Ok (["1abcA00"], []) /\
  str_mem "1abcA00" features2 = true /\ str_mem "1abcA00" cath3 = true.
Proof.
  assert (Hrun : hierarchical_stratified_sampling (RT := accepting)
                   features2 cath3 (1 # 10) []
                 = Ok (["1abcA00"], [])) by (vm_compute; reflexivity).
  split; [exact Hrun|].
  apply (holdout_in_both_inputs (RT := accepting)
           SampleFacts.accepting_order_members features2 cath3 (1 # 10) [] []
           ["1abcA00"] Hrun "1abcA00").
  simpl. left. reflexivity.
Defined.

End FirstPassFacts.

(** ** The stratified sampler: a small stratum *)

Module SmallStratumFacts.
Import Validation Sampling BucketFacts.

Lemma np_random_range (g : rng) :
  exists (u : Q) (g' : rng),
    np_random g = Ok (u, g') /\ (0 <= u)%Q /\ (u < 1)%Q.
Proof.
  destruct (next_raw_total g) as (raw & g' & Hraw).
  unfold np_random. rewrite (bind_step _ _ _ _ _ Hraw).
  eexists _, g'. split; [reflexivity|].
  assert (Hmod : (raw mod 2 ^ 53 < 2 ^ 53)%N) by (apply N.mod_lt; discriminate).
  assert (Hpow : Z.of_N (2 ^ 53) = (2 ^ 53)%Z) by reflexivity.
  split.
  - apply Qle_shift_div_l; [reflexivity|]. rewrite Qmult_0_l.
    change 0%Q with (inject_Z 0). rewrite <- Zle_Qle. apply N2Z.is_nonneg.
  - apply Qlt_shift_div_r; [reflexivity|]. rewrite Qmult_1_l.
    rewrite <- Zlt_Qlt. rewrite <- Hpow. apply N2Z.inj_lt. exact Hmod.
Qed.


(** X10: a stratum of one domain is kept when a random number of [0, 1)
    is below the ratio, a double: always for a ratio of at least 1, never
    for a ratio of at most 0, and nothing else is added. *)
Theorem single_member_stratum {RT : Runtime}
    (domain_features : FeatureStore) (sample_ratio : Q)
    (only : DomainId) (holdout_domains : list DomainId) (g : rng) :
  exists (u : Q) (g' : rng),
    np_random g = Ok (u, g') /\
    sample_stratum domain_features sample_ratio holdout_domains [only] g
    = Ok (if Qlt_le_dec u (round_double sample_ratio)
          then holdout_domains ++ [only] else holdout_domains, g') /\
    ((1 <= sample_ratio)%Q ->
     sample_stratum domain_features sample_ratio holdout_domains [only] g
     = Ok (holdout_domains ++ [only], g')) /\
    ((sample_ratio <= 0)%Q ->
     sample_stratum domain_features sample_ratio holdout_domains [only] g
     = Ok (holdout_domains, g')).
Proof.
  destruct (np_random_range g) as (u & g' & Hu & Hu0 & Hu1).
  exists u, g'. split; [exact Hu|].
  assert (Hrun :
    sample_stratum domain_features sample_ratio holdout_domains [only] g
    = Ok (if Qlt_le_dec u (round_double sample_ratio)
          then holdout_domains ++ [only] else holdout_domains, g')).
  { unfold sample_stratum. cbn [List.length Nat.leb Nat.ltb].
    unfold sample_small_stratum. rewrite (bind_step _ _ _ _ _ Hu).
    destruct (Qlt_le_dec u (round_double sample_ratio)) as [Hlt|Hge].
    - assert (E : Qle_bool (round_double sample_ratio) u = false).
      { destruct (Qle_bool (round_double sample_ratio) u) eqn:E;
          [|reflexivity].
        apply Qle_bool_iff in E. exfalso. Lqa.lra. }
      now rewrite E.
    - assert (E : Qle_bool (round_double sample_ratio) u = true)
        by now apply Qle_bool_iff.
      now rewrite E. }
  split; [exact Hrun|]. split.
  - intros Hr. rewrite Hrun.
    pose proof (FloatFacts.round_double_ge sample_ratio 1 Hr) as Hr'.
    change (inject_Z 1) with 1%Q in Hr'.
    destruct (Qlt_le_dec u (round_double sample_ratio)) as [_|Hge];
      [reflexivity|].
    exfalso. Lqa.lra.
  - intros Hr. rewrite Hrun.
    pose proof (FloatFacts.round_double_le sample_ratio 0 Hr) as Hr'.
    change (inject_Z 0) with 0%Q in Hr'.
    destruct (Qlt_le_dec u (round_double sample_ratio)) as [Hlt|_];
      [|reflexivity].
    exfalso. Lqa.lra.
Qed.

Import Demo.


End SmallStratumFacts.

(** ** The homology filter: it returns, and not with an empty hand *)

Module FilterRunFacts.
Section WithRuntime.
Context {RT : Runtime}.

Import Validation Sampling BucketFacts StratumFacts GraphFacts FilterFacts
       SamplerFacts.

Hypothesis set_order_members :
  forall (l : list DomainId) (d : DomainId), In d (set_order l) <-> In d l.

Lemma dict_set_nonempty {K V} (eqb : K -> K -> bool) (k : K) (v : V)
    (d : dict K V) :
  dict_set eqb k v d <> [].
Proof.
  destruct d as [|[k' v'] d]; simpl; [discriminate|].
  destruct (eqb k k'); discriminate.
Qed.

(** No bucket is empty. *)
Lemma buckets_nonempty (domain_features : FeatureStore)
    (l : list (nat * list DomainId)) :
  forall acc : dict value (list (nat * list DomainId)),
    (forall k v, In (k, v) acc -> v <> []) ->
    forall k v,
      In (k, v)
         (fold_left
            (fun stability_components ic =>
               let majority := majority_class domain_features (snd ic) in
               dict_set value_eqb majority
                 (dict_get_default value_eqb majority [] stability_components
                  ++ [ic])
                 stability_components)
            l acc) ->
      v <> [].
Proof.
  induction l as [|x l IH]; intros acc Hacc; cbn [fold_left]; [exact Hacc|].
  apply IH. cbv zeta.
  refine (dict_set_inv value_eqb (fun v => v <> []) _ _ _ Hacc _).
  intros H. apply app_eq_nil in H. destruct H as [_ H]. discriminate.
Qed.

Lemma buckets_exist (domain_features : FeatureStore)
    (l : list (nat * list DomainId)) :
  forall acc : dict value (list (nat * list DomainId)),
    (l <> [] \/ acc <> []) ->
    fold_left
      (fun stability_components ic =>
         let majority := majority_class domain_features (snd ic) in
         dict_set value_eqb majority
           (dict_get_default value_eqb majority [] stability_components
            ++ [ic])
           stability_components)
      l acc <> [].
Proof.
  induction l as [|x l IH]; intros acc Hne; cbn [fold_left].
  - destruct Hne as [H|H]; [congruence | exact H].
  - apply IH. right. apply dict_set_nonempty.
Qed.

Lemma sample_bucket_returns (sample_ratio : Q)
    (components : list (nat * list DomainId)) (g : rng) :
  components <> [] -> (sample_ratio <= 1)%Q ->
  exists (picked : list nat) (g' : rng),
    sample_bucket sample_ratio components g = Ok (picked, g') /\
    picked <> [].
Proof.
  intros Hne Hr.
  assert (Hn : List.length components <> 0)
    by (destruct components; simpl; congruence).
  pose proof (class_sample_size_le _ _ Hn Hr) as Hsize.
  destruct (np_choice_without_replacement_spec
              (seq 0 (List.length components))
              (Z.to_nat (class_sample_size (List.length components)
                                           sample_ratio)) g)
    as (selected & g' & Hdraw & Hlen & Hincl & _).
  { rewrite length_seq. lia. }
  destruct (rmap_total
              (fun idx => rbind (list_index components idx)
                                (fun ic => Ok (fst ic))) selected)
    as [picked Hpicked].
  { intros idx Hidx. apply Hincl, in_seq in Hidx.
    destruct (nth_error components idx) as [ic|] eqn:E.
    - exists (fst ic). unfold list_index. now rewrite E.
    - apply nth_error_None in E. lia. }
  exists picked, g'. split.
  - unfold sample_bucket. rewrite (bind_step _ _ _ _ _ Hdraw).
    unfold lift. now rewrite Hpicked.
  - apply rmap_Forall2, Forall2_length in Hpicked.
    intros ->. simpl in Hpicked. lia.
Qed.

Lemma sample_indices_returns (sample_ratio : Q)
    (buckets : dict value (list (nat * list DomainId))) :
  (sample_ratio <= 1)%Q ->
  (forall k v, In (k, v) buckets -> v <> []) ->
  forall (acc : list nat) (g : rng),
  exists (sampled : list nat) (g' : rng),
    mfold (fun sampled_indices bucket =>
             bind (sample_bucket sample_ratio (snd bucket)) (fun picked =>
             ret (sampled_indices ++ picked)))
          buckets acc g
    = Ok (sampled, g') /\
    (acc <> [] \/ buckets <> [] -> sampled <> []).
Proof.
  intros Hr. induction buckets as [|[k v] buckets IH]; intros Hne acc g.
  - exists acc, g. split; [reflexivity|]. intros [H|H]; congruence.
  - destruct (sample_bucket_returns sample_ratio v g) as (picked & g1 & Hp & Hpne).
    { apply (Hne k v). now left. }
    { exact Hr. }
    destruct (IH (fun k' v' H => Hne k' v' (or_intror H)) (acc ++ picked) g1)
      as (sampled & g' & Hrun & Hsne).
    exists sampled, g'. split.
    + cbn [mfold]. rewrite (bind_step _ _ g g1 (acc ++ picked)); [exact Hrun|].
      cbn [snd]. now rewrite (bind_step _ _ _ _ _ Hp).
    + intros _. apply Hsne. left. intros H. apply app_eq_nil in H.
      destruct H as [_ H]. contradiction.
Qed.

Lemma extend_with_returns (sorted_components : list (list DomainId))
    (indices : list nat) :
  (forall idx, In idx indices ->
     exists comp, nth_error sorted_components idx = Some comp) ->
  forall acc : list DomainId,
  exists final,
    fold_left
      (fun final_holdout idx =>
         rbind final_holdout (fun acc =>
         rbind (list_index sorted_components idx) (fun component =>
         Ok (acc ++ set_order component))))
      indices (Ok acc)
    = Ok final.
Proof.
  induction indices as [|i l IH]; intros Hvalid acc; cbn [fold_left].
  - eauto.
  - destruct (Hvalid i (or_introl eq_refl)) as [comp Hcomp].
    cbn [rbind]. apply list_index_Ok in Hcomp. rewrite Hcomp. cbn [rbind].
    apply IH. intros idx Hidx. apply Hvalid. now right.
Qed.

Lemma components_nonempty (G : Graph) :
  forall (todo seen : list DomainId) (c : list DomainId),
    In c (components_from G todo seen) -> c <> [].
Proof.
  induction todo as [|v todo IH]; intros seen c Hc; [contradiction|].
  cbn [components_from] in Hc. destruct (mem String.eqb v seen).
  - eapply IH, Hc.
  - destruct Hc as [<-|Hc]; [|eapply IH, Hc].
    intros H. pose proof (grow_incl G (List.length (nodes G)) [v] v
                            (or_introl eq_refl)) as Hin.
    unfold plain_bfs in H. rewrite H in Hin. contradiction.
Qed.

(** X11: at a ratio of at most 1 the homology filter returns without an
    exception; from a non-empty list of candidates it returns at least one
    domain, and from an empty list it returns none. *)
Theorem filter_returns_some_component (candidate_domains : list DomainId)
    (domain_features : FeatureStore) (cath_dict : ClassificationIndex)
    (sample_ratio : Q) (g : rng) :
  (sample_ratio <= 1)%Q ->
  exists (final_holdout : list DomainId) (g' : rng),
    network_aware_sampling candidate_domains domain_features cath_dict
                           sample_ratio g
    = Ok (final_holdout, g') /\
    (candidate_domains <> [] -> final_holdout <> []) /\
    (candidate_domains = [] -> final_holdout = []).
Proof.
  intros Hr. unfold network_aware_sampling.
  set (G := build_graph cath_dict candidate_domains).
  set (sorted_components := sort_components (connected_components G)).
  set (buckets := bucket_components domain_features sorted_components).
  assert (Hbne : forall k v, In (k, v) buckets -> v <> []).
  { intros k v. apply buckets_nonempty. intros ? ? []. }
  destruct (sample_indices_returns sample_ratio buckets Hr Hbne [] g)
    as (sampled & g' & Hsampled & Hsne).
  assert (Hvalid : forall idx, In idx (sorted Nat.leb sampled) ->
            exists comp, nth_error sorted_components idx = Some comp).
  { intros idx Hidx. apply sorted_In in Hidx.
    eapply sample_indices_positions; [exact Hsampled | exact Hidx]. }
  destruct (extend_with_returns sorted_components _ Hvalid []) as [final Hfinal].
  exists final, g'. split; [|split].
  - unfold sample_indices. rewrite (bind_step _ _ _ _ _ Hsampled).
    unfold lift, extend_with. now rewrite Hfinal.
  - intros Hcand.
    assert (Hnodes : nodes G <> []).
    { destruct candidate_domains as [|d l]; [congruence|].
      intros H. assert (Hd : In d (nodes G)).
      { apply (graph_nodes_In (d :: l)). now left. }
      rewrite H in Hd. contradiction. }
    assert (Hcomps : sorted_components <> []).
    { unfold sorted_components, sort_components, connected_components.
      destruct (nodes G) as [|v rest] eqn:E; [congruence|].
      cbn [components_from mem existsb]. intros H.
      assert (Hin : In (plain_bfs G v)
                       (sorted (fun a b => List.length b <=? List.length a)
                               (plain_bfs G v
                                :: components_from G rest ([] ++ plain_bfs G v)))).
      { apply sorted_In. now left. }
      rewrite H in Hin. contradiction. }
    assert (Hbuckets : buckets <> []).
    { unfold buckets, bucket_components. apply buckets_exist. left.
      unfold enumerate. destruct sorted_components; [congruence|]. discriminate. }
    assert (Hs : sampled <> []) by (apply Hsne; now right).
    destruct sampled as [|idx rest]; [congruence|].
    assert (Hidx : In idx (sorted Nat.leb (idx :: rest))).
    { apply sorted_In. now left. }
    destruct (Hvalid idx Hidx) as [comp Hcomp].
    assert (Hcne : comp <> []).
    { apply nth_error_In in Hcomp.
      unfold sorted_components, sort_components in Hcomp.
      apply sorted_In in Hcomp. eapply components_nonempty, Hcomp. }
    destruct comp as [|d comp']; [congruence|].
    pose proof (extend_with_from set_order_members _ _ _ _ Hfinal d) as Hd.
    intros ->. apply Hd. right. exists idx, (d :: comp').
    split; [exact Hidx|]. split; [exact Hcomp | now left].
  - intros ->.
    assert (E : sampled = []).
    { unfold buckets, sorted_components, G in Hsampled. cbn in Hsampled.
      now injection Hsampled as <- _. }
    subst sampled. cbn in Hfinal. now injection Hfinal as <-.
Qed.

End WithRuntime.

Import Validation Sampling Demo.

Lemma filter_returns_some_component_witness :
  exists (final_holdout : list DomainId) (g' : rng),
    network_aware_sampling (RT := accepting) candidates3 features2 cath3
                           (1 # 10) []
    = Ok (final_holdout, g') /\
    (candidates3 <> [] -> final_holdout <> []) /\
    (candidates3 = [] -> final_holdout = []).
Proof.
  apply (filter_returns_some_component (RT := accepting)
           SampleFacts.accepting_order_members candidates3 features2 cath3
           (1 # 10) []).
  unfold Qle. simpl. lia.
Defined.

End FilterRunFacts.

(** ** The hierarchy of strata *)

Module StrataFacts.
Import Validation Sampling Strata.

Section Keyed.
Context {K V : Type} (eqb : K -> K -> bool).
Hypothesis eqb_eq : forall x y, eqb x y = true <-> x = y.

Lemma dict_get_set_same (k : K) (v : V) (d : dict K V) :
  dict_get eqb k (dict_set eqb k v d) = Some v.
Proof.
  induction d as [|[k0 v0] d IH]; simpl.
  - now rewrite (proj2 (eqb_eq k k) eq_refl).
  - destruct (eqb k k0) eqn:E; simpl; rewrite E; [reflexivity | exact IH].
Qed.

Lemma dict_get_set_other (k k' : K) (v : V) (d : dict K V) :
  k <> k' -> dict_get eqb k' (dict_set eqb k v d) = dict_get eqb k' d.
Proof.
  intros Hne. induction d as [|[k0 v0] d IH]; simpl.
  - destruct (eqb k' k) eqn:E; [|reflexivity].
    apply eqb_eq in E. congruence.
  - destruct (eqb k k0) eqn:E; simpl.
    + apply eqb_eq in E. subst k0.
      destruct (eqb k' k) eqn:E'; [|reflexivity].
      apply eqb_eq in E'. congruence.
    + now rewrite IH.
Qed.

Lemma dict_set_keys_In (k k' : K) (v : V) (d : dict K V) :
  In k' (map fst (dict_set eqb k v d)) <-> k' = k \/ In k' (map fst d).
Proof.
  induction d as [|[k0 v0] d IH]; simpl.
  - intuition congruence.
  - destruct (eqb k k0) eqn:E; simpl.
    + apply eqb_eq in E. subst k0. intuition congruence.
    + rewrite IH. intuition congruence.
Qed.

Lemma dict_set_keys_NoDup (k : K) (v : V) (d : dict K V) :
  NoDup (map fst d) -> NoDup (map fst (dict_set eqb k v d)).
Proof.
  induction d as [|[k0 v0] d IH]; simpl; intros Hnd.
  - constructor; [intros [] | constructor].
  - inversion Hnd as [|? ? Hnotin Hnd']; subst.
    destruct (eqb k k0) eqn:E; simpl.
    + constructor; assumption.
    + constructor; [|now apply IH].
      rewrite dict_set_keys_In. intros [->|H]; [|contradiction].
      rewrite (proj2 (eqb_eq k k) eq_refl) in E. discriminate.
Qed.

Lemma dict_get_of_In (k : K) (v : V) (d : dict K V) :
  NoDup (map fst d) -> In (k, v) d -> dict_get eqb k d = Some v.
Proof.
  induction d as [|[k0 v0] d IH]; simpl; intros Hnd Hin; [contradiction|].
  inversion Hnd as [|? ? Hnotin Hnd']; subst.
  destruct Hin as [H|H].
  - injection H as -> ->. now rewrite (proj2 (eqb_eq k k) eq_refl).
  - destruct (eqb k k0) eqn:E; [|now apply IH].
    apply eqb_eq in E. subst k0. exfalso. apply Hnotin.
    change k with (fst (k, v)). now apply in_map.
Qed.

Lemma dict_get_default_set_same (k : K) (v default : V) (d : dict K V) :
  dict_get_default eqb k default (dict_set eqb k v d) = v.
Proof. unfold dict_get_default. now rewrite dict_get_set_same. Qed.

Lemma dict_get_default_set_other (k k' : K) (v default : V) (d : dict K V) :
  k <> k' ->
  dict_get_default eqb k' default (dict_set eqb k v d)
  = dict_get_default eqb k' default d.
Proof.
  intros Hne. unfold dict_get_default. now rewrite dict_get_set_other.
Qed.

Lemma dict_get_default_of_In (k : K) (v default : V) (d : dict K V) :
  NoDup (map fst d) -> In (k, v) d -> dict_get_default eqb k default d = v.
Proof.
  intros Hnd Hin. unfold dict_get_default.
  now rewrite (dict_get_of_In k v d Hnd Hin).
Qed.

End Keyed.

(** Appending to one stratum changes that stratum only. *)
Lemma stratum_at_append (c a t c0 a0 t0 : Z) (domain : DomainId)
    (h : Hierarchy) :
  stratum_at c a t (hierarchy_append c0 a0 t0 domain h)
  = if ((c =? c0) && (a =? a0) && (t =? t0))%Z
    then stratum_at c a t h ++ [domain]
    else stratum_at c a t h.
Proof.
  unfold stratum_at, hierarchy_append.
  destruct (Z.eqb_spec c c0) as [->|Hc]; cbn [andb].
  - rewrite (dict_get_default_set_same Z.eqb Z.eqb_eq).
    destruct (Z.eqb_spec a a0) as [->|Ha]; cbn [andb].
    + rewrite (dict_get_default_set_same Z.eqb Z.eqb_eq).
      destruct (Z.eqb_spec t t0) as [->|Ht].
      * now rewrite (dict_get_default_set_same Z.eqb Z.eqb_eq).
      * rewrite (dict_get_default_set_other Z.eqb Z.eqb_eq); congruence.
    + rewrite (dict_get_default_set_other Z.eqb Z.eqb_eq); congruence.
  - rewrite (dict_get_default_set_other Z.eqb Z.eqb_eq); congruence.
Qed.

Lemma stratum_at_fold (cath_dict : ClassificationIndex) (c a t : Z)
    (domains : list DomainId) :
  forall h : Hierarchy,
    stratum_at c a t (fold_left (add_domain cath_dict) domains h)
    = stratum_at c a t h ++ filter (in_stratum cath_dict c a t) domains.
Proof.
  induction domains as [|d l IH]; intros h; cbn [fold_left filter].
  - now rewrite app_nil_r.
  - rewrite IH. unfold add_domain, in_stratum.
    destruct (str_get d cath_dict) as [[[[c0 a0] t0] h0]|].
    + rewrite stratum_at_append.
      destruct ((c =? c0) && (a =? a0) && (t =? t0))%Z;
        [now rewrite <- app_assoc | reflexivity].
    + reflexivity.
Qed.

Lemma hierarchy_append_ok (c a t : Z) (domain : DomainId) (h : Hierarchy) :
  hierarchy_ok h -> hierarchy_ok (hierarchy_append c a t domain h).
Proof.
  intros [Hnd Hh]. unfold hierarchy_append.
  assert (H2 : architectures_ok (dict_get_default Z.eqb c [] h)).
  { apply (SamplerFacts.dict_get_default_inv Z.eqb architectures_ok);
      [exact Hh|]. split; [constructor | intros ? ? []]. }
  assert (H3 : topologies_ok
                 (dict_get_default Z.eqb a []
                    (dict_get_default Z.eqb c [] h))).
  { apply (SamplerFacts.dict_get_default_inv Z.eqb topologies_ok);
      [exact (proj2 H2)|]. split; [constructor | intros ? ? []]. }
  split; [now apply (dict_set_keys_NoDup Z.eqb Z.eqb_eq)|].
  refine (SamplerFacts.dict_set_inv Z.eqb architectures_ok _ _ _ Hh _).
  split; [apply (dict_set_keys_NoDup Z.eqb Z.eqb_eq), H2|].
  refine (SamplerFacts.dict_set_inv Z.eqb topologies_ok _ _ _ (proj2 H2) _).
  split; [apply (dict_set_keys_NoDup Z.eqb Z.eqb_eq), H3|].
  refine (SamplerFacts.dict_set_inv Z.eqb leaf_ok _ _ _ (proj2 H3) _).
  unfold leaf_ok. intros H. apply app_eq_nil in H. destruct H as [_ H].
  discriminate.
Qed.

Lemma fold_hierarchy_ok (cath_dict : ClassificationIndex)
    (domains : list DomainId) :
  forall h : Hierarchy,
    hierarchy_ok h ->
    hierarchy_ok (fold_left (add_domain cath_dict) domains h).
Proof.
  induction domains as [|d l IH]; intros h Hh; cbn [fold_left]; [exact Hh|].
  apply IH. unfold add_domain.
  destruct (str_get d cath_dict) as [[[[c0 a0] t0] h0]|]; [|exact Hh].
  now apply hierarchy_append_ok.
Qed.

Lemma build_hierarchy_fold (cath_dict : ClassificationIndex)
    (domains : list DomainId) :
  build_hierarchy cath_dict domains
  = fold_left (add_domain cath_dict) domains [].
Proof. reflexivity. Qed.

(** X12: the hierarchy splits the domains by the first three levels of
    their code.  The list stored under the keys c, a, t holds exactly the
    classified domains whose code starts with c, a, t, in the order in
    which they were visited; every list that the three nested loops reach
    is such a list and is not empty; and the keys are distinct at each
    level, so that no stratum is visited twice. *)
Theorem hierarchy_strata_partition (cath_dict : ClassificationIndex)
    (domains : list DomainId) :
  let cath_hierarchy := build_hierarchy cath_dict domains in
  (forall c a t,
     stratum_at c a t cath_hierarchy
     = filter (in_stratum cath_dict c a t) domains) /\
  NoDup (map fst cath_hierarchy) /\
  (forall c architectures,
     In (c, architectures) cath_hierarchy ->
     NoDup (map fst architectures) /\
     forall a topologies,
       In (a, topologies) architectures ->
       NoDup (map fst topologies) /\
       forall t domain_list,
         In (t, domain_list) topologies ->
         domain_list <> [] /\
         domain_list = filter (in_stratum cath_dict c a t) domains).
Proof.
  cbv zeta. rewrite build_hierarchy_fold.
  assert (Hat : forall c a t,
            stratum_at c a t (fold_left (add_domain cath_dict) domains [])
            = filter (in_stratum cath_dict c a t) domains).
  { intros c a t. now rewrite stratum_at_fold. }
  destruct (fold_hierarchy_ok cath_dict domains []) as [Hnd Hok].
  { split; [constructor | intros ? ? []]. }
  split; [exact Hat|]. split; [exact Hnd|].
  intros c architectures Hc. destruct (Hok c architectures Hc) as [Hnd2 Hok2].
  split; [exact Hnd2|]. intros a topologies Ha.
  destruct (Hok2 a topologies Ha) as [Hnd3 Hok3].
  split; [exact Hnd3|]. intros t domain_list Ht.
  split; [exact (Hok3 t domain_list Ht)|].
  rewrite <- Hat. unfold stratum_at. symmetry.
  etransitivity;
    [apply f_equal; etransitivity;
     [apply f_equal;
      exact (dict_get_default_of_In Z.eqb Z.eqb_eq c architectures [] _
               Hnd Hc)
     |exact (dict_get_default_of_In Z.eqb Z.eqb_eq a topologies [] _
               Hnd2 Ha)]
    |exact (dict_get_default_of_In Z.eqb Z.eqb_eq t domain_list [] _
              Hnd3 Ht)].
Qed.

End StrataFacts.

(** ** The classification file *)

Module ParserFacts.
Import Validation CathParser.

Lemma split_aux_word (ch : ascii) (word : list ascii) (s : string) :
  split_aux (ch :: word) s <> [].
Proof.
  revert ch word. induction s as [|c rest IH]; intros ch word; cbn [split_aux].
  - discriminate.
  - destruct (is_space c); [discriminate | apply IH].
Qed.

Lemma lstrip_head (s : string) (ch : ascii) (rest : string) :
  lstrip s = String ch rest -> is_space ch = false.
Proof.
  induction s as [|c s' IH]; cbn [lstrip]; [discriminate|].
  destruct (is_space c) eqn:E; [exact IH|].
  intros H. injection H as <- _. exact E.
Qed.

Lemma lstrip_empty_split (s : string) :
  lstrip s = EmptyString <-> py_split s = [].
Proof.
  unfold py_split. induction s as [|c s' IH]; cbn [lstrip split_aux].
  - tauto.
  - destruct (is_space c); [exact IH|].
    split; [discriminate|]. intros H. now apply split_aux_word in H.
Qed.

Lemma rstrip_head (ch : ascii) (rest : string) :
  is_space ch = false -> rstrip (String ch rest) <> EmptyString.
Proof.
  intros E. cbn [rstrip]. rewrite E. destruct (rstrip rest); discriminate.
Qed.

Lemma strip_empty_split (s : string) :
  strip s = EmptyString <-> py_split s = [].
Proof.
  rewrite <- lstrip_empty_split. unfold strip.
  destruct (lstrip s) as [|ch rest] eqn:E.
  - simpl. tauto.
  - split; [|discriminate]. intros H. exfalso.
    exact (rstrip_head ch rest (lstrip_head s ch rest E) H).
Qed.

Section WithInt.
Variable int_of : string -> result Z.

(** What [parse_line] does with the contribution of a line. *)
Lemma parse_line_record (cath_dict : ClassificationIndex) (line : string) :
  parse_line int_of cath_dict line
  = rbind (line_record int_of line)
          (fun r => match r with
                    | None => Ok cath_dict
                    | Some (domain_id, code) =>
                        Ok (str_set domain_id code cath_dict)
                    end).
Proof.
  unfold parse_line, line_record.
  destruct (String.prefix "#" line); cbn [orb]; [reflexivity|].
  destruct (is_empty (strip line)) eqn:E.
  - assert (Hs : strip line = EmptyString)
      by (destruct (strip line); [reflexivity | discriminate]).
    apply strip_empty_split in Hs. now rewrite Hs.
  - cbv zeta.
    destruct (py_split line) as [|p0 [|p1 [|p2 [|p3 [|p4 rest]]]]];
      try reflexivity.
    change (5 <=? List.length (p0 :: p1 :: p2 :: p3 :: p4 :: rest)) with true.
    cbn [list_index nth_error rbind].
    destruct (int_of p1) as [c|e]; [|reflexivity].
    destruct (int_of p2) as [a|e]; [|reflexivity].
    destruct (int_of p3) as [t|e]; [|reflexivity].
    destruct (int_of p4) as [h|e]; reflexivity.
Qed.

Lemma fold_parse_raise (lines : list string) (e : exn) :
  fold_left (fun cath_dict line =>
               rbind cath_dict (fun d => parse_line int_of d line))
            lines (Raise e)
  = Raise e.
Proof. induction lines as [|l rest IH]; [reflexivity | exact IH]. Qed.

(** X13: a line contributes an entry exactly when it does not start with
    the character # and has at least five fields separated by white
    space; the entry is made of the first five fields, and the test for a
    blank line decides nothing, since a line that strips to the empty
    string has no fields. *)
Theorem line_contribution (cath_dict : ClassificationIndex) (line : string) :
  (strip line = EmptyString <-> py_split line = []) /\
  parse_line int_of cath_dict line
  = if String.prefix "#" line || (List.length (py_split line) <? 5)
    then Ok cath_dict
    else
      rbind (int_of (nth 1 (py_split line) EmptyString)) (fun cath_class =>
      rbind (int_of (nth 2 (py_split line) EmptyString)) (fun arch =>
      rbind (int_of (nth 3 (py_split line) EmptyString)) (fun topo =>
      rbind (int_of (nth 4 (py_split line) EmptyString)) (fun homo =>
      Ok (str_set (nth 0 (py_split line) EmptyString)
                  (cath_class, arch, topo, homo) cath_dict))))).
Proof.
  split; [apply strip_empty_split|].
  rewrite parse_line_record. unfold line_record.
  destruct (String.prefix "#" line); cbn [orb]; [reflexivity|].
  destruct (py_split line) as [|p0 [|p1 [|p2 [|p3 [|p4 rest]]]]];
    try reflexivity.
  change (List.length (p0 :: p1 :: p2 :: p3 :: p4 :: rest) <? 5) with false.
  cbn [nth rbind].
  destruct (int_of p1) as [c|e]; [|reflexivity].
  destruct (int_of p2) as [a|e]; [|reflexivity].
  destruct (int_of p3) as [t|e]; [|reflexivity].
  destruct (int_of p4) as [h|e]; reflexivity.
Qed.

(** X14: the parse returns a dictionary exactly when no line raises; a line
    whose second to fifth field is not read as an integer aborts the whole
    parse with the exception of the first such line, and no partial
    dictionary is returned. *)
Theorem parse_outcome (lines : list string) :
  match parse_cath_file int_of lines with
  | Ok _ =>
      Forall (fun line => exists r, line_record int_of line = Ok r) lines
  | Raise e =>
      exists l1 line l2,
        lines = l1 ++ line :: l2 /\
        Forall (fun line => exists r, line_record int_of line = Ok r) l1 /\
        line_record int_of line = Raise e
  end.
Proof.
  unfold parse_cath_file. generalize ([] : ClassificationIndex).
  induction lines as [|line rest IH]; intros cath_dict; cbn [fold_left rbind].
  - constructor.
  - rewrite parse_line_record.
    destruct (line_record int_of line) as [r|e] eqn:E; cbn [rbind].
    + assert (Hok : exists r', line_record int_of line = Ok r') by eauto.
      set (d' := match r with
                 | Some (domain_id, code) => str_set domain_id code cath_dict
                 | None => cath_dict
                 end).
      assert (Hd : match r with
                   | Some (domain_id, code) =>
                       Ok (str_set domain_id code cath_dict)
                   | None => Ok cath_dict
                   end = Ok d')
        by (unfold d'; destruct r as [[? ?]|]; reflexivity).
      rewrite Hd. specialize (IH d').
      match type of IH with
      | match ?x with _ => _ end =>
          match goal with
          | |- match ?y with _ => _ end => change y with x
          end;
          destruct x as [d|e]
      end.
      * constructor; assumption.
      * destruct IH as (l1 & bad & l2 & -> & Hl1 & Hbad).
        exists (line :: l1), bad, l2. split; [reflexivity|].
        split; [constructor; assumption | exact Hbad].
    + rewrite fold_parse_raise. exists [], line, rest.
      split; [reflexivity|]. split; [constructor | exact E].
Qed.

Lemma parse_from_lookup (domain : DomainId) (lines : list string) :
  forall cath_dict d : ClassificationIndex,
    fold_left (fun cath_dict line =>
                 rbind cath_dict (fun d => parse_line int_of d line))
              lines (Ok cath_dict)
    = Ok d ->
    str_get domain d
    = fold_left (fun found line =>
                   match line_record int_of line with
                   | Ok (Some (domain_id, code)) =>
                       if String.eqb domain domain_id then Some code
                       else found
                   | _ => found
                   end)
                lines (str_get domain cath_dict).
Proof.
  induction lines as [|line rest IH]; intros cath_dict d;
    cbn [fold_left rbind].
  - intros H. now injection H as <-.
  - rewrite parse_line_record.
    destruct (line_record int_of line) as [[[domain_id code]|]|e];
      cbn [rbind].
    + intros H. rewrite (IH _ _ H). unfold str_get, str_set.
      now rewrite str_get_set.
    + apply IH.
    + rewrite fold_parse_raise. discriminate.
Qed.

(** X15: the dictionary that the parse returns maps a domain to the codes
    of the last line that has an entry for it, and has no entry for a
    domain that no such line names: a later line overwrites an earlier
    one. *)
Theorem parse_keeps_last_entry (lines : list string)
    (cath_dict : ClassificationIndex) :
  parse_cath_file int_of lines = Ok cath_dict ->
  forall domain : DomainId,
    str_get domain cath_dict = last_record int_of domain lines.
Proof.
  intros H domain. unfold last_record.
  exact (parse_from_lookup domain lines [] cath_dict H).
Qed.

End WithInt.

Lemma parse_keeps_last_entry_witness :
  parse_cath_file digits_only sample_lines
  = Ok [ ("1abcA00", (2, 60, 40, 10)%Z); ("1defA00", (3, 40, 50, 720)%Z) ] /\
  str_get "1abcA00"
          [ ("1abcA00", (2, 60, 40, 10)%Z); ("1defA00", (3, 40, 50, 720)%Z) ]
  = last_record digits_only "1abcA00" sample_lines.
Proof.
  assert (Hrun : parse_cath_file digits_only sample_lines
                 = Ok [ ("1abcA00", (2, 60, 40, 10)%Z);
                        ("1defA00", (3, 40, 50, 720)%Z) ])
    by (vm_compute; reflexivity).
  split; [exact Hrun|].
  exact (parse_keeps_last_entry digits_only sample_lines _ Hrun "1abcA00").
Defined.

End ParserFacts.

(** ** The feature tables *)

Module ExtractorFacts.
Import Validation FeatureExtractor.

Lemma list_last_cons {A} (x y : A) (l : list A) :
  list_last l = Ok y -> list_last (x :: l) = Ok y.
Proof.
  unfold list_last, list_index. simpl rev.
  destruct (rev l) as [|z r]; simpl; [discriminate|]. tauto.
Qed.

(** A string without the separator is a single piece. *)
Lemma split_no_sep (sep : ascii) (b : string) :
  has_char sep b = false ->
  forall piece,
    split_on_aux sep piece b
    = [string_of_list_ascii (rev piece ++ list_ascii_of_string b)].
Proof.
  unfold has_char. induction b as [|ch b IH]; simpl; intros H piece.
  - now rewrite app_nil_r.
  - apply orb_false_elim in H. destruct H as [H1 H2].
    rewrite H1, (IH H2). simpl rev. now rewrite <- app_assoc.
Qed.

Lemma split_last (sep : ascii) (b : string) :
  has_char sep b = false ->
  forall (a : string) piece,
    list_last (split_on_aux sep piece (a ++ String sep b)) = Ok b.
Proof.
  intros Hb. induction a as [|ch a IH]; intros piece; simpl.
  - rewrite Ascii.eqb_refl. apply list_last_cons.
    rewrite (split_no_sep sep b Hb). simpl.
    now rewrite string_of_list_ascii_of_string.
  - destruct (Ascii.eqb ch sep); [apply list_last_cons|]; apply IH.
Qed.

Lemma split_first (sep : ascii) (t rest : string) :
  has_char sep t = false ->
  forall piece,
    split_on_aux sep piece (t ++ String sep rest)
    = string_of_list_ascii (rev piece ++ list_ascii_of_string t)
      :: split_on_aux sep [] rest.
Proof.
  unfold has_char. induction t as [|ch t IH]; simpl; intros H piece.
  - now rewrite Ascii.eqb_refl, app_nil_r.
  - apply orb_false_elim in H. destruct H as [H1 H2].
    rewrite H1, (IH H2). simpl rev. now rewrite <- app_assoc.
Qed.

(** X16: the key of a table is the part of the path between its last
    underscore and the first full stop after it, with average shortened to
    avg; the directories of the path may contain both characters. *)
Theorem temperature_of_path (prefix temp rest : string) :
  has_char "_" (temp ++ "." ++ rest) = false ->
  has_char "." temp = false ->
  temperature_of (prefix ++ "_" ++ temp ++ "." ++ rest)
  = Ok (if String.eqb temp "average" then "avg" else temp)%string.
Proof.
  intros Htail Htemp. unfold temperature_of, split_on.
  change (prefix ++ "_" ++ temp ++ "." ++ rest)%string
    with (prefix ++ String "_" (temp ++ String "." rest))%string.
  change (temp ++ "." ++ rest)%string
    with (temp ++ String "." rest)%string in Htail.
  rewrite (split_last "_" _ Htail). cbn [rbind].
  rewrite (split_first "." temp rest Htemp). cbn [list_index nth_error rbind].
  simpl rev. cbn [app]. now rewrite string_of_list_ascii_of_string.
Qed.

Lemma temperature_of_path_witness :
  temperature_of
    "/home/s_felix/mdcath-processor/outputs/ML_features/final_dataset_temperature_average.csv"
  = Ok "avg"%string.
Proof.
  exact (temperature_of_path
           "/home/s_felix/mdcath-processor/outputs/ML_features/final_dataset_temperature"
           "average" "csv" eq_refl eq_refl).
Defined.

(** *** Membership *)

Section WithPandas.
Variable series_std : list Q -> value.

Lemma collect_mem (temperature_data : dict string DataFrame)
    (domains : list DomainId) (d : DomainId) :
  forall acc : FeatureStore,
    str_mem d
      (fold_left
         (fun domain_features domain =>
            let domain_features := str_set domain [] domain_features in
            str_set domain (domain_record series_std temperature_data domain)
                    domain_features)
         domains acc)
    = mem String.eqb d domains || str_mem d acc.
Proof.
  induction domains as [|k l IH]; intros acc; cbn [fold_left].
  - reflexivity.
  - rewrite IH. cbv zeta. unfold str_mem, str_set. rewrite !str_mem_set.
    unfold mem. cbn [existsb].
    destruct (String.eqb d k), (existsb (String.eqb d) l),
             (dict_mem String.eqb d acc); reflexivity.
Qed.

Lemma assign_mem (temperature_data : dict string DataFrame)
    (domain_features : FeatureStore) (k d : DomainId) :
  str_mem d (assign_stability temperature_data domain_features k)
  = str_mem d domain_features.
Proof.
  unfold assign_stability.
  destruct (str_mem "320" temperature_data && str_mem "450" temperature_data);
    [|reflexivity].
  destruct (str_get k domain_features) as [features|] eqn:E; [|reflexivity].
  destruct (str_get "avg_rmsf_320" features) as [[a|?]|]; try reflexivity.
  destruct (str_get "avg_rmsf_450" features) as [[b|?]|]; try reflexivity.
  unfold str_mem, str_set. rewrite str_mem_set.
  destruct (String.eqb_spec d k) as [->|Hne]; [|reflexivity].
  unfold dict_mem. unfold str_get in E. now rewrite E.
Qed.

Lemma pass_mem (temperature_data : dict string DataFrame)
    (keys : list DomainId) (d : DomainId) :
  forall domain_features : FeatureStore,
    str_mem d (fold_left (assign_stability temperature_data) keys
                         domain_features)
    = str_mem d domain_features.
Proof.
  induction keys as [|k l IH]; intros fs; cbn [fold_left]; [reflexivity|].
  rewrite IH. apply assign_mem.
Qed.

Lemma aggregate_cons (first_temp : string) (first : DataFrame)
    (others : dict string DataFrame) :
  aggregate_domain_features series_std ((first_temp, first) :: others)
  = let temperature_data := (first_temp, first) :: others in
    let domain_features :=
      collect_features series_std temperature_data
        (dedup String.eqb (map domain_id (rows first))) in
    Ok (fold_left (assign_stability temperature_data)
                  (dict_keys String.eqb domain_features) domain_features).
Proof.
  unfold aggregate_domain_features, dict_keys, dedup, dict_index.
  cbn [map fst dedup_acc mem existsb list_index nth_error rbind dict_get].
  now rewrite String.eqb_refl.
Qed.

(** X17: the extractor raises IndexError on an empty dictionary of tables
    and returns otherwise; the domains of the result are exactly the
    domains that occur in the first table, whatever the other tables
    hold. *)
Theorem aggregate_outcome (temperature_data : dict string DataFrame) :
  match temperature_data with
  | [] =>
      aggregate_domain_features series_std temperature_data
      = Raise IndexError
  | (_, first) :: _ =>
      exists domain_features,
        aggregate_domain_features series_std temperature_data
        = Ok domain_features /\
        forall d, str_mem d domain_features = true
                  <-> In d (map domain_id (rows first))
  end.
Proof.
  destruct temperature_data as [|[first_temp first] others]; [reflexivity|].
  rewrite aggregate_cons. cbv zeta. eexists. split; [reflexivity|].
  intros d. rewrite pass_mem. unfold collect_features. rewrite collect_mem.
  rewrite orb_false_r, mem_In. apply SamplerFacts.dedup_In.
Qed.

(** *** The values of the store *)

Lemma str_set_twice {V} (k : string) (v1 v2 : V) (d : dict string V) :
  dict_set String.eqb k v2 (dict_set String.eqb k v1 d)
  = dict_set String.eqb k v2 d.
Proof.
  induction d as [|[k0 v0] d IH]; simpl.
  - now rewrite String.eqb_refl.
  - destruct (String.eqb k k0) eqn:E; simpl; rewrite E; [reflexivity|].
    now rewrite IH.
Qed.

Lemma collect_values (temperature_data : dict string DataFrame)
    (P : FeatureRecord -> Prop) (domains : list DomainId) :
  (forall d, In d domains ->
     P (domain_record series_std temperature_data d)) ->
  forall acc : FeatureStore,
    (forall k v, In (k, v) acc -> P v) ->
    forall k v,
      In (k, v)
         (fold_left
            (fun domain_features domain =>
               let domain_features := str_set domain [] domain_features in
               str_set domain
                       (domain_record series_std temperature_data domain)
                       domain_features)
            domains acc) ->
      P v.
Proof.
  induction domains as [|x l IH]; intros Hl acc Hacc; cbn [fold_left];
    [exact Hacc|].
  apply IH; [intros; apply Hl; now right|].
  cbv zeta. unfold str_set. rewrite str_set_twice.
  refine (SamplerFacts.dict_set_inv String.eqb P _ _ _ Hacc _).
  apply Hl. now left.
Qed.

Lemma assign_values (temperature_data : dict string DataFrame)
    (P : FeatureRecord -> Prop) (domain_features : FeatureStore)
    (domain : DomainId) :
  (forall features v, P features ->
     P (str_set "stability_class" v features)) ->
  (forall k v, In (k, v) domain_features -> P v) ->
  forall k v,
    In (k, v) (assign_stability temperature_data domain_features domain) ->
    P v.
Proof.
  intros Hset Hfs. unfold assign_stability.
  destruct (str_mem "320" temperature_data && str_mem "450" temperature_data);
    [|exact Hfs].
  destruct (str_get domain domain_features) as [features|] eqn:E;
    [|exact Hfs].
  destruct (str_get "avg_rmsf_320" features) as [[a|?]|]; try exact Hfs.
  destruct (str_get "avg_rmsf_450" features) as [[b|?]|]; try exact Hfs.
  refine (SamplerFacts.dict_set_inv String.eqb P _ _ _ Hfs _).
  apply Hset. apply dict_get_In in E. destruct E as [k' Hk']. eauto.
Qed.

Lemma pass_values (temperature_data : dict string DataFrame)
    (P : FeatureRecord -> Prop) (keys : list DomainId) :
  (forall features v, P features ->
     P (str_set "stability_class" v features)) ->
  forall domain_features : FeatureStore,
    (forall k v, In (k, v) domain_features -> P v) ->
    forall k v,
      In (k, v) (fold_left (assign_stability temperature_data) keys
                           domain_features) ->
      P v.
Proof.
  intros Hset. induction keys as [|x l IH]; intros fs Hfs; cbn [fold_left];
    [exact Hfs|].
  apply IH. now apply assign_values.
Qed.

(** *** Complete records *)

Lemma table_features_keeps (temp : string) (data : DataFrame)
    (domain : DomainId) (features : FeatureRecord) (k : string) :
  str_mem k features = true ->
  str_mem k (table_features series_std temp data domain features) = true.
Proof.
  intros H. unfold table_features. cbv zeta.
  destruct (filter _ (rows data)) as [|first others]; [exact H|].
  unfold str_mem, str_set in *.
  destruct (mem String.eqb _ (columns data));
    rewrite !str_mem_set, H; now rewrite !orb_true_r.
Qed.

Lemma record_keeps (tables : dict string DataFrame) (domain : DomainId)
    (k : string) :
  forall features : FeatureRecord,
    str_mem k features = true ->
    str_mem k (fold_left
                 (fun features item =>
                    table_features series_std (fst item) (snd item) domain
                                   features)
                 tables features)
    = true.
Proof.
  induction tables as [|item l IH]; intros features H; cbn [fold_left];
    [exact H|].
  apply IH. now apply table_features_keeps.
Qed.

Lemma table_features_sets (temp : string) (data : DataFrame)
    (domain : DomainId) (features : FeatureRecord) :
  In domain (map domain_id (rows data)) ->
  Forall (fun k => str_mem k (table_features series_std temp data domain
                                             features) = true)
         [ "size"; "helix_pct"; "sheet_pct"; "coil_pct"; "core_ratio";
           "avg_accessibility" ]%string.
Proof.
  intros Hin. unfold table_features. cbv zeta.
  destruct (filter _ (rows data)) as [|first others] eqn:E.
  - exfalso. apply in_map_iff in Hin. destruct Hin as (row & Hid & Hrow).
    assert (H : In row (filter (fun row => String.eqb (domain_id row) domain)
                               (rows data))).
    { apply filter_In. split; [exact Hrow|]. rewrite Hid.
      apply String.eqb_refl. }
    rewrite E in H. contradiction.
  - unfold str_mem, str_set.
    destruct (mem String.eqb _ (columns data));
      repeat constructor; rewrite !str_mem_set; cbn [orb];
      rewrite ?String.eqb_refl; cbn [orb]; now rewrite ?orb_true_r.
Qed.

Lemma extracted_key (temperature_data : dict string DataFrame)
    (domain_features : FeatureStore) (d : DomainId)
    (features : FeatureRecord) (key : string) :
  In key [ "size"; "helix_pct"; "sheet_pct"; "coil_pct"; "core_ratio";
           "avg_accessibility" ]%string ->
  aggregate_domain_features series_std temperature_data
  = Ok domain_features ->
  str_get d domain_features = Some features ->
  str_mem key features = true.
Proof.
  intros Hkey.
  destruct temperature_data as [|[first_temp first] others]; [discriminate|].
  rewrite aggregate_cons. cbv zeta. intros H Hget. injection H as <-.
  apply dict_get_In in Hget. destruct Hget as [k Hk].
  refine (pass_values _ (fun rec => str_mem key rec = true) _ _ _ _
                      k features Hk).
  - intros rec v Hrec. unfold str_mem, str_set in *. rewrite str_mem_set.
    rewrite Hrec. apply orb_true_r.
  - unfold collect_features.
    refine (collect_values _ (fun rec => str_mem key rec = true) _ _ [] _);
      [|intros ? ? []].
    intros x Hx. apply (proj1 (SamplerFacts.dedup_In _ _)) in Hx.
    unfold domain_record. cbn [fold_left fst snd]. apply record_keeps.
    pose proof (table_features_sets first_temp first x [] Hx) as Hset.
    rewrite Forall_forall in Hset. now apply Hset.
Qed.

(** X18: every record that the extractor returns has the entries size,
    helix_pct, sheet_pct, coil_pct, core_ratio and avg_accessibility: the
    first table has rows for each of its own domains. *)
Theorem extracted_records_complete
    (temperature_data : dict string DataFrame)
    (domain_features : FeatureStore) (d : DomainId)
    (features : FeatureRecord) :
  aggregate_domain_features series_std temperature_data
  = Ok domain_features ->
  str_get d domain_features = Some features ->
  Forall (fun k => str_mem k features = true)
         [ "size"; "helix_pct"; "sheet_pct"; "coil_pct"; "core_ratio";
           "avg_accessibility" ]%string.
Proof.
  destruct temperature_data as [|[first_temp first] others]; [discriminate|].
  rewrite aggregate_cons. cbv zeta. intros H Hget. injection H as <-.
  apply dict_get_In in Hget. destruct Hget as [k Hk].
  set (P := fun features : FeatureRecord =>
              Forall (fun k => str_mem k features = true)
                     [ "size"; "helix_pct"; "sheet_pct"; "coil_pct";
                       "core_ratio"; "avg_accessibility" ]%string).
  change (P features).
  refine (pass_values _ P _ _ _ _ k features Hk).
  - intros rec v Hrec. unfold P in *. rewrite Forall_forall in *.
    intros key Hkey. unfold str_mem, str_set. rewrite str_mem_set.
    apply (Hrec key) in Hkey. unfold str_mem in Hkey. rewrite Hkey.
    apply orb_true_r.
  - unfold collect_features.
    refine (collect_values _ P _ _ [] _); [|intros ? ? []].
    intros x Hx. apply (proj1 (SamplerFacts.dedup_In _ _)) in Hx.
    unfold P, domain_record.
    cbn [fold_left fst snd].
    pose proof (table_features_sets first_temp first x [] Hx) as Hset.
    rewrite Forall_forall in *. intros key Hkey.
    apply record_keeps. now apply Hset.
Qed.

(** *** The stability class *)

Lemma table_features_fresh (temp : string) (data : DataFrame)
    (domain : DomainId) (features : FeatureRecord) :
  str_get "stability_class"
          (table_features series_std temp data domain features)
  = str_get "stability_class" features.
Proof.
  unfold table_features. cbv zeta.
  destruct (filter _ (rows data)) as [|first others]; [reflexivity|].
  unfold str_get, str_set.
  destruct (mem String.eqb _ (columns data));
    rewrite !str_get_set; reflexivity.
Qed.

Lemma record_fresh (tables : dict string DataFrame) (domain : DomainId) :
  forall features : FeatureRecord,
    str_get "stability_class"
            (fold_left
               (fun features item =>
                  table_features series_std (fst item) (snd item) domain
                                 features)
               tables features)
    = str_get "stability_class" features.
Proof.
  induction tables as [|item l IH]; intros features; cbn [fold_left];
    [reflexivity|].
  rewrite IH. apply table_features_fresh.
Qed.

Lemma class_after_set (temperature_data : dict string DataFrame)
    (features : FeatureRecord) (a b : Q) :
  str_mem "320" temperature_data && str_mem "450" temperature_data = true ->
  str_get "avg_rmsf_320" features = Some (VNum a) ->
  str_get "avg_rmsf_450" features = Some (VNum b) ->
  str_get "stability_class"
          (str_set "stability_class" (VStr (stability_class_of a b))
                   features)
  = expected_class temperature_data
      (str_set "stability_class" (VStr (stability_class_of a b)) features).
Proof.
  intros Hc Ha Hb. unfold expected_class. rewrite Hc.
  unfold str_get, str_set in *. rewrite !str_get_set.
  change (String.eqb "avg_rmsf_320" "stability_class") with false.
  change (String.eqb "avg_rmsf_450" "stability_class") with false.
  cbv iota. rewrite Ha, Hb. now rewrite String.eqb_refl.
Qed.

Lemma class_untouched (temperature_data : dict string DataFrame)
    (features : FeatureRecord) :
  str_get "stability_class" features = None ->
  expected_class temperature_data features = None ->
  str_get "stability_class" features
  = expected_class temperature_data features.
Proof. intros -> ->. reflexivity. Qed.

(** One step of the stability loop: the visited record is settled, the
    others wait. *)
Lemma assign_step (temperature_data : dict string DataFrame)
    (domain_features : FeatureStore) (k : DomainId)
    (pending : list DomainId) :
  (forall d features,
     str_get d domain_features = Some features ->
     str_get "stability_class" features
     = expected_class temperature_data features \/
     (str_get "stability_class" features = None /\ In d (k :: pending))) ->
  forall d features,
    str_get d (assign_stability temperature_data domain_features k)
    = Some features ->
    str_get "stability_class" features
    = expected_class temperature_data features \/
    (str_get "stability_class" features = None /\ In d pending).
Proof.
  intros Hinv d features. unfold assign_stability.
  assert (Hother : d <> k -> str_get d domain_features = Some features ->
            str_get "stability_class" features
            = expected_class temperature_data features \/
            (str_get "stability_class" features = None /\ In d pending)).
  { intros Hne Hget.
    destruct (Hinv d features Hget) as [HR|[Hfresh [E|Hin]]];
      [now left | congruence | right; now split]. }
  destruct (str_mem "320" temperature_data && str_mem "450" temperature_data)
    eqn:Hc.
  2:{ intros Hget. left.
      destruct (Hinv d features Hget) as [HR|[Hfresh _]]; [exact HR|].
      apply class_untouched; [exact Hfresh|].
      unfold expected_class. now rewrite Hc. }
  destruct (str_get k domain_features) as [f|] eqn:Ek.
  2:{ intros Hget. apply Hother; [|exact Hget]. intros ->. congruence. }
  assert (Hsame : expected_class temperature_data f = None ->
            str_get d domain_features = Some features ->
            str_get "stability_class" features
            = expected_class temperature_data features \/
            (str_get "stability_class" features = None /\ In d pending)).
  { intros Hnone Hget. destruct (String.eqb_spec d k) as [->|Hne];
      [|now apply Hother].
    assert (features = f) by congruence. subst f. left.
    destruct (Hinv k features Hget) as [HR|[Hfresh _]]; [exact HR|].
    now apply class_untouched. }
  destruct (str_get "avg_rmsf_320" f) as [[a|s1]|] eqn:E320;
    try (apply Hsame; unfold expected_class; rewrite Hc, E320; reflexivity).
  destruct (str_get "avg_rmsf_450" f) as [[b|s2]|] eqn:E450;
    try (apply Hsame; unfold expected_class; rewrite Hc, E320, E450;
         reflexivity).
  unfold str_get at 1. unfold str_set at 1. rewrite str_get_set.
  destruct (String.eqb_spec d k) as [->|Hne]; [|now apply Hother].
  intros H. injection H as <-. left. now apply class_after_set.
Qed.

Lemma pass_settles (temperature_data : dict string DataFrame)
    (keys pending : list DomainId) :
  forall domain_features : FeatureStore,
    (forall d features,
       str_get d domain_features = Some features ->
       str_get "stability_class" features
       = expected_class temperature_data features \/
       (str_get "stability_class" features = None /\
        In d (keys ++ pending))) ->
    forall d features,
      str_get d (fold_left (assign_stability temperature_data) keys
                           domain_features)
      = Some features ->
      str_get "stability_class" features
      = expected_class temperature_data features \/
      (str_get "stability_class" features = None /\ In d pending).
Proof.
  induction keys as [|k l IH]; intros fs Hinv; cbn [fold_left];
    [exact Hinv|].
  apply IH. now apply assign_step.
Qed.

(** X19: a record that the extractor returns has a stability class exactly
    when there is a table for 320 and one for 450 and the record has both
    average fluctuations; the class is then the one of their ratio, and
    the record has no such entry otherwise. *)
Theorem stability_class_assigned
    (temperature_data : dict string DataFrame)
    (domain_features : FeatureStore) (d : DomainId)
    (features : FeatureRecord) :
  aggregate_domain_features series_std temperature_data
  = Ok domain_features ->
  str_get d domain_features = Some features ->
  str_get "stability_class" features
  = expected_class temperature_data features.
Proof.
  destruct temperature_data as [|[first_temp first] others]; [discriminate|].
  rewrite aggregate_cons. cbv zeta. intros H Hget. injection H as <-.
  set (temperature_data := (first_temp, first) :: others) in *.
  set (fs := collect_features series_std temperature_data
               (dedup String.eqb (map domain_id (rows first)))) in *.
  destruct (pass_settles temperature_data (dict_keys String.eqb fs) [] fs)
    with (d := d) (features := features) as [HR|[_ []]];
    [|exact Hget|exact HR].
  intros x rec Hx. right. split.
  - pose proof (dict_get_In _ _ _ _ Hx) as [k Hk].
    clear Hx. revert k rec Hk. unfold fs, collect_features.
    refine (collect_values temperature_data
              (fun rec => str_get "stability_class" rec = None) _ _ [] _);
      [|intros ? ? []].
    intros y _. unfold domain_record. now rewrite record_fresh.
  - rewrite app_nil_r. apply SamplerFacts.dict_keys_In.
    unfold dict_mem. unfold str_get in Hx. now rewrite Hx.
Qed.

(** *** Fractions *)

Lemma dssp_counts_le (domain_data : list Row) :
  dssp_count "H" domain_data + dssp_count "G" domain_data
  + dssp_count "I" domain_data
  + (dssp_count "E" domain_data + dssp_count "B" domain_data)
  <= List.length domain_data.
Proof.
  unfold dssp_count. induction domain_data as [|row l IH]; [simpl; lia|].
  cbn [filter].
  repeat match goal with
         | |- context [String.eqb (dssp row) ?c] =>
             destruct (String.eqb_spec (dssp row) c)
         end;
    cbn [List.length]; try lia; congruence.
Qed.

Lemma core_count_le (domain_data : list Row) :
  List.length (filter (fun row => String.eqb (core_exterior row) "core")
                      domain_data)
  <= List.length domain_data.
Proof.
  induction domain_data as [|row l IH]; [simpl; lia|].
  cbn [filter]. destruct (String.eqb (core_exterior row) "core");
    cbn [List.length]; lia.
Qed.

Lemma fraction_bounds (a b n : nat) :
  a + b <= n ->
  (0 <= fraction a n <= 1)%Q /\ (0 <= fraction b n <= 1)%Q /\
  (0 <= 1 - (fraction a n + fraction b n) <= 1)%Q.
Proof.
  intros Hab. unfold fraction. destruct (0 <? n) eqn:E.
  - apply Nat.ltb_lt in E.
    assert (Hn : (0 < inject_Z (Z.of_nat n))%Q).
    { change 0%Q with (inject_Z 0). rewrite <- Zlt_Qlt. lia. }
    assert (Ha : (0 <= inject_Z (Z.of_nat a) / inject_Z (Z.of_nat n))%Q).
    { apply Qle_shift_div_l; [exact Hn|]. rewrite Qmult_0_l.
      change 0%Q with (inject_Z 0). rewrite <- Zle_Qle. lia. }
    assert (Hb : (0 <= inject_Z (Z.of_nat b) / inject_Z (Z.of_nat n))%Q).
    { apply Qle_shift_div_l; [exact Hn|]. rewrite Qmult_0_l.
      change 0%Q with (inject_Z 0). rewrite <- Zle_Qle. lia. }
    assert (Hsum : (inject_Z (Z.of_nat a) / inject_Z (Z.of_nat n)
                    + inject_Z (Z.of_nat b) / inject_Z (Z.of_nat n)
                    <= 1)%Q).
    { setoid_replace (inject_Z (Z.of_nat a) / inject_Z (Z.of_nat n)
                      + inject_Z (Z.of_nat b) / inject_Z (Z.of_nat n))%Q
        with ((inject_Z (Z.of_nat a) + inject_Z (Z.of_nat b))
              / inject_Z (Z.of_nat n))%Q
        by (unfold Qdiv; ring).
      apply Qle_shift_div_r; [exact Hn|]. rewrite Qmult_1_l.
      rewrite <- inject_Z_plus, <- Zle_Qle. lia. }
    repeat split; Lqa.lra.
  - repeat split; Lqa.lra.
Qed.

Lemma table_features_fractions (temp : string) (data : DataFrame)
    (domain : DomainId) (features : FeatureRecord) :
  Forall (fun k => exists q, str_get k features = Some (VNum q) /\
                             (0 <= q <= 1)%Q)
         [ "helix_pct"; "sheet_pct"; "coil_pct"; "core_ratio" ]%string \/
  In domain (map domain_id (rows data)) ->
  Forall (fun k => exists q,
            str_get k (table_features series_std temp data domain features)
            = Some (VNum q) /\
            (0 <= q <= 1)%Q)
         [ "helix_pct"; "sheet_pct"; "coil_pct"; "core_ratio" ]%string.
Proof.
  intros H. unfold table_features. cbv zeta.
  destruct (filter _ (rows data)) as [|first others] eqn:E.
  - destruct H as [H|Hin]; [exact H|]. exfalso.
    apply in_map_iff in Hin. destruct Hin as (row & Hid & Hrow).
    assert (Hf : In row (filter (fun row => String.eqb (domain_id row) domain)
                                (rows data))).
    { apply filter_In. split; [exact Hrow|]. rewrite Hid.
      apply String.eqb_refl. }
    rewrite E in Hf. contradiction.
  - clear H E. set (domain_data := first :: others).
    pose proof (dssp_counts_le domain_data) as Hcounts.
    pose proof (core_count_le domain_data) as Hcore.
    destruct (fraction_bounds
                (dssp_count "H" domain_data + dssp_count "G" domain_data
                 + dssp_count "I" domain_data)
                (dssp_count "E" domain_data + dssp_count "B" domain_data)
                (List.length domain_data) Hcounts)
      as (Hhelix & Hsheet & Hcoil).
    destruct (fraction_bounds
                (List.length
                   (filter (fun row => String.eqb (core_exterior row) "core")
                           domain_data))
                0 (List.length domain_data))
      as (Hratio & _ & _); [lia|].
    unfold str_get, str_set.
    destruct (mem String.eqb _ (columns data));
      repeat constructor; rewrite !str_get_set;
      (eexists; split; [reflexivity | assumption]).
Qed.

Lemma record_fractions (tables : dict string DataFrame) (domain : DomainId) :
  forall features : FeatureRecord,
    Forall (fun k => exists q, str_get k features = Some (VNum q) /\
                               (0 <= q <= 1)%Q)
           [ "helix_pct"; "sheet_pct"; "coil_pct"; "core_ratio" ]%string ->
    Forall (fun k => exists q,
              str_get k (fold_left
                           (fun features item =>
                              table_features series_std (fst item) (snd item)
                                             domain features)
                           tables features)
              = Some (VNum q) /\
              (0 <= q <= 1)%Q)
           [ "helix_pct"; "sheet_pct"; "coil_pct"; "core_ratio" ]%string.
Proof.
  induction tables as [|item l IH]; intros features H; cbn [fold_left];
    [exact H|].
  apply IH. apply table_features_fractions. now left.
Qed.

(** X21: in every record that the extractor returns, helix_pct, sheet_pct,
    coil_pct and core_ratio are numbers between 0 and 1: the helix and the
    sheet codes are counted on disjoint sets of residues. *)
Theorem extracted_fractions_in_unit_interval
    (temperature_data : dict string DataFrame)
    (domain_features : FeatureStore) (d : DomainId)
    (features : FeatureRecord) :
  aggregate_domain_features series_std temperature_data
  = Ok domain_features ->
  str_get d domain_features = Some features ->
  Forall (fun k => exists q, str_get k features = Some (VNum q) /\
                             (0 <= q <= 1)%Q)
         [ "helix_pct"; "sheet_pct"; "coil_pct"; "core_ratio" ]%string.
Proof.
  destruct temperature_data as [|[first_temp first] others]; [discriminate|].
  rewrite aggregate_cons. cbv zeta. intros H Hget. injection H as <-.
  apply dict_get_In in Hget. destruct Hget as [k Hk].
  set (P := fun features : FeatureRecord =>
              Forall (fun k => exists q, str_get k features = Some (VNum q) /\
                                         (0 <= q <= 1)%Q)
                     [ "helix_pct"; "sheet_pct"; "coil_pct";
                       "core_ratio" ]%string).
  change (P features).
  refine (pass_values _ P _ _ _ _ k features Hk).
  - intros rec v Hrec. unfold P in *.
    repeat match goal with
           | H : Forall _ (_ :: _) |- _ => inversion H; clear H; subst
           end.
    unfold str_get, str_set in *.
    repeat constructor; rewrite str_get_set; assumption.
  - unfold collect_features.
    refine (collect_values _ P _ _ [] _); [|intros ? ? []].
    intros x Hx. apply (proj1 (SamplerFacts.dedup_In _ _)) in Hx.
    unfold P, domain_record. cbn [fold_left fst snd].
    apply record_fractions. apply table_features_fractions. now right.
Qed.

End WithPandas.

Lemma extracted_fractions_in_unit_interval_witness :
  exists domain_features features,
    aggregate_domain_features no_std sample_tables = Ok domain_features /\
    str_get "1abcA00"%string domain_features = Some features /\
    Forall (fun k => exists q, str_get k features = Some (VNum q) /\
                               (0 <= q <= 1)%Q)
           [ "helix_pct"; "sheet_pct"; "coil_pct"; "core_ratio" ]%string.
Proof.
  eexists. eexists. split; [reflexivity|].
  split; [reflexivity|].
  apply (extracted_fractions_in_unit_interval no_std sample_tables
           _ "1abcA00"%string _ eq_refl).
  reflexivity.
Defined.

(** *** Loading the tables *)

Section WithReader.
Variable read_csv : string -> result DataFrame.

Lemma load_raise (file_paths : list string) (e : exn) :
  fold_left
    (fun temperature_data file_path =>
       rbind temperature_data (fun acc =>
       rbind (temperature_of file_path) (fun temp =>
       rbind (read_csv file_path) (fun data =>
       Ok (str_set temp data acc)))))
    file_paths (Raise e)
  = Raise e.
Proof. induction file_paths as [|p l IH]; [reflexivity | exact IH]. Qed.

Lemma load_from_keys (file_paths : list string) :
  forall acc temperature_data : dict string DataFrame,
    fold_left
      (fun temperature_data file_path =>
         rbind temperature_data (fun acc =>
         rbind (temperature_of file_path) (fun temp =>
         rbind (read_csv file_path) (fun data =>
         Ok (str_set temp data acc)))))
      file_paths (Ok acc)
    = Ok temperature_data ->
    forall temp,
      str_mem temp temperature_data = true <->
      str_mem temp acc = true \/
      exists file_path,
        In file_path file_paths /\ temperature_of file_path = Ok temp.
Proof.
  induction file_paths as [|p l IH]; intros acc td H temp;
    cbn [fold_left rbind] in H.
  - injection H as <-. split; [now left|].
    intros [Hm|(q & [] & _)]. exact Hm.
  - destruct (temperature_of p) as [t|e] eqn:Et; cbn [rbind] in H;
      [|rewrite load_raise in H; discriminate].
    destruct (read_csv p) as [data|e] eqn:Er; cbn [rbind] in H;
      [|rewrite load_raise in H; discriminate].
    rewrite (IH _ _ H temp). unfold str_mem, str_set. rewrite str_mem_set.
    split.
    + intros [Hm|(q & Hq & Htq)].
      * apply orb_true_iff in Hm. destruct Hm as [E|Hm]; [|now left].
        apply String.eqb_eq in E. subst t. right. exists p.
        split; [now left | exact Et].
      * right. exists q. split; [now right | exact Htq].
    + intros [Hm|(q & [<-|Hq] & Htq)].
      * left. unfold str_mem in Hm. rewrite Hm. apply orb_true_r.
      * left. rewrite Et in Htq. injection Htq as ->.
        now rewrite String.eqb_refl.
      * right. exists q. now split.
Qed.

(** X22: when every file is read, the dictionary of tables has a key
    exactly for the temperatures named by the paths: two paths that name
    the same temperature share one key. *)
Theorem loaded_keys (file_paths : list string)
    (temperature_data : dict string DataFrame) :
  load_temperature_data read_csv file_paths = Ok temperature_data ->
  forall temp,
    str_mem temp temperature_data = true <->
    exists file_path,
      In file_path file_paths /\ temperature_of file_path = Ok temp.
Proof.
  intros H temp. unfold load_temperature_data in H.
  rewrite (load_from_keys file_paths [] temperature_data H temp).
  split; [intros [Hm|Hp]; [discriminate | exact Hp] | now right].
Qed.

End WithReader.

Lemma loaded_keys_witness :
  load_temperature_data read_sample main_file_paths
  = Ok [ ("320", table_320); ("348", table_320); ("379", table_320);
         ("413", table_320); ("450", table_320); ("avg", table_320) ]%string
  /\
  (str_mem "avg"%string
     [ ("320", table_320); ("348", table_320); ("379", table_320);
       ("413", table_320); ("450", table_320); ("avg", table_320) ]%string
   = true <->
   exists file_path,
     In file_path main_file_paths /\
     temperature_of file_path = Ok "avg"%string).
Proof.
  assert (Hrun : load_temperature_data read_sample main_file_paths
                 = Ok [ ("320", table_320); ("348", table_320);
                        ("379", table_320); ("413", table_320);
                        ("450", table_320); ("avg", table_320) ]%string)
    by (vm_compute; reflexivity).
  split; [exact Hrun|].
  exact (loaded_keys read_sample main_file_paths _ Hrun "avg"%string).
Defined.

Lemma stability_class_assigned_witness :
  exists domain_features features,
    aggregate_domain_features no_std sample_tables = Ok domain_features /\
    str_get "1abcA00"%string domain_features = Some features /\
    str_get "stability_class"%string features
    = expected_class sample_tables features /\
    expected_class sample_tables features = Some (VStr "moderate").
Proof.
  eexists. eexists. split; [reflexivity|].
  split; [reflexivity|]. split.
  - apply (stability_class_assigned no_std sample_tables _ "1abcA00"%string
             _ eq_refl).
    reflexivity.
  - vm_compute. reflexivity.
Defined.

(** X20: for a positive average at 320 the class compares the average at
    450 with twice and with four times the average at 320: stable below
    twice, moderate from twice to below four times, unstable from four
    times on. *)
Theorem stability_thresholds (avg_rmsf_320 avg_rmsf_450 : Q) :
  (0 < avg_rmsf_320)%Q ->
  stability_class_of avg_rmsf_320 avg_rmsf_450
  = if Qlt_le_dec avg_rmsf_450 (2 * avg_rmsf_320) then "stable"%string
    else if Qlt_le_dec avg_rmsf_450 (4 * avg_rmsf_320) then "moderate"%string
    else "unstable"%string.
Proof.
  intros Hpos. unfold stability_class_of.
  destruct (Qeq_bool avg_rmsf_320 0) eqn:E.
  { apply Qeq_bool_iff in E. rewrite E in Hpos.
    exfalso. exact (Qlt_irrefl 0 Hpos). }
  cbv zeta.
  destruct (Qlt_le_dec (avg_rmsf_450 / avg_rmsf_320) 2) as [H2|H2];
    destruct (Qlt_le_dec avg_rmsf_450 (2 * avg_rmsf_320)) as [P2|P2].
  - reflexivity.
  - exfalso. apply (Qlt_not_le _ _ H2).
    now apply Qle_shift_div_l.
  - exfalso.
    exact (Qlt_not_le _ _ (Qlt_shift_div_r _ _ _ Hpos P2) H2).
  - destruct (Qlt_le_dec (avg_rmsf_450 / avg_rmsf_320) 4) as [H4|H4];
      destruct (Qlt_le_dec avg_rmsf_450 (4 * avg_rmsf_320)) as [P4|P4].
    + reflexivity.
    + exfalso. apply (Qlt_not_le _ _ H4). now apply Qle_shift_div_l.
    + exfalso.
      exact (Qlt_not_le _ _ (Qlt_shift_div_r _ _ _ Hpos P4) H4).
    + reflexivity.
Qed.

Lemma stability_thresholds_witness :
  stability_class_of 1 3 = "moderate"%string.
Proof.
  exact (stability_thresholds 1 3 eq_refl).
Defined.

Lemma extracted_records_complete_witness :
  Forall (fun k =>
            str_mem k
              [ ("size", VNum 3); ("helix_pct", VNum 0);
                ("sheet_pct", VNum 0); ("coil_pct", VNum 1);
                ("core_ratio", VNum 1); ("avg_accessibility", VNum (1 # 4));
                ("avg_rmsf_320", VNum 1); ("std_rmsf_320", VNum 0) ]%string
            = true)
         [ "size"; "helix_pct"; "sheet_pct"; "coil_pct"; "core_ratio";
           "avg_accessibility" ]%string.
Proof.
  apply (extracted_records_complete no_std sample_tables
           _ "1defA00"%string _ eq_refl).
  vm_compute. reflexivity.
Defined.

End ExtractorFacts.

(** ** From the tables to the validator *)

Module PipelineFacts.
Import Validation FeatureExtractor.

Section WithRuntime.
Context {RT : Runtime}.

Hypothesis kstest_returns :
  forall a b : list value, exists p, kstest a b = Ok p.

Lemma column_returns (domain_features : FeatureStore) (field : string)
    (ds : list DomainId) :
  (forall d, In d ds ->
     exists rec, str_get d domain_features = Some rec /\
                 str_mem field rec = true) ->
  exists col, feature_column domain_features field ds = Ok col.
Proof.
  intros H. unfold feature_column. apply BucketFacts.rmap_total.
  intros d Hd. destruct (H d Hd) as (rec & Hrec & Hf).
  unfold dict_index. unfold str_get in Hrec. rewrite Hrec. cbn [rbind].
  unfold str_mem, dict_mem in Hf.
  destruct (dict_get String.eqb field rec) as [v|]; [eauto | discriminate].
Qed.

Lemma having_returns (domain_features : FeatureStore) (field : string)
    (ds : list DomainId) :
  (forall d, In d ds -> exists rec, str_get d domain_features = Some rec) ->
  exists kept,
    having domain_features field ds = Ok kept /\
    forall d, In d kept ->
      exists rec, str_get d domain_features = Some rec /\
                  str_mem field rec = true.
Proof.
  intros H. unfold having.
  destruct (BucketFacts.rmap_total
              (fun d => rbind (dict_index d domain_features)
                              (fun rec => Ok (d, str_mem field rec))) ds)
    as [pairs Hpairs].
  { intros d Hd. destruct (H d Hd) as [rec Hrec].
    unfold dict_index. unfold str_get in Hrec. rewrite Hrec. cbn [rbind].
    eauto. }
  rewrite Hpairs. cbn [rbind]. eexists. split; [reflexivity|].
  intros d Hd. apply in_map_iff in Hd. destruct Hd as ([d' b] & Hfst & Hin).
  cbn [fst] in Hfst. subst d'. apply filter_In in Hin.
  destruct Hin as [Hin Hb]. cbn [snd] in Hb. subst b.
  apply BucketFacts.rmap_Forall2 in Hpairs.
  destruct (StratumFacts.Forall2_In_r _ _ _ _ Hpairs Hin) as (x & Hx & Hfx).
  cbv beta in Hfx. destruct (H x Hx) as [rec Hrec].
  unfold dict_index in Hfx. unfold str_get in Hrec. rewrite Hrec in Hfx.
  cbn [rbind] in Hfx. injection Hfx as Hd Hm. subst x.
  exists rec. split; [exact Hrec | exact Hm].
Qed.

Lemma stability_column_returns (domain_features : FeatureStore)
    (ds : list DomainId) :
  (forall d, In d ds -> exists rec, str_get d domain_features = Some rec) ->
  exists col, stability_column domain_features ds = Ok col.
Proof.
  intros H. unfold stability_column. apply BucketFacts.rmap_total.
  intros d Hd. destruct (H d Hd) as [rec Hrec].
  unfold dict_index. unfold str_get in Hrec. rewrite Hrec. cbn [rbind].
  eauto.
Qed.

Section CompleteStore.
Variable domain_features : FeatureStore.
Variables holdout_with_features all_with_features : list DomainId.

Hypothesis complete :
  forall d rec, str_get d domain_features = Some rec ->
    Forall (fun k => str_mem k rec = true)
           [ "size"; "helix_pct"; "sheet_pct" ]%string.
Hypothesis holdout_known :
  forall d, In d holdout_with_features ->
    exists rec, str_get d domain_features = Some rec.
Hypothesis all_known :
  forall d, In d all_with_features ->
    exists rec, str_get d domain_features = Some rec.
Hypothesis holdout_nonempty : holdout_with_features <> [].

Lemma complete_column (field : string) (ds : list DomainId) :
  In field [ "size"; "helix_pct"; "sheet_pct" ]%string ->
  (forall d, In d ds -> exists rec, str_get d domain_features = Some rec) ->
  exists col, feature_column domain_features field ds = Ok col.
Proof.
  intros Hfield Hds. apply column_returns. intros d Hd.
  destruct (Hds d Hd) as [rec Hrec]. exists rec. split; [exact Hrec|].
  pose proof (complete d rec Hrec) as Hc. rewrite Forall_forall in Hc.
  now apply Hc.
Qed.

Lemma validate_size_returns (validation_results : ValidationResult) :
  exists res,
    validate_size domain_features holdout_with_features all_with_features
                  validation_results
    = Ok res.
Proof.
  unfold validate_size.
  destruct (complete_column "size" holdout_with_features) as [c1 H1];
    [simpl; tauto | exact holdout_known |].
  destruct (complete_column "size" all_with_features) as [c2 H2];
    [simpl; tauto | exact all_known |].
  destruct (kstest_returns c1 c2) as [p Hp].
  rewrite H1. cbn [rbind]. rewrite H2. cbn [rbind]. rewrite Hp. cbn [rbind].
  eauto.
Qed.

Lemma first_record_returns :
  exists first,
    first_record domain_features holdout_with_features = Ok first.
Proof.
  unfold first_record. destruct holdout_with_features as [|d l];
    [now destruct holdout_nonempty|].
  cbn. eauto.
Qed.

Lemma validate_rmsf_returns (validation_results : ValidationResult) :
  exists res,
    validate_rmsf domain_features holdout_with_features all_with_features
                  validation_results
    = Ok res.
Proof.
  unfold validate_rmsf. destruct first_record_returns as [first Hfirst].
  rewrite Hfirst. cbn [rbind].
  destruct (str_mem "avg_rmsf_320" first); [|eauto].
  destruct (having_returns domain_features "avg_rmsf_320"
              holdout_with_features holdout_known) as (hs & Hhs & Hhs').
  destruct (having_returns domain_features "avg_rmsf_320"
              all_with_features all_known) as (als & Hals & Hals').
  destruct (column_returns domain_features "avg_rmsf_320" hs Hhs')
    as [c1 H1].
  destruct (column_returns domain_features "avg_rmsf_320" als Hals')
    as [c2 H2].
  destruct (kstest_returns c1 c2) as [p Hp].
  rewrite Hhs. cbn [rbind]. rewrite H1. cbn [rbind].
  rewrite Hals. cbn [rbind]. rewrite H2. cbn [rbind].
  rewrite Hp. cbn [rbind]. eauto.
Qed.

Lemma validate_secondary_returns (validation_results : ValidationResult) :
  exists res,
    validate_secondary domain_features holdout_with_features
                       all_with_features validation_results
    = Ok res.
Proof.
  unfold validate_secondary.
  destruct (complete_column "helix_pct" holdout_with_features) as [c1 H1];
    [simpl; tauto | exact holdout_known |].
  destruct (complete_column "helix_pct" all_with_features) as [c2 H2];
    [simpl; tauto | exact all_known |].
  destruct (complete_column "sheet_pct" holdout_with_features) as [c3 H3];
    [simpl; tauto | exact holdout_known |].
  destruct (complete_column "sheet_pct" all_with_features) as [c4 H4];
    [simpl; tauto | exact all_known |].
  destruct (kstest_returns c1 c2) as [p Hp].
  destruct (kstest_returns c3 c4) as [q Hq].
  rewrite H1. cbn [rbind]. rewrite H2. cbn [rbind].
  rewrite H3. cbn [rbind]. rewrite H4. cbn [rbind].
  rewrite Hp. cbn [rbind]. rewrite Hq. cbn [rbind]. eauto.
Qed.

Lemma validate_stability_returns (validation_results : ValidationResult) :
  exists res,
    validate_stability domain_features holdout_with_features
                       all_with_features validation_results
    = Ok res.
Proof.
  unfold validate_stability. destruct first_record_returns as [first Hfirst].
  rewrite Hfirst. cbn [rbind].
  destruct (str_mem "stability_class" first); [|eauto].
  destruct (stability_column_returns domain_features holdout_with_features
              holdout_known) as [c1 H1].
  destruct (stability_column_returns domain_features all_with_features
              all_known) as [c2 H2].
  rewrite H1. cbn [rbind]. rewrite H2. cbn [rbind]. eauto.
Qed.

End CompleteStore.

Lemma with_features_known (domain_features : FeatureStore)
    (ds : list DomainId) (d : DomainId) :
  In d (filter (fun d => str_mem d domain_features) ds) ->
  exists rec, str_get d domain_features = Some rec.
Proof.
  intros Hd. apply filter_In in Hd. destruct Hd as [_ Hd].
  unfold str_mem, dict_mem, str_get in *.
  destruct (dict_get String.eqb d domain_features) as [rec|];
    [eauto | discriminate].
Qed.

Lemma validation_on_complete_store
    (holdout_domains all_domains : list DomainId)
    (domain_features : FeatureStore) (cath_dict : ClassificationIndex) :
  (forall d rec, str_get d domain_features = Some rec ->
     Forall (fun k => str_mem k rec = true)
            [ "size"; "helix_pct"; "sheet_pct" ]%string) ->
  (exists d, In d holdout_domains /\ str_mem d domain_features = true) ->
  exists res,
    statistical_validation holdout_domains all_domains domain_features
                           cath_dict
    = Ok res.
Proof.
  intros Hcomplete (d0 & Hd0 & Hm0). unfold statistical_validation.
  cbv zeta.
  set (hw := filter (fun d => str_mem d domain_features) holdout_domains).
  set (aw := filter (fun d => str_mem d domain_features) all_domains).
  assert (Hhw : forall d, In d hw ->
            exists rec, str_get d domain_features = Some rec)
    by (intros d; apply with_features_known).
  assert (Haw : forall d, In d aw ->
            exists rec, str_get d domain_features = Some rec)
    by (intros d; apply with_features_known).
  assert (Hne : hw <> []).
  { intros E. assert (Hin : In d0 hw) by (apply filter_In; now split).
    rewrite E in Hin. contradiction. }
  destruct (validate_size_returns domain_features hw aw Hcomplete Hhw Haw [])
    as [r1 H1].
  rewrite H1. cbn [rbind].
  destruct (validate_rmsf_returns domain_features hw aw Hhw Haw Hne r1)
    as [r2 H2].
  rewrite H2. cbn [rbind].
  destruct (validate_secondary_returns domain_features hw aw Hcomplete
              Hhw Haw r2) as [r3 H3].
  rewrite H3. cbn [rbind].
  destruct (validate_stability_returns domain_features hw aw Hhw Haw Hne
              (validate_class (cath_of cath_dict holdout_domains)
                              (cath_of cath_dict all_domains) r3))
    as [r4 H4].
  rewrite H4. cbn [rbind]. eauto.
Qed.

(** X23: on the features that the extractor returns, the validator raises
    no KeyError: when the tests return and one holdout domain has a
    record, it returns a result. *)
Theorem validation_of_extracted_features (series_std : list Q -> value)
    (temperature_data : dict string DataFrame)
    (domain_features : FeatureStore)
    (holdout_domains all_domains : list DomainId)
    (cath_dict : ClassificationIndex) :
  aggregate_domain_features series_std temperature_data
  = Ok domain_features ->
  (exists d, In d holdout_domains /\ str_mem d domain_features = true) ->
  exists res,
    statistical_validation holdout_domains all_domains domain_features
                           cath_dict
    = Ok res.
Proof.
  intros Hagg Hsome. apply validation_on_complete_store; [|exact Hsome].
  intros d rec Hrec. rewrite Forall_forall. intros k Hk.
  apply (ExtractorFacts.extracted_key series_std temperature_data
           domain_features d rec k); [|exact Hagg|exact Hrec].
  simpl in *. tauto.
Qed.

End WithRuntime.

Import Demo.

Lemma validation_of_extracted_features_witness :
  exists domain_features res,
    aggregate_domain_features no_std sample_tables = Ok domain_features /\
    statistical_validation (RT := accepting) [ "1abcA00"%string ]
      [ "1abcA00"; "1defA00" ]%string domain_features cath3
    = Ok res.
Proof.
  eexists.
  destruct (validation_of_extracted_features (RT := accepting)
              (fun a b => ex_intro _ 1%R eq_refl)
              no_std sample_tables _ [ "1abcA00"%string ]
              [ "1abcA00"; "1defA00" ]%string cath3 eq_refl)
    as [res Hres].
  - exists "1abcA00"%string. split; [now left | reflexivity].
  - exists res. split; [reflexivity | exact Hres].
Defined.

End PipelineFacts.
